(** * mdmb: profile-payload installation and the SCEP identity lifecycle

    A shallow embedding of [internal/device/profiles.go] (the payload
    installer and the CSR builder that is concatenated to it) and of
    [internal/device/mdmclient.go] (the enrollment transition).

    Go values are modelled as follows.
    - [int] is [Z]; [byte] is a [Z] in [0, 256) with the wrap-around of
      shifts written out.
    - [string] is [string]; [[]byte] is [list byte] for opaque documents and
      [list Z] where the code computes on the bytes.
    - [error] is a value: a function that returns [error] returns
      [option error] ([None] is [nil]); a function that returns
      [(T, error)] returns a pair.
    - A run-time panic aborts every caller; it is the [Panicked] outcome of
      the monad [M].
    - The bolt buckets are finite maps ([gmap]) in the machine state.
    - A call that leaves the process (random source, network, database
      transaction) appends an [Event] to the trace of the state; its
      answer is read from a [World] at the position of the call in the
      trace, so a theorem quantified over worlds covers every behaviour of
      the collaborators.

    [MDMClient.Enroll], [saveMDMIdentity] and [loadMDMPayload], the older
    enrollment path of mdmclient.go, and the command line of cmd/mdmb are
    not called by the installer and are left out. *)

From Stdlib Require Import ZArith Lia List Bool Ascii Sorted.
From stdpp Require Import base option list strings gmap fin_maps.

Local Open Scope string_scope.
Local Open Scope Z_scope.

(** ** Errors *)

(** [errors.New msg] and [fmt.Errorf]: the model keeps the message, and of
    a formatted message the constant text and the [%s] arguments. *)
Inductive error : Type :=
| errors_New (msg : string).

#[global] Instance error_eq_dec : EqDecision error.
Proof. solve_decision. Defined.

(** ** ASN.1 key usage (CSR builder) *)

Module KeyUsage.

(** [byte(x)] for an [int] x: the low eight bits. *)
Definition byte_of (x : Z) : Z := Z.land x 255.

(** [reverseBitsInAByte]. Every intermediate value is a Go [byte], so a
    left shift loses the bits pushed past bit 7. *)
Definition reverseBitsInAByte (i : Z) : Z :=
  let b1 := Z.lor (Z.shiftr i 4) (byte_of (Z.shiftl i 4)) in
  let b2 := Z.lor (Z.land (Z.shiftr b1 2) 0x33)
                  (Z.land (byte_of (Z.shiftl b1 2)) 0xcc) in
  let b3 := Z.lor (Z.land (Z.shiftr b2 1) 0x55)
                  (Z.land (byte_of (Z.shiftl b2 1)) 0xaa) in
  b3.

(** The inner loop of [asn1BitLength]: [bit] runs from [8 - n] to 7.
    [inl len] is the [return bitLen]; [inr len] is the value of [bitLen]
    after the loop. *)
Fixpoint bitLoop (b : Z) (n : nat) (bit : Z) (bitLen : Z) : Z + Z :=
  match n with
  | O => inr bitLen
  | S n' =>
      if Z.land (Z.shiftr b bit) 1 =? 1 then inl bitLen
      else bitLoop b n' (bit + 1) (bitLen - 1)
  end.

(** The outer loop of [asn1BitLength] over the bytes, last byte first
    ([rev_bytes] is the slice reversed). *)
Fixpoint byteLoop (rev_bytes : list Z) (bitLen : Z) : Z :=
  match rev_bytes with
  | [] => 0
  | b :: rest =>
      match bitLoop b 8 0 bitLen with
      | inl len => len
      | inr len => byteLoop rest len
      end
  end.

Definition asn1BitLength (bitString : list Z) : Z :=
  byteLoop (rev bitString) (Z.of_nat (length bitString) * 8).

(** [asn1.BitString]. *)
Record BitString : Type := mkBitString {
  Bytes : list Z;
  BitLength : Z
}.

(** [pkix.Extension]. *)
Record Extension : Type := mkExtension {
  Id : list Z;
  Critical : bool;
  Value : list Z
}.

(** The bit string that [newKeyUsageExtension] hands to [asn1.Marshal]. *)
Definition keyUsageBitString (keyUsage : Z) : BitString :=
  let a0 := reverseBitsInAByte (byte_of keyUsage) in
  let a1 := reverseBitsInAByte (byte_of (Z.shiftr keyUsage 8)) in
  let l := if a1 =? 0 then 1%nat else 2%nat in
  let bitString := take l [a0; a1] in
  mkBitString bitString (asn1BitLength bitString).

Section Marshal.
(** [asn1.Marshal] at type [asn1.BitString], from the Go library. *)
Variable asn1_Marshal : BitString -> list Z * option error.

Definition newKeyUsageExtension (keyUsage : Z) : Extension * option error :=
  let '(value, err) := asn1_Marshal (keyUsageBitString keyUsage) in
  (mkExtension [2; 5; 29; 15] true value, err).
End Marshal.

(** [asn1.BitString.At], from the Go library: bit [i] of the string,
    numbered from the most significant bit of the first byte; 0 outside
    the bit length. *)
Definition At (b : BitString) (i : Z) : Z :=
  if (i <? 0) || (BitLength b <=? i) then 0
  else
    let x := i / 8 in
    let y := 7 - i mod 8 in
    Z.land (Z.shiftr (nth (Z.to_nat x) (Bytes b) 0) y) 1.

(** Reading a usage mask back from a BIT STRING, as the specification's
    round trip has it: bit [i] of the mask is bit [i] of the string. *)
Definition spec_decodeKeyUsage (b : BitString) : Z :=
  fold_right (fun i acc => Z.lor (Z.shiftl (At b (Z.of_nat i)) (Z.of_nat i)) acc)
             0 (seq 0 (Z.to_nat (BitLength b))).

End KeyUsage.

(** ** Data model: profiles and payloads (package cfgprofiles) *)

(** [[]byte] for documents the model does not look into. *)
Abbreviation bytes := (list Byte.byte).

(** [cfgprofiles.Payload]: the fields common to every payload. *)
Record Payload : Type := mkPayload {
  PayloadType : string;
  PayloadIdentifier : string;
  PayloadUUID : string
}.

(** [cfgprofiles.SCEPPayloadContent]. [Subject] is a list of groups, each
    a list of entries [tag; value; ...]. *)
Record SCEPPayloadContent : Type := mkSCEPPayloadContent {
  URL : string;
  Name : string;
  Challenge : string;
  CAFingerprint : bytes;
  KeyType : string;
  KeySize : Z;
  KeyUsage : Z;
  Subject : list (list (list string))
}.

Record SCEPPayload : Type := mkSCEPPayload {
  scep_Payload : Payload;
  PayloadContent : SCEPPayloadContent
}.

Record MDMPayload : Type := mkMDMPayload {
  mdm_Payload : Payload;
  IdentityCertificateUUID : string;
  ServerURL : string;
  CheckInURL : string;
  SignMessage : bool
}.

(** The dynamic type of a payload entry, as the type switches of the
    installer see it. For any other type [cfgprofiles.CommonPayload] gives
    the common fields, or [nil]. *)
Inductive PayloadEntry : Type :=
| IsSCEPPayload (pl : SCEPPayload)
| IsMDMPayload (pl : MDMPayload)
| IsOtherPayload (common : option Payload).

(** [cfgprofiles.Profile]. *)
Record Profile : Type := mkProfile {
  profile_PayloadIdentifier : string;
  profile_PayloadContent : list PayloadEntry
}.

(** [Profile.MDMPayloads]: the entries of MDM type, in document order. *)
Definition MDMPayloads (p : Profile) : list MDMPayload :=
  omap (fun e => match e with IsMDMPayload pl => Some pl | _ => None end)
       (profile_PayloadContent p).

(** The fields of [Device] that the installer reads and writes. *)
Record Device : Type := mkDevice {
  UDID : string;
  Serial : string;
  ComputerName : string;
  MDMProfileIdentifier : string;
  MDMIdentityKeychainUUID : string
}.

(** [*rsa.PrivateKey] and [*x509.Certificate] are opaque; a key knows its
    modulus size. *)
Record PrivateKey : Type := mkPrivateKey {
  key_bits : Z;
  key_serial : nat
}.

Record Certificate : Type := mkCertificate {
  cert_serial : nat
}.

(** ** Device variables in subject values *)

Module Replacer.

(** [strings.NewReplacer(oldnew...).Replace], from the Go library, for
    non-empty old strings: the target is scanned from the left; at each
    position the first pair, in argument order, whose old string starts
    there is applied and the scan resumes behind the match; replaced text
    is not scanned again. *)
Fixpoint lookup (oldnew : list (string * string)) (s : string)
  : option (string * nat) :=
  match oldnew with
  | [] => None
  | (old, new) :: rest =>
      if String.prefix old s then Some (new, String.length old)
      else lookup rest s
  end.

(** [skip] counts the bytes of a match that are still to be passed over. *)
Fixpoint ReplaceFrom (oldnew : list (string * string)) (skip : nat) (s : string)
  : string :=
  match s with
  | EmptyString => EmptyString
  | String c rest =>
      match skip with
      | S k => ReplaceFrom oldnew k rest
      | O =>
          match lookup oldnew s with
          | Some (new, keylen) => new +:+ ReplaceFrom oldnew (Nat.pred keylen) rest
          | None => String c (ReplaceFrom oldnew 0 rest)
          end
      end
  end.

Definition Replace (oldnew : list (string * string)) (s : string) : string :=
  ReplaceFrom oldnew 0 s.

End Replacer.

(** The three pairs given to [strings.NewReplacer] in [replaceSCEPVars]. *)
Definition scepVars (device : Device) : list (string * string) :=
  [ ("%ComputerName%", ComputerName device);
    ("%HardwareUUID%", UDID device);
    ("%SerialNumber%", Serial device) ].

Definition replaceSCEPVars (device : Device) (istrs : list string) : list string :=
  map (Replacer.Replace (scepVars device)) istrs.

(** ** The certificate request template *)

(** [pkix.Name], the fields the builder sets. *)
Record PkixName : Type := mkPkixName {
  Country : list string;
  Locality : list string;
  Province : list string;
  Organization : list string;
  OrganizationalUnit : list string;
  CommonName : string
}.

(** [x509util.CertificateRequest], the fields the builder sets. *)
Record CertificateRequest : Type := mkCertificateRequest {
  ChallengePassword : string;
  ExtraExtensions : list KeyUsage.Extension;
  req_Subject : PkixName
}.

Definition emptyName : PkixName := mkPkixName [] [] [] [] [] "".

(** One entry [onv] of a subject group: the body of the inner loop of
    [csrFromSCEPProfilePayload]. *)
Definition subjectEntry (device : Device) (onv : list string) (n : PkixName)
  : PkixName + error :=
  match onv with
  | tag :: ((_ :: _) as rest) =>
      let values := replaceSCEPVars device rest in
      if String.eqb tag "C" then
        inl (mkPkixName values (Locality n) (Province n) (Organization n)
                        (OrganizationalUnit n) (CommonName n))
      else if String.eqb tag "L" then
        inl (mkPkixName (Country n) values (Province n) (Organization n)
                        (OrganizationalUnit n) (CommonName n))
      else if String.eqb tag "ST" then
        inl (mkPkixName (Country n) (Locality n) values (Organization n)
                        (OrganizationalUnit n) (CommonName n))
      else if String.eqb tag "O" then
        inl (mkPkixName (Country n) (Locality n) (Province n) values
                        (OrganizationalUnit n) (CommonName n))
      else if String.eqb tag "OU" then
        inl (mkPkixName (Country n) (Locality n) (Province n) (Organization n)
                        values (CommonName n))
      else if String.eqb tag "CN" then
        inl (mkPkixName (Country n) (Locality n) (Province n) (Organization n)
                        (OrganizationalUnit n) (hd "" values))
      else inr (errors_New "unhandled OID in SCEP payload")
  | _ => inr (errors_New "invalid OID in SCEP payload")
  end.

(** The two nested loops over [plc.Subject]; the first error returns. *)
Fixpoint subjectGroup (device : Device) (onvg : list (list string)) (n : PkixName)
  : PkixName + error :=
  match onvg with
  | [] => inl n
  | onv :: rest =>
      match subjectEntry device onv n with
      | inl n' => subjectGroup device rest n'
      | inr e => inr e
      end
  end.

Fixpoint subjectGroups (device : Device) (subject : list (list (list string)))
  (n : PkixName) : PkixName + error :=
  match subject with
  | [] => inl n
  | onvg :: rest =>
      match subjectGroup device onvg n with
      | inl n' => subjectGroups device rest n'
      | inr e => inr e
      end
  end.

(** [x509.KeyUsageDigitalSignature]. *)
Definition KeyUsageDigitalSignature : Z := 1.

Section Template.
Variable asn1_Marshal : KeyUsage.BitString -> list Z * option error.

(** [csrFromSCEPProfilePayload] up to the call of
    [x509util.CreateCertificateRequest]: the template it passes. *)
Definition csrTemplate (pl : SCEPPayload) (device : Device)
  : CertificateRequest + error :=
  let plc := PayloadContent pl in
  let keyUsage :=
    if KeyUsage plc =? 0 then KeyUsageDigitalSignature else KeyUsage plc in
  let '(keyUsageExtn, err) := KeyUsage.newKeyUsageExtension asn1_Marshal keyUsage in
  match err with
  | Some e => inr e
  | None =>
      match subjectGroups device (Subject plc) emptyName with
      | inr e => inr e
      | inl n =>
          let cn :=
            if String.eqb (CommonName n) "" then PayloadIdentifier (scep_Payload pl)
            else CommonName n in
          inl (mkCertificateRequest (Challenge plc) [keyUsageExtn]
                 (mkPkixName (Country n) (Locality n) (Province n)
                    (Organization n) (OrganizationalUnit n) cn))
      end
  end.
End Template.

(** ** Keychain items, the MDM client and the transient install record *)

Inductive KeychainClass : Type := ClassKey | ClassCertificate | ClassIdentity.

#[global] Instance KeychainClass_eq_dec : EqDecision KeychainClass.
Proof. solve_decision. Defined.

(** [KeychainItem], as its users in the sources show it. *)
Record KeychainItem : Type := mkKeychainItem {
  kci_UUID : string;
  kci_Class : KeychainClass;
  kci_Key : option PrivateKey;
  kci_Certificate : option Certificate;
  kci_IdentityKeyUUID : string;
  kci_IdentityCertificateUUID : string
}.

(** [MDMClient]; its [Device] pointer is the device of the state. *)
Record MDMClient : Type := mkMDMClient {
  client_MDMPayload : option MDMPayload;
  IdentityCertificate : option Certificate;
  IdentityPrivateKey : option PrivateKey
}.

Definition PayloadRequiresNetwork : Z := 1.
Definition PayloadRequiresIdentities : Z := 2.

(** [payloadAndResult]. The records live in one slice of pointers, so the
    pointer [payloadAndResultRef] is the index of its target in that
    slice. *)
Record payloadAndResult : Type := mkPayloadAndResult {
  CommonPayload : option Payload;
  PayloadRequiresFlags : Z;
  par_Payload : PayloadEntry;
  StringResult : string;
  payloadAndResultRef : option nat
}.

Definition set_StringResult (pr : payloadAndResult) (r : string) : payloadAndResult :=
  mkPayloadAndResult (CommonPayload pr) (PayloadRequiresFlags pr) (par_Payload pr)
    r (payloadAndResultRef pr).

Definition set_payloadAndResultRef (pr : payloadAndResult) (r : option nat)
  : payloadAndResult :=
  mkPayloadAndResult (CommonPayload pr) (PayloadRequiresFlags pr) (par_Payload pr)
    (StringResult pr) r.

(** ** Classification and ordering *)

Fixpoint findFrom (i : nat) (plds : list payloadAndResult) (uuid : string)
  : option nat :=
  match plds with
  | [] => None
  | v :: rest =>
      match CommonPayload v with
      | Some c =>
          if String.eqb (PayloadUUID c) uuid then Some i
          else findFrom (S i) rest uuid
      | None => findFrom (S i) rest uuid
      end
  end.

(** [findpayloadAndResultByUUID]: the first record with that UUID. *)
Definition findpayloadAndResultByUUID (plds : list payloadAndResult) (uuid : string)
  : option nat :=
  findFrom 0 plds uuid.

(** The first loop of [classifyAndSortProfilePayloads]. *)
Definition classify (plc : PayloadEntry) : payloadAndResult :=
  match plc with
  | IsSCEPPayload pl =>
      mkPayloadAndResult (Some (scep_Payload pl)) PayloadRequiresNetwork plc "" None
  | IsMDMPayload pl =>
      mkPayloadAndResult (Some (mdm_Payload pl))
        (Z.lor PayloadRequiresNetwork PayloadRequiresIdentities) plc "" None
  | IsOtherPayload common =>
      mkPayloadAndResult common 0 plc "" None
  end.

(** [sort.SliceStable], from the Go library: a stable sort. For a [less]
    that is a strict weak order the result of a stable sort is unique;
    the model inserts from the right, an element going behind exactly the
    elements that are less than it. *)
Fixpoint insertStable {A : Type} (less : A -> A -> bool) (x : A) (l : list A)
  : list A :=
  match l with
  | [] => [x]
  | y :: l' => if less y x then y :: insertStable less x l' else x :: y :: l'
  end.

Definition sortSliceStable {A : Type} (less : A -> A -> bool) (l : list A) : list A :=
  fold_right (insertStable less) [] l.

(** The comparison closure of [classifyAndSortProfilePayloads]. *)
Definition lessFlags (ascending : bool) (a b : payloadAndResult) : bool :=
  if ascending then PayloadRequiresFlags b <? PayloadRequiresFlags a
  else PayloadRequiresFlags a <? PayloadRequiresFlags b.

Definition classifyAndSortProfilePayloads (p : Profile) (ascending : bool)
  : list payloadAndResult :=
  sortSliceStable (lessFlags ascending) (map classify (profile_PayloadContent p)).

(** ** The machine state and the collaborators *)

(** Calls that leave the process, in the order they are made. *)
Inductive Event : Type :=
| EvGenerateKey (bits : Z)
| EvCreateCertificateRequest
| EvSCEPRequest (url : string)
| EvNewUUID
| EvKeychainSave (class : KeychainClass) (uuid : string)
| EvKeychainLoad (uuid : string)
| EvKeychainDelete (class : KeychainClass) (uuid : string)
| EvRefLoad (key : string)
| EvRefSave (key value : string)
| EvRefRemove (key : string)
| EvProfileLoad (key : string)
| EvProfilePersist (key : string)
| EvProfileRemove (key : string)
| EvProfileList
| EvDeviceSave
| EvAuthenticate
| EvTokenUpdate
| EvUnenroll.

#[global] Instance Event_eq_dec : EqDecision Event.
Proof. solve_decision. Defined.

Record State : Type := mkState {
  device : Device;
  mdmClient : option MDMClient;
  profiles : gmap string bytes;
  payload_refs : gmap string string;
  keychain : gmap string KeychainItem;
  saved : option Device;
  trace : list Event
}.

(** The answers of the collaborators. The [nat] argument is the position
    in the trace of the call that is answered. *)
Record World : Type := mkWorld {
  plist_Unmarshal : bytes -> Profile + error;
  asn1_Marshal : KeyUsage.BitString -> list Z * option error;
  rsa_GenerateKey : nat -> Z -> PrivateKey + error;
  x509util_CreateCertificateRequest :
    nat -> CertificateRequest -> PrivateKey -> bytes + error;
  scep_PKCSReq : nat -> bytes -> string -> string -> string -> bytes
                 -> Certificate + error;
  uuid_NewString : nat -> string;
  bolt_tx : nat -> option error;
  checkin_authenticate : nat -> option error;
  checkin_tokenUpdate : nat -> option error;
  checkin_unenroll : nat -> option error
}.

(** A Go call either returns or panics. *)
Inductive Outcome (A : Type) : Type :=
| Val (a : A)
| Panicked (msg : string).
Arguments Val {A} a.
Arguments Panicked {A} msg.

Definition M (A : Type) : Type := State -> Outcome A * State.

Definition ret {A : Type} (a : A) : M A := fun s => (Val a, s).

Definition bind {A B : Type} (m : M A) (k : A -> M B) : M B :=
  fun s =>
    match m s with
    | (Val a, s') => k a s'
    | (Panicked msg, s') => (Panicked msg, s')
    end.

Definition panic {A : Type} (msg : string) : M A := fun s => (Panicked msg, s).

Definition gets {A : Type} (f : State -> A) : M A := fun s => (Val (f s), s).

Definition modify (f : State -> State) : M unit := fun s => (Val tt, f s).

Notation "x <- c1 ;; c2" := (bind c1 (fun x => c2))
  (at level 20, c1 at level 99, c2 at level 200, only parsing).
Notation "' pat <- c1 ;; c2" := (bind c1 (fun x => match x with pat => c2 end))
  (at level 20, pat pattern, c1 at level 99, c2 at level 200, only parsing).
Notation "c1 ;;; c2" := (bind c1 (fun _ => c2))
  (at level 100, c2 at level 200, only parsing).

Definition set_device (d : Device) (s : State) : State :=
  mkState d (mdmClient s) (profiles s) (payload_refs s) (keychain s) (saved s) (trace s).
Definition set_mdmClient (c : option MDMClient) (s : State) : State :=
  mkState (device s) c (profiles s) (payload_refs s) (keychain s) (saved s) (trace s).
Definition set_profiles (m : gmap string bytes) (s : State) : State :=
  mkState (device s) (mdmClient s) m (payload_refs s) (keychain s) (saved s) (trace s).
Definition set_payload_refs (m : gmap string string) (s : State) : State :=
  mkState (device s) (mdmClient s) (profiles s) m (keychain s) (saved s) (trace s).
Definition set_keychain (m : gmap string KeychainItem) (s : State) : State :=
  mkState (device s) (mdmClient s) (profiles s) (payload_refs s) m (saved s) (trace s).
Definition set_saved (d : option Device) (s : State) : State :=
  mkState (device s) (mdmClient s) (profiles s) (payload_refs s) (keychain s) d (trace s).
Definition set_trace (t : list Event) (s : State) : State :=
  mkState (device s) (mdmClient s) (profiles s) (payload_refs s) (keychain s) (saved s) t.

Definition set_MDMProfileIdentifier (v : string) (d : Device) : Device :=
  mkDevice (UDID d) (Serial d) (ComputerName d) v (MDMIdentityKeychainUUID d).
Definition set_MDMIdentityKeychainUUID (v : string) (d : Device) : Device :=
  mkDevice (UDID d) (Serial d) (ComputerName d) (MDMProfileIdentifier d) v.

(** Records the call and returns its position in the trace. *)
Definition emit (e : Event) : M nat :=
  fun s => (Val (length (trace s)), set_trace (trace s ++ [e]) s).

(** ** The bolt buckets *)

(** Modelled from the spec: the bucket helpers [BucketGet],
    [BucketGetString], [BucketPutOrDelete], [BucketPutOrDeleteString] and
    [BucketGetKeysWithPrefix] are not among the sources. Section 6 gives
    byte-keyed get, put and delete in named buckets and a prefix scan;
    the callers fix the rest: a get returns only a value, so an absent key
    reads as the empty value, and a put of the empty value is the
    delete. *)
Definition BucketGet (b : gmap string bytes) (key : string) : bytes :=
  default [] (b !! key).

Definition BucketGetString (b : gmap string string) (key : string) : string :=
  default "" (b !! key).

Definition BucketPutOrDelete (b : gmap string bytes) (key : string) (value : bytes)
  : gmap string bytes :=
  match value with
  | [] => delete key b
  | _ => <[key := value]> b
  end.

Definition BucketPutOrDeleteString (b : gmap string string) (key value : string)
  : gmap string string :=
  if String.eqb value "" then delete key b else <[key := value]> b.

(** The text of [s] behind [prefix], when [s] starts with it. *)
Definition stripPrefix (prefix s : string) : option string :=
  if String.prefix prefix s
  then Some (String.substring (String.length prefix)
                              (String.length s - String.length prefix) s)
  else None.

Definition BucketGetKeysWithPrefix (b : gmap string bytes) (prefix : string)
  : list string :=
  omap (fun kv => stripPrefix prefix (fst kv)) (map_to_list b).

(** [fmt.Sprintf("%s_%s", ps.ID, id)]; the system store has the UDID of the
    device as its ID. *)
Definition profileKey (storeID id : string) : string :=
  storeID +:+ "_" +:+ id.

(** [fmt.Sprintf("%s_%s_%s_%s", profileID, pld.PayloadIdentifier,
    pld.PayloadUUID, ekey)]. *)
Definition refKey (profileID : string) (pld : Payload) (ekey : string) : string :=
  profileID +:+ "_" +:+ PayloadIdentifier pld +:+ "_" +:+ PayloadUUID pld
    +:+ "_" +:+ ekey.

Section Machine.
Variable w : World.

(** [DB.View] and [DB.Update]: the transaction is recorded and either
    commits what its closure does or fails with no effect on the bucket. *)
Definition transaction (e : Event) : M (option error) :=
  n <- emit e ;; ret (bolt_tx w n).

(** *** Profile store *)

Definition Load (id : string) : M (Profile + error) :=
  dev <- gets device ;;
  let key := profileKey (UDID dev) id in
  err <- transaction (EvProfileLoad key) ;;
  match err with
  | Some e => ret (inr e)
  | None =>
      b <- gets profiles ;;
      let pb := BucketGet b key in
      match pb with
      | [] => ret (inr (errors_New ("missing or zero-length profile: " +:+ id)))
      | _ => ret (plist_Unmarshal w pb)
      end
  end.

Definition persistProfile (pb : bytes) (profileID : string) : M (option error) :=
  match pb with
  | [] => ret (Some (errors_New "empty profile"))
  | _ =>
      dev <- gets device ;;
      let key := profileKey (UDID dev) profileID in
      err <- transaction (EvProfilePersist key) ;;
      match err with
      | Some e => ret (Some e)
      | None =>
          modify (fun s => set_profiles (BucketPutOrDelete (profiles s) key pb) s) ;;;
          ret None
      end
  end.

Definition removeProfile (profileID : string) : M (option error) :=
  dev <- gets device ;;
  let key := profileKey (UDID dev) profileID in
  err <- transaction (EvProfileRemove key) ;;
  match err with
  | Some e => ret (Some e)
  | None =>
      modify (fun s => set_profiles (BucketPutOrDelete (profiles s) key []) s) ;;;
      ret None
  end.

Definition savePayloadRefString (profileID : string) (pld : Payload)
  (ekey value : string) : M (option error) :=
  if String.eqb value "" then ret (Some (errors_New "no payload ref value to save"))
  else
    let key := refKey profileID pld ekey in
    err <- transaction (EvRefSave key value) ;;
    match err with
    | Some e => ret (Some e)
    | None =>
        modify (fun s =>
          set_payload_refs (BucketPutOrDeleteString (payload_refs s) key value) s) ;;;
        ret None
    end.

(** The closure always returns [nil]: [err] is the failure of the
    transaction itself, and [s] keeps its zero value in that case. *)
Definition loadPayloadRefString (profileID : string) (pld : Payload)
  (ekey : string) : M (string * option error) :=
  let key := refKey profileID pld ekey in
  err <- transaction (EvRefLoad key) ;;
  match err with
  | Some e => ret ("", Some e)
  | None =>
      b <- gets payload_refs ;;
      ret (BucketGetString b key, None)
  end.

Definition removePayloadRefString (profileID : string) (pld : Payload)
  (ekey : string) : M (option error) :=
  let key := refKey profileID pld ekey in
  err <- transaction (EvRefRemove key) ;;
  match err with
  | Some e => ret (Some e)
  | None =>
      modify (fun s =>
        set_payload_refs (BucketPutOrDeleteString (payload_refs s) key "") s) ;;;
      ret None
  end.

(** The keys come in the order of the bucket; [installProfile] only
    asks whether one of them is the identifier of the profile. *)
Definition ListUUIDs : M (list string * option error) :=
  dev <- gets device ;;
  err <- transaction EvProfileList ;;
  match err with
  | Some e => ret ([], Some e)
  | None =>
      b <- gets profiles ;;
      ret (BucketGetKeysWithPrefix b (UDID dev +:+ "_"), None)
  end.

(** *** Keychain *)

(** Modelled from the spec: [NewKeychainItem], [LoadKeychainItem],
    [KeychainItem.Save] and [KeychainItem.Delete] are not among the
    sources. Section 4.1: create gives a generated identifier; load
    gives the item or a Not-Found error, and for an Identity item checks
    that its Key and Certificate references exist, a Broken-Reference
    error otherwise; delete removes the item and cascades to nothing. *)
Definition NewKeychainItem (class : KeychainClass) : M KeychainItem :=
  n <- emit EvNewUUID ;;
  ret (mkKeychainItem (uuid_NewString w n) class None None "" "").

Definition KeychainItem_Save (kci : KeychainItem) : M (option error) :=
  err <- transaction (EvKeychainSave (kci_Class kci) (kci_UUID kci)) ;;
  match err with
  | Some e => ret (Some e)
  | None =>
      modify (fun s => set_keychain (<[kci_UUID kci := kci]> (keychain s)) s) ;;;
      ret None
  end.

Definition resolves (kc : gmap string KeychainItem) (uuid : string) : bool :=
  bool_decide (is_Some (kc !! uuid)).

Definition LoadKeychainItem (uuid : string) : M (option KeychainItem * option error) :=
  err <- transaction (EvKeychainLoad uuid) ;;
  match err with
  | Some e => ret (None, Some e)
  | None =>
      kc <- gets keychain ;;
      match kc !! uuid with
      | None => ret (None, Some (errors_New "keychain item not found"))
      | Some kci =>
          match kci_Class kci with
          | ClassIdentity =>
              if resolves kc (kci_IdentityKeyUUID kci)
                 && resolves kc (kci_IdentityCertificateUUID kci)
              then ret (Some kci, None)
              else ret (None, Some (errors_New "broken keychain identity reference"))
          | _ => ret (Some kci, None)
          end
      end
  end.

Definition KeychainItem_Delete (kci : KeychainItem) : M (option error) :=
  err <- transaction (EvKeychainDelete (kci_Class kci) (kci_UUID kci)) ;;
  match err with
  | Some e => ret (Some e)
  | None =>
      modify (fun s => set_keychain (delete (kci_UUID kci) (keychain s)) s) ;;;
      ret None
  end.

(** Modelled from the spec: [Device.Save] is not among the sources.
    Section 2: the persistence hook of the device; its callers use no
    result. *)
Definition Device_Save : M unit :=
  emit EvDeviceSave ;;;
  modify (fun s => set_saved (Some (device s)) s).

(** *** CSR builder *)

Definition defaultRSAKeySize : Z := 1024.

Definition keyFromSCEPProfilePayload (pl : SCEPPayload) : M (PrivateKey + error) :=
  let plc := PayloadContent pl in
  if negb (String.eqb (KeyType plc) "") && negb (String.eqb (KeyType plc) "RSA")
  then ret (inr (errors_New "only RSA keys supported"))
  else
    let keySize := if 0 <? KeySize plc then KeySize plc else defaultRSAKeySize in
    n <- emit (EvGenerateKey keySize) ;;
    ret (rsa_GenerateKey w n keySize).

Definition csrFromSCEPProfilePayload (pl : SCEPPayload) (dev : Device)
  (privKey : PrivateKey) : M (bytes + error) :=
  match csrTemplate (asn1_Marshal w) pl dev with
  | inr e => ret (inr e)
  | inl tmpl =>
      n <- emit EvCreateCertificateRequest ;;
      ret (x509util_CreateCertificateRequest w n tmpl privKey)
  end.

(** [scepNewPKCSReq] is the exchange with the SCEP server: calls to the
    SCEP transport and the crypto library that touch no state of the
    device. The model records the call and takes its outcome from the
    world. *)
Definition scepNewPKCSReq (csrBytes : bytes) (url challenge caMessage : string)
  (fingerprint : bytes) : M (Certificate + error) :=
  n <- emit (EvSCEPRequest url) ;;
  ret (scep_PKCSReq w n csrBytes url challenge caMessage fingerprint).

(** *** Installing payloads *)

Definition installSCEPPayload (profileID : string) (scepPayload : SCEPPayload)
  : M (string * option error) :=
  r <- keyFromSCEPProfilePayload scepPayload ;;
  match r with
  | inr e => ret ("", Some e)
  | inl key =>
  dev <- gets device ;;
  r <- csrFromSCEPProfilePayload scepPayload dev key ;;
  match r with
  | inr e => ret ("", Some e)
  | inl csrBytes =>
  '(existingUuid, err) <-
    loadPayloadRefString profileID (scep_Payload scepPayload) "keychain_identity" ;;
  match err with
  | None => ret (existingUuid, None)
  | Some _ =>
  let plc := PayloadContent scepPayload in
  r <- scepNewPKCSReq csrBytes (URL plc) (Challenge plc) (Name plc)
         (CAFingerprint plc) ;;
  match r with
  | inr e => ret ("", Some e)
  | inl cert =>
  kciKey <- NewKeychainItem ClassKey ;;
  let kciKey := mkKeychainItem (kci_UUID kciKey) (kci_Class kciKey) (Some key)
                  (kci_Certificate kciKey) (kci_IdentityKeyUUID kciKey)
                  (kci_IdentityCertificateUUID kciKey) in
  err <- KeychainItem_Save kciKey ;;
  match err with
  | Some e => ret ("", Some e)
  | None =>
  kciCert <- NewKeychainItem ClassCertificate ;;
  let kciCert := mkKeychainItem (kci_UUID kciCert) (kci_Class kciCert)
                   (kci_Key kciCert) (Some cert) (kci_IdentityKeyUUID kciCert)
                   (kci_IdentityCertificateUUID kciCert) in
  err <- KeychainItem_Save kciCert ;;
  match err with
  | Some e => ret ("", Some e)
  | None =>
  kciID <- NewKeychainItem ClassIdentity ;;
  let kciID := mkKeychainItem (kci_UUID kciID) (kci_Class kciID) (kci_Key kciID)
                 (kci_Certificate kciID) (kci_UUID kciKey) (kci_UUID kciCert) in
  err <- KeychainItem_Save kciID ;;
  match err with
  | Some e => ret ("", Some e)
  | None =>
  err <- savePayloadRefString profileID (scep_Payload scepPayload)
           "keychain_identity" (kci_UUID kciID) ;;
  match err with
  | Some e => ret ("", Some e)
  | None => ret (kci_UUID kciID, None)
  end end end end end end end end.

(** *** MDM client *)

Definition loadIdentityFromKeychain (c : MDMClient) (uuid : string)
  : M (MDMClient * option error) :=
  if String.eqb uuid "" then ret (c, Some (errors_New "invalid keychain UUID"))
  else
    '(kciID, err) <- LoadKeychainItem uuid ;;
    match kciID, err with
    | Some kciID, None =>
        '(kciKey, err) <- LoadKeychainItem (kci_IdentityKeyUUID kciID) ;;
        match kciKey, err with
        | Some kciKey, None =>
            '(kciCert, err) <- LoadKeychainItem (kci_IdentityCertificateUUID kciID) ;;
            match kciCert, err with
            | Some kciCert, None =>
                ret (mkMDMClient (client_MDMPayload c) (kci_Certificate kciCert)
                       (kci_Key kciKey), None)
            | _, Some e => ret (c, Some e)
            | None, None => panic "nil pointer dereference"
            end
        | _, Some e => ret (c, Some e)
        | None, None => panic "nil pointer dereference"
        end
    | _, Some e => ret (c, Some e)
    | None, None => panic "nil pointer dereference"
    end.

Definition NewMDMClient2 (mdmPld : MDMPayload) : M (MDMClient * option error) :=
  dev <- gets device ;;
  loadIdentityFromKeychain (mkMDMClient (Some mdmPld) None None)
    (MDMIdentityKeychainUUID dev).

(** Modelled from the spec: the check-in calls [authenticate],
    [tokenUpdate] and [unenroll] of the client are not among the
    sources. Section 6: opaque calls made with the current identity of
    the device. Section 4.7: Unenroll makes the unenroll call and then
    clears [MDMProfileIdentifier]. *)
Definition authenticate (c : MDMClient) : M (option error) :=
  n <- emit EvAuthenticate ;; ret (checkin_authenticate w n).

Definition tokenUpdate (c : MDMClient) : M (option error) :=
  n <- emit EvTokenUpdate ;; ret (checkin_tokenUpdate w n).

Definition unenroll (c : MDMClient) : M (option error) :=
  n <- emit EvUnenroll ;;
  match checkin_unenroll w n with
  | Some e => ret (Some e)
  | None =>
      modify (fun s => set_device (set_MDMProfileIdentifier "" (device s)) s) ;;;
      ret None
  end.

Definition enroll2 (c : MDMClient) (profileID : string) : M (option error) :=
  match client_MDMPayload c with
  | None => ret (Some (errors_New "no MDM payload"))
  | Some mdmPayload =>
      if negb (SignMessage mdmPayload)
      then ret (Some (errors_New "non-SignMessage (mTLS) enrollment not supported"))
      else
        err <- authenticate c ;;
        match err with
        | Some e => ret (Some e)
        | None =>
            err <- tokenUpdate c ;;
            match err with
            | Some e => ret (Some e)
            | None =>
                modify (fun s =>
                  set_device (set_MDMProfileIdentifier profileID (device s)) s) ;;;
                ret None
            end
        end
  end.

(** Modelled from the spec: [installMDMPayload] calls
    [newMDMClientUsingPayload] and [enroll], which are not among the
    sources under these names. Section 4.7 describes the Enroll
    transition and the loading of the active identity; [NewMDMClient2]
    and [enroll2] of mdmclient.go have the signatures of the calls and do
    what the section says. *)
Definition newMDMClientUsingPayload (mdmPld : MDMPayload)
  : M (MDMClient * option error) :=
  NewMDMClient2 mdmPld.

Definition enroll (c : MDMClient) (profileID : string) : M (option error) :=
  enroll2 c profileID.

Definition installMDMPayload (mdmPayload : MDMPayload) (profileID : string)
  : M (option error) :=
  '(c, err) <- newMDMClientUsingPayload mdmPayload ;;
  match err with
  | Some e => ret (Some e)
  | None =>
      err <- enroll c profileID ;;
      match err with
      | Some e => ret (Some e)
      | None => Device_Save ;;; ret None
      end
  end.

(** *** Removing payloads *)

Definition removeSCEPPayload (profileID : string) (scepPayload : SCEPPayload)
  : M (option error) :=
  '(refStr, err) <-
    loadPayloadRefString profileID (scep_Payload scepPayload) "keychain_identity" ;;
  match err with
  | Some e => ret (Some e)
  | None =>
  '(kciID, err) <- LoadKeychainItem refStr ;;
  match kciID, err with
  | _, Some e => ret (Some e)
  | None, None => panic "nil pointer dereference"
  | Some kciID, None =>
  '(kciKey, err) <- LoadKeychainItem (kci_IdentityKeyUUID kciID) ;;
  match kciKey, err with
  | _, Some e => ret (Some e)
  | None, None => panic "nil pointer dereference"
  | Some kciKey, None =>
  '(kciCert, err) <- LoadKeychainItem (kci_IdentityCertificateUUID kciID) ;;
  match kciCert, err with
  | _, Some e => ret (Some e)
  | None, None => panic "nil pointer dereference"
  | Some kciCert, None =>
  err <- KeychainItem_Delete kciCert ;;
  match err with
  | Some e => ret (Some e)
  | None =>
  err <- KeychainItem_Delete kciKey ;;
  match err with
  | Some e => ret (Some e)
  | None =>
  err <- KeychainItem_Delete kciID ;;
  match err with
  | Some e => ret (Some e)
  | None =>
  err <- removePayloadRefString profileID (scep_Payload scepPayload)
           "keychain_identity" ;;
  match err with
  | Some e => ret (Some e)
  | None => ret None
  end end end end end end end end.

(** [loadOrDeleteMDMIdentity]: the argument [uuid] is not used, the
    identity is the one the device names. *)
Definition loadOrDeleteMDMIdentity (uuid : string) (del : bool)
  : M (option PrivateKey * option Certificate * option error) :=
  dev <- gets device ;;
  '(kciID, err) <- LoadKeychainItem (MDMIdentityKeychainUUID dev) ;;
  match kciID, err with
  | _, Some e => ret (None, None, Some e)
  | None, None => panic "nil pointer dereference"
  | Some kciID, None =>
  '(kciKey, err) <- LoadKeychainItem (kci_IdentityKeyUUID kciID) ;;
  match kciKey, err with
  | _, Some e => ret (None, None, Some e)
  | None, None => panic "nil pointer dereference"
  | Some kciKey, None =>
  '(kciCert, err) <- LoadKeychainItem (kci_IdentityCertificateUUID kciID) ;;
  match kciCert, err with
  | _, Some e => ret (None, None, Some e)
  | None, None => panic "nil pointer dereference"
  | Some kciCert, None =>
      (if del then
         KeychainItem_Delete kciCert ;;;
         KeychainItem_Delete kciKey ;;;
         KeychainItem_Delete kciID ;;;
         ret tt
       else ret tt) ;;;
      ret (kci_Key kciKey, kci_Certificate kciCert, None)
  end end end.

Definition NewMDMClient : M (MDMClient * option error) :=
  dev <- gets device ;;
  let c := mkMDMClient None None None in
  '(c, err) <-
    (if negb (String.eqb (MDMIdentityKeychainUUID dev) "") then
       '(key, cert, err) <-
         loadOrDeleteMDMIdentity (MDMIdentityKeychainUUID dev) false ;;
       ret (mkMDMClient (client_MDMPayload c) cert key, err)
     else ret (c, None)) ;;
  match err with
  | Some e => ret (c, Some e)
  | None =>
      if negb (String.eqb (MDMProfileIdentifier dev) "") then
        r <- Load (MDMProfileIdentifier dev) ;;
        match r with
        | inr e => ret (c, Some e)
        | inl profile =>
            match MDMPayloads profile with
            | [mdmPld] =>
                ret (mkMDMClient (Some mdmPld) (IdentityCertificate c)
                       (IdentityPrivateKey c), None)
            | _ => ret (c, Some (errors_New
                                   "enrollment profile must contain an MDM payload"))
            end
        end
      else ret (c, None)
  end.

(** [Device.MDMClient]: the client is built once and kept on the device,
    also when building it gave an error. *)
Definition Device_MDMClient : M (MDMClient * option error) :=
  cached <- gets mdmClient ;;
  match cached with
  | Some c => ret (c, None)
  | None =>
      '(c, err) <- NewMDMClient ;;
      modify (set_mdmClient (Some c)) ;;;
      ret (c, err)
  end.

Definition removeMDMPayload : M (option error) :=
  '(c, err) <- Device_MDMClient ;;
  match err with
  | Some e => ret (Some e)
  | None =>
      err <- unenroll c ;;
      match err with
      | Some e => ret (Some e)
      | None => Device_Save ;;; ret None
      end
  end.

(** The loop of [RemoveProfile]: an error of a payload is printed and
    the loop goes on. *)
Fixpoint removePayloads (profileID : string) (plds : list payloadAndResult)
  : M unit :=
  match plds with
  | [] => ret tt
  | pr :: rest =>
      match par_Payload pr with
      | IsSCEPPayload pl =>
          removeSCEPPayload profileID pl ;;; removePayloads profileID rest
      | IsMDMPayload pl =>
          removeMDMPayload ;;; removePayloads profileID rest
      | IsOtherPayload _ =>
          match CommonPayload pr with
          | None => panic "nil pointer dereference"
          | Some _ => removePayloads profileID rest
          end
      end
  end.

Definition RemoveProfile (profileID : string) : M (option error) :=
  r <- Load profileID ;;
  match r with
  | inr e => ret (Some e)
  | inl p =>
      let orderedPayloads := classifyAndSortProfilePayloads p true in
      removePayloads (profile_PayloadIdentifier p) orderedPayloads ;;;
      removeProfile (profile_PayloadIdentifier p)
  end.

(** *** Installing a profile *)

Definition ValidateProfileInstall (p : Profile) (fromMDM : bool)
  : M (option error) :=
  match MDMPayloads p with
  | [] => ret None
  | _ :: _ :: _ => ret (Some (errors_New "Profile may only contain one MDM payload"))
  | [mdmPld] =>
      dev <- gets device ;;
      if negb fromMDM && negb (String.eqb (MDMProfileIdentifier dev) "")
      then ret (Some (errors_New "device already enrolled, please unenroll first"))
      else if fromMDM then
        r <- Load (MDMProfileIdentifier dev) ;;
        match r with
        | inr e => ret (Some e)
        | inl pOld =>
            match MDMPayloads pOld with
            | [] => panic "index out of range"
            | mdmPldOld :: _ =>
                if negb (String.eqb (ServerURL mdmPld) (ServerURL mdmPldOld))
                then ret (Some (errors_New "MDM payload must contain same URL"))
                else ret None
            end
        end
      else ret None
  end.

(** The loop of [installProfile] over [orderedPayloads]: [n] records are
    still to be visited, [i] is the index of the next one. The records
    are shared with [plds], so a result stored in record [i] is seen by
    a later lookup through the slice. *)
Fixpoint installPayloads (p : Profile) (n i : nat) (plds : list payloadAndResult)
  : M (option error) :=
  match n with
  | O => ret None
  | S n' =>
      match plds !! i with
      | None => ret None
      | Some pr =>
          match par_Payload pr with
          | IsSCEPPayload pl =>
              '(res, err) <- installSCEPPayload (profile_PayloadIdentifier p) pl ;;
              let plds := <[i := set_StringResult pr res]> plds in
              match err with
              | Some e => ret (Some e)
              | None =>
                  if String.eqb res ""
                  then ret (Some (errors_New "no result from scep payload install"))
                  else installPayloads p n' (S i) plds
              end
          | IsMDMPayload pl =>
              let ref := findpayloadAndResultByUUID plds (IdentityCertificateUUID pl) in
              let plds := <[i := set_payloadAndResultRef pr ref]> plds in
              match ref ≫= (fun j => plds !! j) with
              | None =>
                  ret (Some (errors_New ("could not find payload UUID "
                                         +:+ IdentityCertificateUUID pl)))
              | Some target =>
                  if String.eqb (StringResult target) ""
                  then ret (Some (errors_New
                         "referenced identity payload has no result keychain ID"))
                  else
                    modify (fun s => set_device
                      (set_MDMIdentityKeychainUUID (StringResult target) (device s)) s) ;;;
                    Device_Save ;;;
                    err <- installMDMPayload pl (profile_PayloadIdentifier p) ;;
                    match err with
                    | Some e => ret (Some e)
                    | None => installPayloads p n' (S i) plds
                    end
              end
          | IsOtherPayload _ =>
              match CommonPayload pr with
              | None => panic "nil pointer dereference"
              | Some _ => installPayloads p n' (S i) plds
              end
          end
      end
  end.

(** The last [uuid] of the list that equals the identifier, or [""]. *)
Definition matchedUUID (uuids : list string) (id : string) : string :=
  fold_left (fun matched uuid => if String.eqb uuid id then uuid else matched)
            uuids "".

Definition installProfile (pb : bytes) (fromMDM : bool) : M (option error) :=
  match pb with
  | [] => ret (Some (errors_New "empty profile"))
  | _ =>
  match plist_Unmarshal w pb with
  | inr e => ret (Some e)
  | inl p =>
  err <- ValidateProfileInstall p fromMDM ;;
  match err with
  | Some e => ret (Some e)
  | None =>
  '(uuids, err) <- ListUUIDs ;;
  match err with
  | Some e => ret (Some e)
  | None =>
  let matched := matchedUUID uuids (profile_PayloadIdentifier p) in
  (if negb (String.eqb matched "")
   then RemoveProfile matched ;;; ret tt
   else ret tt) ;;;
  let orderedPayloads := classifyAndSortProfilePayloads p false in
  err <- installPayloads p (length orderedPayloads) 0 orderedPayloads ;;
  match err with
  | Some e => ret (Some e)
  | None => persistProfile pb (profile_PayloadIdentifier p)
  end end end end end.

Definition InstallProfile (pb : bytes) : M (option error) :=
  installProfile pb false.

Definition installProfileFromMDM (pb : bytes) : M (option error) :=
  installProfile pb true.

End Machine.

(** ** Checking a property of all 16-bit masks *)

(** [allFrom P n z]: [P] holds at [z], [z + 1], ..., [z + n - 1]. *)
Fixpoint allFrom (P : Z -> bool) (n : nat) (z : Z) : bool :=
  match n with
  | O => true
  | S n' => P z && allFrom P n' (z + 1)
  end.

(** What is checked of one mask [m] in the 16-bit range:
    the round trip, the reported bit length and the place of every bit. *)
Definition maskChecks (m : Z) : bool :=
  let bs := KeyUsage.keyUsageBitString m in
  (KeyUsage.spec_decodeKeyUsage bs =? m)
  && (KeyUsage.BitLength bs =? (if m =? 0 then 0 else Z.log2 m + 1))
  && allFrom (fun i =>
       Bool.eqb (Z.testbit (nth (Z.to_nat (i / 8)) (KeyUsage.Bytes bs) 0) (7 - i mod 8))
                (Z.testbit m i)) 16 0.

Definition masksWithHighByte (hi : Z) : bool :=
  allFrom (fun lo => maskChecks (lo + 256 * hi)) 256 0.

(** ** Sample inputs *)

Module Sample.

(** A world in which every collaborator succeeds; [p] is what every
    document parses to. *)
Definition okWorld (p : Profile) : World :=
  mkWorld (fun _ => inl p) (fun _ => ([], None))
    (fun n bits => inl (mkPrivateKey bits n))
    (fun n _ _ => inl [])
    (fun n _ _ _ _ _ => inl (mkCertificate n))
    (fun n => "uuid-" +:+ String (Ascii.ascii_of_nat (65 + n)) "")
    (fun _ => None) (fun _ => None) (fun _ => None) (fun _ => None).

(** The same world, except that the transactions at the trace positions
    in [bad] fail. *)
Definition faultyWorld (p : Profile) (bad : list nat) : World :=
  mkWorld (fun _ => inl p) (fun _ => ([], None))
    (fun n bits => inl (mkPrivateKey bits n))
    (fun n _ _ => inl [])
    (fun n _ _ _ _ _ => inl (mkCertificate n))
    (fun n => "uuid-" +:+ String (Ascii.ascii_of_nat (65 + n)) "")
    (fun n => if bool_decide (n ∈ bad) then Some (errors_New "database not open")
              else None)
    (fun _ => None) (fun _ => None) (fun _ => None).

(** The world of [okWorld] with a server that refuses Authenticate. *)
Definition refusingWorld (p : Profile) (bad : list nat) : World :=
  mkWorld (fun _ => inl p) (fun _ => ([], None))
    (fun n bits => inl (mkPrivateKey bits n))
    (fun n _ _ => inl [])
    (fun n _ _ _ _ _ => inl (mkCertificate n))
    (fun n => "uuid-" +:+ String (Ascii.ascii_of_nat (65 + n)) "")
    (fun n => if bool_decide (n ∈ bad) then Some (errors_New "database not open")
              else None)
    (fun _ => Some (errors_New "authenticate: 401")) (fun _ => None) (fun _ => None).

Definition dev0 : Device := mkDevice "UDID0" "P3IJDS49Z90A" "Malik's computer" "" "".

(** A device with empty stores. *)
Definition st0 : State := mkState dev0 None ∅ ∅ ∅ None [].

Definition scep1 : SCEPPayload :=
  mkSCEPPayload (mkPayload "com.apple.security.scep" "scep.id" "SCEP-UUID")
    (mkSCEPPayloadContent "https://scep.example/scep" "" "secret" [] "RSA" 2048 0
       [[["CN"; "%SerialNumber%"]; ["O"; "%HostName%"]]]).

Definition mdm1 : MDMPayload :=
  mkMDMPayload (mkPayload "com.apple.mdm" "mdm.id" "MDM-UUID") "SCEP-UUID"
    "https://mdm.example/connect" "https://mdm.example/checkin" true.

(** The MDM payload with [SignMessage] off. *)
Definition mdmUnsigned : MDMPayload :=
  mkMDMPayload (mkPayload "com.apple.mdm" "mdm.id" "MDM-UUID") "SCEP-UUID"
    "https://mdm.example/connect" "https://mdm.example/checkin" false.

(** An enrollment profile that declares the MDM payload first. *)
Definition enrollProfile : Profile :=
  mkProfile "prof.id" [IsMDMPayload mdm1; IsSCEPPayload scep1].

Definition scepProfile : Profile :=
  mkProfile "prof.id" [IsSCEPPayload scep1].

Definition twoMDMProfile : Profile :=
  mkProfile "prof.id" [IsMDMPayload mdm1; IsSCEPPayload scep1; IsMDMPayload mdm1].

Definition doc : bytes := [Byte.x3c; Byte.x3f].

Definition refKey1 : string :=
  refKey "prof.id" (scep_Payload scep1) "keychain_identity".

(** An identity in the keychain, as an earlier install of [scep1] under
    profile [prof.id] leaves it. *)
Definition kcKey : KeychainItem :=
  mkKeychainItem "KEY-1" ClassKey (Some (mkPrivateKey 2048 0)) None "" "".
Definition kcCert : KeychainItem :=
  mkKeychainItem "CERT-1" ClassCertificate None (Some (mkCertificate 0)) "" "".
Definition kcID : KeychainItem :=
  mkKeychainItem "ID-1" ClassIdentity None None "KEY-1" "CERT-1".

Definition keychain1 : gmap string KeychainItem :=
  <["ID-1" := kcID]> (<["CERT-1" := kcCert]> (<["KEY-1" := kcKey]> ∅)).

(** Stores with the identity and its payload reference; no profile. *)
Definition stIssued : State :=
  mkState dev0 None ∅ (<[refKey1 := "ID-1"]> ∅) keychain1 None [].

(** The same with the profile document installed. *)
Definition stInstalled : State :=
  mkState dev0 None (<[profileKey "UDID0" "prof.id" := doc]> ∅)
    (<[refKey1 := "ID-1"]> ∅) keychain1 None [].

(** The state in which [removeSCEPPayload] leaves [stIssued] when every
    collaborator succeeds. *)
Definition stRemoved : State :=
  Eval vm_compute in
    snd (removeSCEPPayload (okWorld scepProfile) "prof.id" scep1 stIssued).

(** The state in which the install loop leaves [stIssued] for
    [enrollProfile] when every collaborator succeeds. *)
Definition stEnrolled : State :=
  Eval vm_compute in
    snd (installPayloads (okWorld enrollProfile) enrollProfile 2 0
           (classifyAndSortProfilePayloads enrollProfile false) stIssued).

(** The state after a failed first install of [enrollProfile]: the read
    of the reference fails, the SCEP server issues a certificate, and the
    MDM server then refuses Authenticate. *)
Definition stOrphaned : State :=
  Eval vm_compute in
    snd (installProfile (refusingWorld enrollProfile [3%nat]) doc false st0).

(** The state in which [enroll2] leaves [st0] for the signing payload. *)
Definition stEnrollDone : State :=
  Eval vm_compute in
    snd (enroll2 (okWorld enrollProfile) (mkMDMClient (Some mdm1) None None)
           "prof.id" st0).

(** A second install of [scepProfile] over [stInstalled] during which the
    removal of the old profile fails: the deletion of the certificate
    item and the removal of the old document are refused. *)
Definition reinstallWorld : World := faultyWorld scepProfile [6%nat; 7%nat].

Definition stListed : State :=
  Eval vm_compute in snd (ListUUIDs reinstallWorld stInstalled).

Definition stRemovalFailed : State :=
  Eval vm_compute in snd (RemoveProfile reinstallWorld "prof.id" stListed).

Definition stReinstalled : State :=
  Eval vm_compute in snd (installProfile reinstallWorld doc false stInstalled).

End Sample.

(** The keychain deletions of a trace, in order. *)
Definition deletions (t : list Event) : list (KeychainClass * string) :=
  omap (fun e => match e with
                 | EvKeychainDelete c u => Some (c, u)
                 | _ => None
                 end) t.

(** The state in which the MDM branch of the install loop calls
    [installMDMPayload]: the device names the identity [uuid] and has been
    saved. *)
Definition afterIdentityResolved (uuid : string) (s : State) : State :=
  let d := set_MDMIdentityKeychainUUID uuid (device s) in
  set_saved (Some d) (set_trace (trace s ++ [EvDeviceSave]) (set_device d s)).

(** The order of the capability flags. *)
Definition flagsLe (a b : payloadAndResult) : Prop :=
  PayloadRequiresFlags a <= PayloadRequiresFlags b.

(** The records with capability flags [f]. *)
Definition withFlags (f : Z) (l : list payloadAndResult) : list payloadAndResult :=
  filter (fun pr => PayloadRequiresFlags pr = f) l.

(** [m] relates the state it starts in to the state it ends in by [R],
    whatever it returns. *)
Definition preserves {A : Type} (R : State -> State -> Prop) (m : M A) : Prop :=
  forall s o s', m s = (o, s') -> R s s'.

(** Nothing is rolled back: the profile store is the same, and every
    keychain item and every payload reference of [s] is still there in
    [s']. *)
Definition grows (s s' : State) : Prop :=
  profiles s' = profiles s
  /\ (forall k, is_Some (keychain s !! k) -> is_Some (keychain s' !! k))
  /\ (forall k, is_Some (payload_refs s !! k) -> is_Some (payload_refs s' !! k)).

(** No profile document is written: every document of [s'] is a document
    of [s]. *)
Definition noProfileWritten (s s' : State) : Prop :=
  forall k v, profiles s' !! k = Some v -> profiles s !! k = Some v.

(** ** The older enrollment path of the MDM client *)

Section OlderPath.
Variable w : World.

(** [saveMDMIdentity]: the results of the three [Save] calls are not
    looked at. *)
Definition saveMDMIdentity (c : MDMClient) : M (option error) :=
  dev <- gets device ;;
  err <-
    (if negb (String.eqb (MDMIdentityKeychainUUID dev) "") then
       '(_, _, err) <- loadOrDeleteMDMIdentity w (MDMIdentityKeychainUUID dev) true ;;
       ret err
     else ret None) ;;
  match err with
  | Some e => ret (Some e)
  | None =>
      kciKey <- NewKeychainItem w ClassKey ;;
      let kciKey := mkKeychainItem (kci_UUID kciKey) (kci_Class kciKey)
                      (IdentityPrivateKey c) (kci_Certificate kciKey)
                      (kci_IdentityKeyUUID kciKey)
                      (kci_IdentityCertificateUUID kciKey) in
      KeychainItem_Save w kciKey ;;;
      kciCert <- NewKeychainItem w ClassCertificate ;;
      let kciCert := mkKeychainItem (kci_UUID kciCert) (kci_Class kciCert)
                       (kci_Key kciCert) (IdentityCertificate c)
                       (kci_IdentityKeyUUID kciCert)
                       (kci_IdentityCertificateUUID kciCert) in
      KeychainItem_Save w kciCert ;;;
      kciID <- NewKeychainItem w ClassIdentity ;;
      let kciID := mkKeychainItem (kci_UUID kciID) (kci_Class kciID) (kci_Key kciID)
                     (kci_Certificate kciID) (kci_UUID kciKey) (kci_UUID kciCert) in
      KeychainItem_Save w kciID ;;;
      modify (fun s =>
        set_device (set_MDMIdentityKeychainUUID (kci_UUID kciID) (device s)) s) ;;;
      ret None
  end.

End OlderPath.

(** ** Checking a property of all bytes *)

Definition byteChecks (b : Z) : bool :=
  (0 <=? KeyUsage.reverseBitsInAByte b) && (KeyUsage.reverseBitsInAByte b <? 256)
  && (KeyUsage.reverseBitsInAByte (KeyUsage.reverseBitsInAByte b) =? b)
  && allFrom (fun i =>
       Bool.eqb (Z.testbit (KeyUsage.reverseBitsInAByte b) (7 - i)) (Z.testbit b i))
       8 0.

(** ** Relations between the state before and after a run *)

(** The identity of the device is what it was. *)
Definition sameIdentity (s s' : State) : Prop :=
  UDID (device s') = UDID (device s)
  /\ Serial (device s') = Serial (device s)
  /\ ComputerName (device s') = ComputerName (device s).

(** Nothing was added to a store: every keychain item, payload reference
    and profile document of [s'] is one of [s]. *)
Definition nothingAdded (s s' : State) : Prop :=
  (forall k v, keychain s' !! k = Some v -> keychain s !! k = Some v)
  /\ (forall k v, payload_refs s' !! k = Some v -> payload_refs s !! k = Some v)
  /\ (forall k v, profiles s' !! k = Some v -> profiles s !! k = Some v).

(** Every value [m] returns satisfies [P]. *)
Definition returns {A : Type} (P : A -> Prop) (m : M A) : Prop :=
  forall s a s', m s = (Val a, s') -> P a.

(** Only the trace differs. *)
Definition onlyTrace (s s' : State) : Prop :=
  exists t, s' = set_trace t s.

(** The record carries the common fields of a payload with this UUID. *)
Definition hasUUID (uuid : string) (v : payloadAndResult) : Prop :=
  exists c, CommonPayload v = Some c /\ PayloadUUID c = uuid.

(** The order of the capability flags, reversed. *)
Definition flagsGe (a b : payloadAndResult) : Prop :=
  PayloadRequiresFlags b <= PayloadRequiresFlags a.

(** A subject entry the builder accepts: one of the six tags with at
    least one value. *)
Definition supportedEntry (onv : list string) : Prop :=
  exists tag v rest,
    onv = tag :: v :: rest /\ In tag ["C"; "L"; "ST"; "O"; "OU"; "CN"].


(** ** The install loop, payload by payload *)

(** The records that the loop has reached after [m] payloads: they are
    the records it started with, except that the SCEP records among the
    first [m] carry the result their install returned. *)
Definition resultsUpTo (w : World) (p : Profile) (plds0 : list payloadAndResult)
  (s : State) (m : nat) (plds : list payloadAndResult) : Prop :=
  length plds = length plds0
  /\ forall k a, plds0 !! k = Some a ->
       exists b, plds !! k = Some b
         /\ CommonPayload b = CommonPayload a
         /\ par_Payload b = par_Payload a
         /\ match par_Payload a with
            | IsSCEPPayload scep =>
                if (k <? m)%nat then
                  StringResult b <> ""
                  /\ exists sa sb,
                       installPayloads w p k 0 plds0 s = (Val None, sa)
                       /\ installSCEPPayload w (profile_PayloadIdentifier p) scep sa
                          = (Val (StringResult b, None), sb)
                else StringResult b = StringResult a
            | _ => StringResult b = StringResult a
            end.

(** ** Further sample data *)

Module Cases.

(** The enrollment profile with the SCEP payload declared first. *)
Definition scepFirstProfile : Profile :=
  mkProfile "prof.id" [IsSCEPPayload Sample.scep1; IsMDMPayload Sample.mdm1].

(** A profile whose only payload is of a type the device does not
    process. *)
Definition wifi : Payload := mkPayload "com.apple.wifi.managed" "wifi.id" "WIFI-UUID".

Definition wifiProfile : Profile := mkProfile "wifi.prof" [IsOtherPayload (Some wifi)].

(** An enrolled device: its identity is [ID-1] and its enrollment profile
    [prof.id] is installed. *)
Definition devManaged : Device :=
  mkDevice "UDID0" "P3IJDS49Z90A" "Malik's computer" "prof.id" "ID-1".

Definition stManaged : State :=
  mkState devManaged None (<[profileKey "UDID0" "prof.id" := Sample.doc]> ∅)
    (<[Sample.refKey1 := "ID-1"]> ∅) Sample.keychain1 None [].

(** A device that names an identity its keychain does not hold. *)
Definition stDangling : State :=
  mkState (mkDevice "UDID0" "P3IJDS49Z90A" "Malik's computer" "" "GONE")
    None ∅ ∅ ∅ None [].

(** The state after the first call of [Device.MDMClient] on
    [stDangling]. *)
Definition stClientCached : State :=
  Eval vm_compute in
    snd (Device_MDMClient (Sample.okWorld Sample.scepProfile) stDangling).

(** A first install of [scep1] during which the read of the reference
    fails, and then the save of the key item. *)
Definition saveFailsWorld : World := Sample.faultyWorld Sample.scepProfile [2%nat; 5%nat].

Definition stSaveFailed : State :=
  Eval vm_compute in
    snd (installSCEPPayload saveFailsWorld "prof.id" Sample.scep1 Sample.st0).

(** The state in which [installMDMPayload] is called for [mdm1] once the
    identity [ID-1] of [stIssued] is resolved, and the state it leaves. *)
Definition stResolved : State := afterIdentityResolved "ID-1" Sample.stIssued.

Definition stMDMInstalled : State :=
  Eval vm_compute in
    snd (installMDMPayload (Sample.okWorld Sample.enrollProfile) Sample.mdm1 "prof.id"
           stResolved).

(** The stores after [stInstalled] had its profile removed. *)
Definition stProfileRemoved : State :=
  Eval vm_compute in
    snd (RemoveProfile (Sample.okWorld Sample.scepProfile) "prof.id" Sample.stInstalled).

(** An enrollment profile in which a certificate payload, of a type the
    device does not process, has the UUID of the SCEP payload. *)
Definition ca : Payload := mkPayload "com.apple.security.root" "ca.id" "SCEP-UUID".

Definition dupProfile : Profile :=
  mkProfile "prof.id"
    [IsMDMPayload Sample.mdm1; IsSCEPPayload Sample.scep1; IsOtherPayload (Some ca)].

(** A profile with a payload that has no common fields. *)
Definition bareProfile : Profile :=
  mkProfile "bare.prof" [IsOtherPayload (Some wifi); IsOtherPayload None].





End Cases.

(** * Theorems *)

(** ** Key-usage extension *)

Lemma allFrom_spec (P : Z -> bool) (n : nat) :
  forall z, allFrom P n z = true ->
  forall k, z <= k < z + Z.of_nat n -> P k = true.
Proof.
  induction n as [|n IH]; intros z H k Hk; [lia|].
  simpl in H. apply andb_true_iff in H as [H1 H2].
  destruct (Z.eq_dec k z) as [->|Hne]; [exact H1|].
  apply (IH (z + 1) H2). lia.
Qed.

Lemma all_masks_checked : allFrom masksWithHighByte 256 0 = true.
Proof. vm_compute. reflexivity. Qed.

Lemma maskChecks_16bit (m : Z) : 0 <= m < 65536 -> maskChecks m = true.
Proof.
  intros Hm.
  pose proof (allFrom_spec _ _ _ all_masks_checked (m / 256)) as Hhi.
  assert (Hq : 0 <= m / 256 < 0 + Z.of_nat 256).
  { split; [apply Z.div_pos; lia | apply Z.div_lt_upper_bound; lia]. }
  specialize (Hhi Hq). unfold masksWithHighByte in Hhi.
  pose proof (allFrom_spec _ _ _ Hhi (m mod 256)) as Hlo.
  assert (Hr : 0 <= m mod 256 < 0 + Z.of_nat 256).
  { pose proof (Z.mod_pos_bound m 256). lia. }
  specialize (Hlo Hr). cbv beta in Hlo.
  replace (m mod 256 + 256 * (m / 256)) with m in Hlo; [exact Hlo|].
  pose proof (Z.div_mod m 256). lia.
Qed.

Lemma byte_of_low16 (x : Z) :
  KeyUsage.byte_of (x mod 65536) = KeyUsage.byte_of x.
Proof.
  unfold KeyUsage.byte_of.
  change 65536 with (2 ^ 16). rewrite <- Z.land_ones by lia.
  rewrite <- Z.land_assoc. reflexivity.
Qed.

Lemma byte_of_shiftr_low16 (x : Z) :
  KeyUsage.byte_of (Z.shiftr (x mod 65536) 8) = KeyUsage.byte_of (Z.shiftr x 8).
Proof.
  unfold KeyUsage.byte_of.
  change 65536 with (2 ^ 16). rewrite <- Z.land_ones by lia.
  rewrite Z.shiftr_land, <- Z.land_assoc. reflexivity.
Qed.

Lemma keyUsageBitString_low16 (keyUsage : Z) :
  KeyUsage.keyUsageBitString keyUsage
  = KeyUsage.keyUsageBitString (keyUsage mod 65536).
Proof.
  unfold KeyUsage.keyUsageBitString.
  rewrite byte_of_low16, byte_of_shiftr_low16. reflexivity.
Qed.

Lemma maskChecks_parts (m : Z) :
  maskChecks m = true ->
  let bs := KeyUsage.keyUsageBitString m in
  KeyUsage.spec_decodeKeyUsage bs = m
  /\ KeyUsage.BitLength bs = (if m =? 0 then 0 else Z.log2 m + 1)
  /\ forall i, 0 <= i < 16 ->
       Z.testbit (nth (Z.to_nat (i / 8)) (KeyUsage.Bytes bs) 0) (7 - i mod 8)
       = Z.testbit m i.
Proof.
  unfold maskChecks. intros H.
  apply andb_true_iff in H as [H Hbits].
  apply andb_true_iff in H as [Hrt Hlen].
  apply Z.eqb_eq in Hrt. apply Z.eqb_eq in Hlen.
  repeat split; [exact Hrt | exact Hlen |].
  intros i Hi.
  apply Bool.eqb_prop.
  apply (allFrom_spec _ _ _ Hbits i). simpl. lia.
Qed.

(** C8, as the code has it. [newKeyUsageExtension] builds the extension
    with OID 2.5.29.15, marked critical, whose value is the marshalled BIT
    STRING of the low 16 bits of its argument: bit [i] of the mask, for
    [i] below 16, is bit [7 - i mod 8] of byte [i / 8] (mask bit 0 is the
    most significant bit of the first byte; an absent second byte stands
    for zero bits); the reported bit length is the position of the highest
    set bit plus one, so trailing zero bits are stripped; decoding the BIT
    STRING gives the mask modulo 2^16, which is the mask itself exactly
    when it lies in 0..65535. *)
Theorem newKeyUsageExtension_low16_roundtrip
  (marshal : KeyUsage.BitString -> list Z * option error) (keyUsage : Z) :
  let bs := KeyUsage.keyUsageBitString keyUsage in
  let m := keyUsage mod 65536 in
  KeyUsage.newKeyUsageExtension marshal keyUsage
    = (KeyUsage.mkExtension [2; 5; 29; 15] true (fst (marshal bs)), snd (marshal bs))
  /\ (forall i, 0 <= i < 16 ->
        Z.testbit (nth (Z.to_nat (i / 8)) (KeyUsage.Bytes bs) 0) (7 - i mod 8)
        = Z.testbit keyUsage i)
  /\ KeyUsage.BitLength bs = (if m =? 0 then 0 else Z.log2 m + 1)
  /\ KeyUsage.spec_decodeKeyUsage bs = m
  /\ (0 <= keyUsage < 65536 -> KeyUsage.spec_decodeKeyUsage bs = keyUsage).
Proof.
  intros bs m.
  assert (Hm : 0 <= m < 65536) by (apply Z.mod_pos_bound; lia).
  destruct (maskChecks_parts m (maskChecks_16bit m Hm)) as (Hrt & Hlen & Hbits).
  assert (Hbs : bs = KeyUsage.keyUsageBitString m)
    by apply keyUsageBitString_low16.
  rewrite <- Hbs in Hrt, Hlen, Hbits.
  repeat split.
  - unfold KeyUsage.newKeyUsageExtension. fold bs. destruct (marshal bs); reflexivity.
  - intros i Hi. rewrite (Hbits i Hi). unfold m.
    change 65536 with (2 ^ 16). apply Z.mod_pow2_bits_low. lia.
  - exact Hlen.
  - exact Hrt.
  - intros Hr. rewrite Hrt. unfold m. apply Z.mod_small. exact Hr.
Qed.

Lemma newKeyUsageExtension_low16_roundtrip_witness :
  0 <= 5 < 65536
  /\ KeyUsage.spec_decodeKeyUsage (KeyUsage.keyUsageBitString 5) = 5.
Proof.
  split; [lia|].
  apply (newKeyUsageExtension_low16_roundtrip (fun _ => ([], None)) 5). lia.
Defined.

(** C8 as stated fails for a mask with a bit above bit 15: the two-byte
    buffer drops it, and the BIT STRING of 65536 decodes to 0. *)
Lemma newKeyUsageExtension_drops_bit16 :
  KeyUsage.keyUsageBitString 65536 = KeyUsage.mkBitString [0] 0
  /\ KeyUsage.spec_decodeKeyUsage (KeyUsage.keyUsageBitString 65536) <> 65536.
Proof. split; [reflexivity | vm_compute; discriminate]. Qed.

(** ** Key generation *)

(** C7. For a payload whose [KeyType] is unset or ["RSA"],
    [keyFromSCEPProfilePayload] asks [rsa.GenerateKey] for [KeySize] bits
    when [KeySize] is positive and for 1024 bits otherwise, and returns
    what the library returns, so a key it returns has that size whenever
    the library gives keys of the size it is asked for. For any other
    [KeyType] it returns the error "only RSA keys supported", no key, and
    the library is not called. *)
Theorem keyFromSCEPProfilePayload_size (w : World) (pl : SCEPPayload) (s : State) :
  let plc := PayloadContent pl in
  let size := if 0 <? KeySize plc then KeySize plc else 1024 in
  (KeyType plc = "" \/ KeyType plc = "RSA" ->
     keyFromSCEPProfilePayload w pl s
       = (Val (rsa_GenerateKey w (length (trace s)) size),
          set_trace (trace s ++ [EvGenerateKey size]) s)
     /\ ((forall n bits k, rsa_GenerateKey w n bits = inl k -> key_bits k = bits) ->
         forall k s', keyFromSCEPProfilePayload w pl s = (Val (inl k), s') ->
                      key_bits k = size))
  /\ (KeyType plc <> "" -> KeyType plc <> "RSA" ->
      keyFromSCEPProfilePayload w pl s
        = (Val (inr (errors_New "only RSA keys supported")), s)).
Proof.
  intros plc size. split.
  - intros Hty.
    assert (Heq : keyFromSCEPProfilePayload w pl s
                  = (Val (rsa_GenerateKey w (length (trace s)) size),
                     set_trace (trace s ++ [EvGenerateKey size]) s)).
    { unfold keyFromSCEPProfilePayload. fold plc.
      destruct Hty as [-> | ->]; reflexivity. }
    split; [exact Heq|].
    intros Hlib k s' Hk. rewrite Heq in Hk. inversion Hk as [[Hgen Hs]].
    apply (Hlib _ _ _ Hgen).
  - intros H1 H2. unfold keyFromSCEPProfilePayload. fold plc.
    apply String.eqb_neq in H1, H2. rewrite H1, H2. reflexivity.
Qed.

Lemma keyFromSCEPProfilePayload_size_witness :
  keyFromSCEPProfilePayload (Sample.okWorld Sample.scepProfile) Sample.scep1 Sample.st0
  = (Val (inl (mkPrivateKey 2048 0)), set_trace [EvGenerateKey 2048] Sample.st0)
  /\ (forall k s',
        keyFromSCEPProfilePayload (Sample.okWorld Sample.scepProfile) Sample.scep1
          Sample.st0 = (Val (inl k), s') ->
        key_bits k = 2048).
Proof.
  pose proof (keyFromSCEPProfilePayload_size (Sample.okWorld Sample.scepProfile)
                Sample.scep1 Sample.st0) as [Hrsa _].
  destruct (Hrsa (or_intror eq_refl)) as [Heq Hbits].
  split; [exact Heq|].
  apply Hbits. intros n bits k Hk. simpl in Hk. inversion Hk. reflexivity.
Defined.

(** ** Device variables *)

Section ReplacerFacts.
Import Replacer.
Variable oldnew : list (string * string).

Lemma prefix_append (a b : string) : String.prefix a (a +:+ b) = true.
Proof.
  induction a as [|c a IH]; simpl; [destruct b; reflexivity|].
  destruct (Ascii.ascii_dec c c); [exact IH | congruence].
Qed.

Lemma prefix_split (a s : string) :
  String.prefix a s = true -> exists b, s = a +:+ b.
Proof.
  revert s. induction a as [|c a IH]; intros s H.
  - exists s. reflexivity.
  - destruct s as [|c' s]; simpl in H; [discriminate|].
    destruct (Ascii.ascii_dec c c') as [->|]; [|discriminate].
    destruct (IH s H) as [b ->]. exists b. reflexivity.
Qed.

Lemma lookup_Some (s new : string) (keylen : nat) :
  lookup oldnew s = Some (new, keylen) ->
  exists old, In (old, new) oldnew /\ String.prefix old s = true
              /\ keylen = String.length old.
Proof.
  induction oldnew as [|[old new'] rest IH]; simpl; [discriminate|].
  destruct (String.prefix old s) eqn:Hp.
  - intros [= <- <-]. exists old. auto.
  - intros H. destruct (IH H) as (o & Hin & Ho & Hk). exists o. auto.
Qed.




End ReplacerFacts.




Lemma length_append (a b : string) :
  String.length (a +:+ b) = (String.length a + String.length b)%nat.
Proof.
  induction a as [|c a IH]; [reflexivity|].
  change (String c a +:+ b) with (String c (a +:+ b)). simpl. rewrite IH. reflexivity.
Qed.











(** ** The Enroll transition *)

(** C6. With [SignMessage] off, [enroll2] returns the error "non-SignMessage
    (mTLS) enrollment not supported" and leaves the state as it was: no
    Authenticate, no TokenUpdate, [MDMProfileIdentifier] untouched.
    Whenever [enroll2] changes [MDMProfileIdentifier], the payload has
    [SignMessage] on and Authenticate and TokenUpdate were called, in this
    order, and both succeeded. *)
Theorem enroll2_requires_SignMessage (w : World) (c : MDMClient)
  (mdmPayload : MDMPayload) (profileID : string) (s : State) :
  client_MDMPayload c = Some mdmPayload ->
  (SignMessage mdmPayload = false ->
     enroll2 w c profileID s
     = (Val (Some (errors_New "non-SignMessage (mTLS) enrollment not supported")), s))
  /\ (forall r s',
        enroll2 w c profileID s = (r, s') ->
        MDMProfileIdentifier (device s') <> MDMProfileIdentifier (device s) ->
        SignMessage mdmPayload = true
        /\ r = Val None
        /\ trace s' = (trace s ++ [EvAuthenticate; EvTokenUpdate])%list
        /\ checkin_authenticate w (length (trace s)) = None
        /\ checkin_tokenUpdate w (S (length (trace s))) = None
        /\ MDMProfileIdentifier (device s') = profileID).
Proof.
  intros Hpl. unfold enroll2. rewrite Hpl. split.
  - intros ->. reflexivity.
  - intros r s'. destruct (SignMessage mdmPayload).
    + unfold bind, authenticate, tokenUpdate, emit, ret, modify. simpl.
      destruct (checkin_authenticate w (length (trace s))) eqn:Ha; simpl.
      { intros [= <- <-] Hne. simpl in Hne. congruence. }
      rewrite length_app. simpl. rewrite Nat.add_1_r.
      destruct (checkin_tokenUpdate w (S (length (trace s)))) eqn:Ht; simpl.
      { intros [= <- <-] Hne. simpl in Hne. congruence. }
      intros [= <- <-] _. simpl. rewrite <- app_assoc. repeat split.
    + simpl. intros [= <- <-] Hne. congruence.
Qed.

Lemma enroll2_sample_run :
  enroll2 (Sample.okWorld Sample.enrollProfile)
    (mkMDMClient (Some Sample.mdm1) None None) "prof.id" Sample.st0
  = (Val None, Sample.stEnrollDone).
Proof. vm_compute. reflexivity. Qed.

Lemma enroll2_requires_SignMessage_witness :
  (enroll2 (Sample.okWorld Sample.enrollProfile)
     (mkMDMClient (Some Sample.mdmUnsigned) None None) "prof.id" Sample.st0
   = (Val (Some (errors_New "non-SignMessage (mTLS) enrollment not supported")),
      Sample.st0)
   /\ MDMProfileIdentifier (device Sample.st0) = "")
  /\ (trace Sample.stEnrollDone = [EvAuthenticate; EvTokenUpdate]
      /\ MDMProfileIdentifier (device Sample.stEnrollDone) = "prof.id").
Proof.
  split.
  - split; [|reflexivity].
    apply (enroll2_requires_SignMessage (Sample.okWorld Sample.enrollProfile)
             (mkMDMClient (Some Sample.mdmUnsigned) None None) Sample.mdmUnsigned
             "prof.id" Sample.st0 eq_refl).
    reflexivity.
  - destruct (enroll2_requires_SignMessage (Sample.okWorld Sample.enrollProfile)
                (mkMDMClient (Some Sample.mdm1) None None) Sample.mdm1
                "prof.id" Sample.st0 eq_refl) as [_ Hset].
    destruct (Hset _ _ enroll2_sample_run) as (_ & _ & Ht & _ & _ & Hid).
    + discriminate.
    + split; [exact Ht | exact Hid].
Defined.

(** ** Validation *)

(** C5. A document that parses to a profile with more than one MDM
    payload is rejected by [installProfile] with the error "Profile may
    only contain one MDM payload", and the state is the state before the
    call: the trace has no new call (no key generation, no SCEP request,
    no check-in, no transaction) and no store has changed. *)
Theorem installProfile_rejects_two_MDM_payloads (w : World) (pb : bytes)
  (p : Profile) (fromMDM : bool) (s : State) :
  pb <> [] ->
  plist_Unmarshal w pb = inl p ->
  (1 < length (MDMPayloads p))%nat ->
  installProfile w pb fromMDM s
  = (Val (Some (errors_New "Profile may only contain one MDM payload")), s).
Proof.
  intros Hpb Hp Hlen. unfold installProfile.
  destruct pb as [|b pb]; [congruence|]. rewrite Hp.
  unfold ValidateProfileInstall, bind.
  destruct (MDMPayloads p) as [|m1 [|m2 rest]]; simpl in Hlen; try lia.
  reflexivity.
Qed.

Lemma installProfile_rejects_two_MDM_payloads_witness :
  installProfile (Sample.okWorld Sample.twoMDMProfile) Sample.doc false Sample.stIssued
  = (Val (Some (errors_New "Profile may only contain one MDM payload")),
     Sample.stIssued).
Proof.
  apply (installProfile_rejects_two_MDM_payloads
           (Sample.okWorld Sample.twoMDMProfile) Sample.doc Sample.twoMDMProfile).
  - discriminate.
  - reflexivity.
  - simpl. lia.
Defined.

(** ** Running the monad *)

Lemma bind_val {A B : Type} (m : M A) (k : A -> M B) (s s' : State) (a : A) :
  m s = (Val a, s') -> bind m k s = k a s'.
Proof. intros H. unfold bind. rewrite H. reflexivity. Qed.

Lemma bind_panicked {A B : Type} (m : M A) (k : A -> M B) (s s' : State) (msg : string) :
  m s = (Panicked msg, s') -> bind m k s = (Panicked msg, s').
Proof. intros H. unfold bind. rewrite H. reflexivity. Qed.

(** What a sequence returned comes from a run of its first part followed
    by a run of its second part. *)
Lemma bind_inv {A B : Type} (m : M A) (k : A -> M B) (s s' : State) (o : Outcome B) :
  bind m k s = (o, s') ->
  (exists a s1, m s = (Val a, s1) /\ k a s1 = (o, s'))
  \/ (exists msg, m s = (Panicked msg, s') /\ o = Panicked msg).
Proof.
  unfold bind. destruct (m s) as [[a|msg] s1]; intros H.
  - left. exists a, s1. auto.
  - right. exists msg. inversion H. auto.
Qed.

Lemma length_snoc {A : Type} (l : list A) (x : A) :
  length (l ++ [x]) = (length l + 1)%nat.
Proof. rewrite length_app. reflexivity. Qed.

Lemma keyFrom_run (w : World) (pl : SCEPPayload) (s : State) :
  let plc := PayloadContent pl in
  let size := if 0 <? KeySize plc then KeySize plc else 1024 in
  KeyType plc = "" \/ KeyType plc = "RSA" ->
  keyFromSCEPProfilePayload w pl s
  = (Val (rsa_GenerateKey w (length (trace s)) size),
     set_trace (trace s ++ [EvGenerateKey size]) s).
Proof.
  intros plc size Hty. unfold keyFromSCEPProfilePayload. fold plc.
  destruct Hty as [-> | ->]; reflexivity.
Qed.

Lemma csrFrom_run (w : World) (pl : SCEPPayload) (dev : Device) (key : PrivateKey)
  (tmpl : CertificateRequest) (s : State) :
  csrTemplate (asn1_Marshal w) pl dev = inl tmpl ->
  csrFromSCEPProfilePayload w pl dev key s
  = (Val (x509util_CreateCertificateRequest w (length (trace s)) tmpl key),
     set_trace (trace s ++ [EvCreateCertificateRequest]) s).
Proof. intros H. unfold csrFromSCEPProfilePayload. rewrite H. reflexivity. Qed.

Lemma transaction_run (w : World) (e : Event) (s : State) :
  transaction w e s
  = (Val (bolt_tx w (length (trace s))), set_trace (trace s ++ [e]) s).
Proof. reflexivity. Qed.

Lemma loadPayloadRefString_run (w : World) (profileID : string) (pld : Payload)
  (ekey : string) (s : State) :
  let key := refKey profileID pld ekey in
  loadPayloadRefString w profileID pld ekey s
  = (Val (match bolt_tx w (length (trace s)) with
          | Some e => ("", Some e)
          | None => (BucketGetString (payload_refs s) key, None)
          end),
     set_trace (trace s ++ [EvRefLoad key]) s).
Proof.
  intros key. unfold loadPayloadRefString. fold key.
  rewrite (bind_val _ _ _ _ _ (transaction_run w _ s)).
  destruct (bolt_tx w (length (trace s))); reflexivity.
Qed.

(** When the key, the request and the read of the reference succeed,
    [installSCEPPayload] returns the string stored under the reference key
    with a [nil] error and stops there. *)
Lemma installSCEPPayload_reads_reference (w : World) (profileID : string)
  (pl : SCEPPayload) (s : State) (key : PrivateKey) (tmpl : CertificateRequest)
  (csr : bytes) :
  let plc := PayloadContent pl in
  let size := if 0 <? KeySize plc then KeySize plc else 1024 in
  let rk := refKey profileID (scep_Payload pl) "keychain_identity" in
  (KeyType plc = "" \/ KeyType plc = "RSA") ->
  rsa_GenerateKey w (length (trace s)) size = inl key ->
  csrTemplate (asn1_Marshal w) pl (device s) = inl tmpl ->
  x509util_CreateCertificateRequest w (length (trace s) + 1) tmpl key = inl csr ->
  bolt_tx w (length (trace s) + 2) = None ->
  installSCEPPayload w profileID pl s
  = (Val (BucketGetString (payload_refs s) rk, None),
     set_trace
       (trace s ++ [EvGenerateKey size; EvCreateCertificateRequest; EvRefLoad rk]) s).
Proof.
  intros plc size rk Hty Hkey Htmpl Hcsr Htx.
  unfold installSCEPPayload.
  rewrite (bind_val _ _ _ _ _ (keyFrom_run w pl s Hty)).
  fold plc size. rewrite Hkey.
  unfold gets at 1. unfold bind at 1.
  rewrite (bind_val _ _ _ _ _ (csrFrom_run w pl _ key tmpl _ Htmpl)).
  cbn [trace set_trace]. rewrite length_snoc, Hcsr.
  rewrite (bind_val _ _ _ _ _ (loadPayloadRefString_run w _ _ _ _)).
  cbn [trace set_trace]. rewrite !length_snoc, <- Nat.add_assoc. cbn [Nat.add].
  rewrite Htx. unfold ret. cbn. rewrite <- !app_assoc. reflexivity.
Qed.

(** ** Installing a SCEP payload *)

(** C1, at the input on which the code departs from it. When no
    reference is stored for the payload and the key, the request and the
    read of the reference succeed, [installSCEPPayload] returns the empty
    string with a [nil] error: the read reports no error, and the code
    takes the absence of an error for a stored reference. The SCEP client
    is not called and the keychain and the reference store are what they
    were, so no identity is issued. *)
Theorem installSCEPPayload_missing_reference (w : World) (profileID : string)
  (pl : SCEPPayload) (s : State) (key : PrivateKey) (tmpl : CertificateRequest)
  (csr : bytes) :
  let plc := PayloadContent pl in
  let size := if 0 <? KeySize plc then KeySize plc else 1024 in
  let rk := refKey profileID (scep_Payload pl) "keychain_identity" in
  (KeyType plc = "" \/ KeyType plc = "RSA") ->
  rsa_GenerateKey w (length (trace s)) size = inl key ->
  csrTemplate (asn1_Marshal w) pl (device s) = inl tmpl ->
  x509util_CreateCertificateRequest w (length (trace s) + 1) tmpl key = inl csr ->
  bolt_tx w (length (trace s) + 2) = None ->
  payload_refs s !! rk = None ->
  exists s',
    installSCEPPayload w profileID pl s = (Val ("", None), s')
    /\ trace s'
       = (trace s ++ [EvGenerateKey size; EvCreateCertificateRequest; EvRefLoad rk])%list
    /\ keychain s' = keychain s
    /\ payload_refs s' = payload_refs s.
Proof.
  intros plc size rk Hty Hkey Htmpl Hcsr Htx Hnone.
  eexists. split.
  - rewrite (installSCEPPayload_reads_reference w profileID pl s key tmpl csr
               Hty Hkey Htmpl Hcsr Htx).
    fold rk. unfold BucketGetString. rewrite Hnone. reflexivity.
  - repeat split.
Qed.

Lemma installSCEPPayload_missing_reference_witness :
  (exists s',
     installSCEPPayload (Sample.okWorld Sample.scepProfile) "prof.id" Sample.scep1
       Sample.st0 = (Val ("", None), s')
     /\ trace s'
        = [EvGenerateKey 2048; EvCreateCertificateRequest; EvRefLoad Sample.refKey1]
     /\ keychain s' = ∅
     /\ payload_refs s' = ∅)
  /\ fst (installProfile (Sample.okWorld Sample.scepProfile) Sample.doc false Sample.st0)
     = Val (Some (errors_New "no result from scep payload install")).
Proof.
  split.
  - eapply (installSCEPPayload_missing_reference (Sample.okWorld Sample.scepProfile)
              "prof.id" Sample.scep1 Sample.st0).
    + right. reflexivity.
    + reflexivity.
    + reflexivity.
    + reflexivity.
    + reflexivity.
    + reflexivity.
  - vm_compute. reflexivity.
Defined.

(** ** Removing a SCEP payload *)

Lemma LoadKeychainItem_inv (w : World) (uuid : string) (s s' : State)
  (o : Outcome (option KeychainItem * option error)) :
  LoadKeychainItem w uuid s = (o, s') ->
  s' = set_trace (trace s ++ [EvKeychainLoad uuid]) s
  /\ ((exists kci, o = Val (Some kci, None) /\ keychain s !! uuid = Some kci)
      \/ (exists e, o = Val (None, Some e))).
Proof.
  unfold LoadKeychainItem.
  rewrite (bind_val _ _ _ _ _ (transaction_run w _ s)).
  destruct (bolt_tx w (length (trace s))) as [e|].
  - intros [= <- <-]. split; [reflexivity|]. right. eauto.
  - unfold gets at 1. unfold bind at 1. cbn [keychain set_trace].
    destruct (keychain s !! uuid) as [kci|] eqn:Hk.
    + destruct (kci_Class kci);
        try (intros [= <- <-]; split; [reflexivity|]; left; eauto).
      destruct (resolves _ _ && resolves _ _);
        intros [= <- <-]; (split; [reflexivity|]); [left | right]; eauto.
    + intros [= <- <-]. split; [reflexivity|]. right. eauto.
Qed.

Lemma KeychainItem_Delete_run (w : World) (kci : KeychainItem) (s : State) :
  KeychainItem_Delete w kci s
  = match bolt_tx w (length (trace s)) with
    | Some e =>
        (Val (Some e),
         set_trace (trace s ++ [EvKeychainDelete (kci_Class kci) (kci_UUID kci)]) s)
    | None =>
        (Val None,
         set_keychain (delete (kci_UUID kci) (keychain s))
           (set_trace (trace s ++ [EvKeychainDelete (kci_Class kci) (kci_UUID kci)]) s))
    end.
Proof.
  unfold KeychainItem_Delete.
  rewrite (bind_val _ _ _ _ _ (transaction_run w _ s)).
  destruct (bolt_tx w (length (trace s))); reflexivity.
Qed.

Lemma removePayloadRefString_run (w : World) (profileID : string) (pld : Payload)
  (ekey : string) (s : State) :
  let key := refKey profileID pld ekey in
  removePayloadRefString w profileID pld ekey s
  = match bolt_tx w (length (trace s)) with
    | Some e => (Val (Some e), set_trace (trace s ++ [EvRefRemove key]) s)
    | None =>
        (Val None,
         set_payload_refs (delete key (payload_refs s))
           (set_trace (trace s ++ [EvRefRemove key]) s))
    end.
Proof.
  intros key. unfold removePayloadRefString. fold key.
  rewrite (bind_val _ _ _ _ _ (transaction_run w _ s)).
  destruct (bolt_tx w (length (trace s))); reflexivity.
Qed.

Ltac load_step H kci Hk :=
  apply bind_inv in H as [(a & s1 & Hload & H) | (msg & Hload & _)];
  [ apply LoadKeychainItem_inv in Hload as [-> [(kci & [= ->] & Hk) | (e & [= ->])]]
  | apply LoadKeychainItem_inv in Hload as [_ [(kci & ? & _) | (e & ?)]]; discriminate ].

Lemma removeSCEPPayload_cases (w : World) (profileID : string) (pl : SCEPPayload)
  (s s' : State) (o : Outcome (option error)) :
  let rk := refKey profileID (scep_Payload pl) "keychain_identity" in
  removeSCEPPayload w profileID pl s = (o, s') ->
  (o = Val None
   /\ exists kciID kciKey kciCert,
        keychain s !! BucketGetString (payload_refs s) rk = Some kciID
        /\ keychain s !! kci_IdentityKeyUUID kciID = Some kciKey
        /\ keychain s !! kci_IdentityCertificateUUID kciID = Some kciCert
        /\ trace s'
           = (trace s ++
              [EvRefLoad rk;
               EvKeychainLoad (BucketGetString (payload_refs s) rk);
               EvKeychainLoad (kci_IdentityKeyUUID kciID);
               EvKeychainLoad (kci_IdentityCertificateUUID kciID);
               EvKeychainDelete (kci_Class kciCert) (kci_UUID kciCert);
               EvKeychainDelete (kci_Class kciKey) (kci_UUID kciKey);
               EvKeychainDelete (kci_Class kciID) (kci_UUID kciID);
               EvRefRemove rk])%list
        /\ keychain s'
           = delete (kci_UUID kciID)
               (delete (kci_UUID kciKey) (delete (kci_UUID kciCert) (keychain s)))
        /\ payload_refs s' = delete rk (payload_refs s))
  \/ (exists e, o = Val (Some e) /\ payload_refs s' = payload_refs s).
Proof.
  intros rk H. unfold removeSCEPPayload in H.
  rewrite (bind_val _ _ _ _ _ (loadPayloadRefString_run w _ _ _ _)) in H.
  fold rk in H.
  destruct (bolt_tx w (length (trace s))) as [e|].
  { inversion H; subst. right. eauto. }
  load_step H kciID HkID; [|inversion H; subst; right; eauto].
  load_step H kciKey HkKey; [|inversion H; subst; right; eauto].
  load_step H kciCert HkCert; [|inversion H; subst; right; eauto].
  cbn [keychain set_trace] in HkID, HkKey, HkCert.
  do 3 (unfold bind at 1 in H; rewrite KeychainItem_Delete_run in H;
        match type of H with
        | context [bolt_tx ?w ?n] => destruct (bolt_tx w n) as [?e|]
        end; [inversion H; subst; right; eauto|]).
  unfold bind at 1 in H. rewrite removePayloadRefString_run in H. fold rk in H.
  match type of H with
  | context [bolt_tx ?w ?n] => destruct (bolt_tx w n) as [?e|]
  end; [inversion H; subst; right; eauto|].
  inversion H; subst. left. split; [reflexivity|].
  exists kciID, kciKey, kciCert. cbn. rewrite <- !app_assoc. repeat split; assumption.
Qed.

(** C2, as the code has it. A run of [removeSCEPPayload] that returns
    [nil] has read the reference, loaded the Identity item, its Key item
    and its Certificate item, and then deleted the Certificate item first,
    the Key item second and the Identity item last; the reference entry is
    removed after the three deletions. A run that returns an error leaves
    the reference store as it was. *)
Theorem removeSCEPPayload_deletes_certificate_key_identity (w : World)
  (profileID : string) (pl : SCEPPayload) (s : State) :
  let rk := refKey profileID (scep_Payload pl) "keychain_identity" in
  (forall s',
     removeSCEPPayload w profileID pl s = (Val None, s') ->
     exists kciID kciKey kciCert,
       keychain s !! BucketGetString (payload_refs s) rk = Some kciID
       /\ keychain s !! kci_IdentityKeyUUID kciID = Some kciKey
       /\ keychain s !! kci_IdentityCertificateUUID kciID = Some kciCert
       /\ trace s'
          = (trace s ++
             [EvRefLoad rk;
              EvKeychainLoad (BucketGetString (payload_refs s) rk);
              EvKeychainLoad (kci_IdentityKeyUUID kciID);
              EvKeychainLoad (kci_IdentityCertificateUUID kciID);
              EvKeychainDelete (kci_Class kciCert) (kci_UUID kciCert);
              EvKeychainDelete (kci_Class kciKey) (kci_UUID kciKey);
              EvKeychainDelete (kci_Class kciID) (kci_UUID kciID);
              EvRefRemove rk])%list
       /\ deletions (trace s')
          = (deletions (trace s) ++
             [(kci_Class kciCert, kci_UUID kciCert);
              (kci_Class kciKey, kci_UUID kciKey);
              (kci_Class kciID, kci_UUID kciID)])%list
       /\ keychain s'
          = delete (kci_UUID kciID)
              (delete (kci_UUID kciKey) (delete (kci_UUID kciCert) (keychain s)))
       /\ payload_refs s' = delete rk (payload_refs s))
  /\ (forall e s',
        removeSCEPPayload w profileID pl s = (Val (Some e), s') ->
        payload_refs s' = payload_refs s).
Proof.
  intros rk. split.
  - intros s' H.
    destruct (removeSCEPPayload_cases w profileID pl s s' _ H)
      as [(_ & kciID & kciKey & kciCert & H1 & H2 & H3 & Ht & Hk & Hr)
         | (e & [=] & _)].
    exists kciID, kciKey, kciCert. fold rk in Ht, Hr, H1.
    repeat split; try assumption.
    rewrite Ht. unfold deletions. rewrite omap_app. reflexivity.
  - intros e s' H.
    destruct (removeSCEPPayload_cases w profileID pl s s' _ H)
      as [([=] & _) | (e' & _ & Hr)].
    exact Hr.
Qed.

Lemma removeSCEPPayload_sample_run :
  removeSCEPPayload (Sample.okWorld Sample.scepProfile) "prof.id" Sample.scep1
    Sample.stIssued = (Val None, Sample.stRemoved).
Proof. vm_compute. reflexivity. Qed.

Lemma removeSCEPPayload_deletes_certificate_key_identity_witness :
  removeSCEPPayload (Sample.okWorld Sample.scepProfile) "prof.id" Sample.scep1
    Sample.stIssued = (Val None, Sample.stRemoved)
  /\ deletions (trace Sample.stRemoved)
     = [(ClassCertificate, "CERT-1"); (ClassKey, "KEY-1"); (ClassIdentity, "ID-1")]
  /\ payload_refs Sample.stRemoved
     = delete Sample.refKey1 (payload_refs Sample.stIssued).
Proof.
  split; [exact removeSCEPPayload_sample_run|].
  destruct (removeSCEPPayload_deletes_certificate_key_identity
              (Sample.okWorld Sample.scepProfile) "prof.id" Sample.scep1
              Sample.stIssued) as [Hok _].
  destruct (Hok _ removeSCEPPayload_sample_run)
    as (kciID & kciKey & kciCert & H1 & H2 & H3 & _ & Hd & _ & Hr).
  vm_compute in H1. injection H1 as <-.
  vm_compute in H2. injection H2 as <-.
  vm_compute in H3. injection H3 as <-.
  split; [exact Hd | exact Hr].
Defined.

(** C2 as stated fails: on a keychain that holds the identity ID-1 with
    key KEY-1 and certificate CERT-1, the deletions are made in the order
    Certificate, Key, Identity, not Identity, Key, Certificate. *)
Lemma removeSCEPPayload_identity_deleted_last :
  let r := removeSCEPPayload (Sample.okWorld Sample.scepProfile) "prof.id"
             Sample.scep1 Sample.stIssued in
  fst r = Val None
  /\ deletions (trace (snd r))
     = [(ClassCertificate, "CERT-1"); (ClassKey, "KEY-1"); (ClassIdentity, "ID-1")]
  /\ deletions (trace (snd r))
     <> [(ClassIdentity, "ID-1"); (ClassKey, "KEY-1"); (ClassCertificate, "CERT-1")].
Proof. vm_compute. repeat split. discriminate. Qed.

(** ** Install order *)

Section StableSort.
Context {A : Type} (less : A -> A -> bool).

Lemma insertStable_Permutation (x : A) (l : list A) :
  insertStable less x l ≡ₚ x :: l.
Proof.
  induction l as [|y l IH]; simpl; [reflexivity|].
  destruct (less y x); [|reflexivity].
  rewrite IH. apply Permutation_swap.
Qed.

Lemma sortSliceStable_Permutation (l : list A) : sortSliceStable less l ≡ₚ l.
Proof.
  induction l as [|x l IH]; simpl; [reflexivity|].
  rewrite insertStable_Permutation, IH. reflexivity.
Qed.
End StableSort.

Lemma insertStable_flags_sorted (x : payloadAndResult) (l : list payloadAndResult) :
  StronglySorted flagsLe l -> StronglySorted flagsLe (insertStable (lessFlags false) x l).
Proof.
  induction 1 as [|y l Hs IH Hall]; simpl; [repeat constructor|].
  unfold lessFlags at 1. destruct (Z.ltb_spec (PayloadRequiresFlags y) (PayloadRequiresFlags x)).
  - constructor; [exact IH|].
    rewrite insertStable_Permutation. constructor; [unfold flagsLe; lia | exact Hall].
  - constructor; [constructor; assumption|].
    constructor; [exact H|].
    eapply Forall_impl; [exact Hall|]. unfold flagsLe. intros z Hz. simpl in *. lia.
Qed.

Lemma classifyAndSort_flags_sorted (p : Profile) :
  StronglySorted flagsLe (classifyAndSortProfilePayloads p false).
Proof.
  unfold classifyAndSortProfilePayloads, sortSliceStable.
  induction (map classify (profile_PayloadContent p)) as [|x l IH]; simpl.
  - constructor.
  - apply insertStable_flags_sorted. exact IH.
Qed.

Lemma StronglySorted_lookup_lt {A : Type} (R : A -> A -> Prop) (l : list A) :
  StronglySorted R l ->
  forall i j a b, l !! i = Some a -> l !! j = Some b -> (i < j)%nat -> R a b.
Proof.
  induction 1 as [|x l Hs IH Hall]; intros i j a b Hi Hj Hlt.
  - rewrite lookup_nil in Hi. discriminate.
  - destruct j as [|j]; [lia|]. simpl in Hj. destruct i as [|i].
    + simpl in Hi. injection Hi as <-.
      rewrite Forall_forall in Hall. apply Hall.
      eapply list_elem_of_lookup_2. exact Hj.
    + simpl in Hi. apply (IH i j); [assumption | assumption | lia].
Qed.

Lemma classifyAndSort_classified (p : Profile) (i : nat) (pr : payloadAndResult) :
  forall asc, classifyAndSortProfilePayloads p asc !! i = Some pr ->
  pr = classify (par_Payload pr).
Proof.
  intros asc H. apply list_elem_of_lookup_2 in H.
  unfold classifyAndSortProfilePayloads in H.
  rewrite sortSliceStable_Permutation in H.
  apply list_elem_of_fmap in H as (e & -> & _). destruct e; reflexivity.
Qed.

Lemma classifyAndSort_SCEP_before_MDM (p : Profile) (i j : nat)
  (pri prj : payloadAndResult) (scep : SCEPPayload) (mdm : MDMPayload) :
  classifyAndSortProfilePayloads p false !! i = Some pri ->
  classifyAndSortProfilePayloads p false !! j = Some prj ->
  par_Payload pri = IsSCEPPayload scep ->
  par_Payload prj = IsMDMPayload mdm ->
  (i < j)%nat.
Proof.
  intros Hi Hj Hs Hm.
  pose proof (classifyAndSort_classified p i pri false Hi) as Hci.
  pose proof (classifyAndSort_classified p j prj false Hj) as Hcj.
  rewrite Hs in Hci. rewrite Hm in Hcj.
  destruct (Nat.lt_trichotomy i j) as [Hlt | [-> | Hgt]]; [exact Hlt | |].
  - rewrite Hi in Hj. injection Hj as <-. rewrite Hs in Hm. discriminate.
  - pose proof (StronglySorted_lookup_lt _ _ (classifyAndSort_flags_sorted p)
                  j i prj pri Hj Hi Hgt) as Hle.
    unfold flagsLe in Hle. rewrite Hci, Hcj in Hle. vm_compute in Hle.
    exfalso. apply Hle. reflexivity.
Qed.

Lemma insertStable_withFlags (f : Z) (x : payloadAndResult) (l : list payloadAndResult) :
  withFlags f (insertStable (lessFlags false) x l) = withFlags f (x :: l).
Proof.
  unfold withFlags. induction l as [|y l IH]; [reflexivity|].
  cbn [insertStable]. unfold lessFlags at 1.
  destruct (Z.ltb_spec (PayloadRequiresFlags y) (PayloadRequiresFlags x)) as [Hlt|Hge];
    [|reflexivity].
  rewrite filter_cons, IH, !filter_cons.
  repeat case_decide; try reflexivity; lia.
Qed.

(** The sort is stable: the records of one capability weight keep their
    order in the document. *)
Lemma classifyAndSort_stable (p : Profile) (f : Z) :
  withFlags f (classifyAndSortProfilePayloads p false)
  = withFlags f (map classify (profile_PayloadContent p)).
Proof.
  unfold classifyAndSortProfilePayloads, sortSliceStable.
  induction (map classify (profile_PayloadContent p)) as [|x l IH]; [reflexivity|].
  cbn [fold_right]. rewrite insertStable_withFlags.
  unfold withFlags in *. rewrite !filter_cons, IH. reflexivity.
Qed.

(** ** The install loop, payload by payload *)

Lemma resultsUpTo_start (w : World) (p : Profile) (plds0 : list payloadAndResult)
  (s : State) : resultsUpTo w p plds0 s 0 plds0.
Proof.
  split; [reflexivity|]. intros k a Hk. exists a. repeat split; [exact Hk|].
  destruct (par_Payload a); reflexivity.
Qed.

Lemma resultsUpTo_keep (w : World) (p : Profile) (plds0 plds : list payloadAndResult)
  (s : State) (m : nat) (b b' : payloadAndResult) :
  resultsUpTo w p plds0 s m plds ->
  plds !! m = Some b ->
  CommonPayload b' = CommonPayload b ->
  par_Payload b' = par_Payload b ->
  StringResult b' = StringResult b ->
  (forall scep, par_Payload b <> IsSCEPPayload scep) ->
  resultsUpTo w p plds0 s (S m) (<[m := b']> plds).
Proof.
  intros [Hlen Hall] Hm Hc Hp Hr Hnot. split; [rewrite length_insert; exact Hlen|].
  intros k a Hk. destruct (Hall k a Hk) as (b0 & Hb0 & Hc0 & Hp0 & Hres).
  destruct (decide (k = m)) as [->|Hne].
  - rewrite Hm in Hb0. injection Hb0 as <-.
    exists b'. split.
    { apply list_lookup_insert_eq. apply lookup_lt_Some in Hm. exact Hm. }
    split; [congruence|]. split; [congruence|].
    destruct (par_Payload a) as [scep| |] eqn:Ha.
    + exfalso. apply (Hnot scep). congruence.
    + rewrite Hr. exact Hres.
    + rewrite Hr. exact Hres.
  - exists b0. split; [rewrite list_lookup_insert_ne by congruence; exact Hb0|].
    split; [exact Hc0|]. split; [exact Hp0|].
    destruct (par_Payload a); try exact Hres.
    destruct (Nat.ltb_spec k m) as [Hlt|Hge].
    + destruct (Nat.ltb_spec k (S m)); [exact Hres | lia].
    + destruct (Nat.ltb_spec k (S m)); [lia | exact Hres].
Qed.

Lemma resultsUpTo_same (w : World) (p : Profile) (plds0 plds : list payloadAndResult)
  (s : State) (m : nat) (b : payloadAndResult) :
  resultsUpTo w p plds0 s m plds ->
  plds !! m = Some b ->
  (forall scep, par_Payload b <> IsSCEPPayload scep) ->
  resultsUpTo w p plds0 s (S m) plds.
Proof.
  intros Hinv Hm Hnot.
  rewrite <- (list_insert_id plds m b Hm).
  apply (resultsUpTo_keep w p plds0 plds s m b b); auto.
Qed.

(** The loop over the first [m] payloads either ends the pass, with an
    error or a panic, or completes, and the pass goes on from payload
    [m]. *)
Lemma installPayloads_prefix (w : World) (p : Profile) (plds0 : list payloadAndResult)
  (s : State) (m : nat) :
  (m <= length plds0)%nat ->
  (exists o s', o <> Val None
                /\ forall n, installPayloads w p (m + n) 0 plds0 s = (o, s'))
  \/ (exists sm plds,
        (forall n, installPayloads w p (m + n) 0 plds0 s
                   = installPayloads w p n m plds sm)
        /\ resultsUpTo w p plds0 s m plds).
Proof.
  induction m as [|m IH]; intros Hm.
  { right. exists s, plds0. split; [reflexivity | apply resultsUpTo_start]. }
  destruct IH as [(o & s' & Ho & Hrun) | (sm & plds & Hrun & Hinv)]; [lia| |].
  { left. exists o, s'. split; [exact Ho|]. intros n.
    replace (S m + n)%nat with (m + S n)%nat by lia. apply Hrun. }
  assert (Hdone : installPayloads w p m 0 plds0 s = (Val None, sm)).
  { specialize (Hrun 0%nat). rewrite Nat.add_0_r in Hrun. exact Hrun. }
  destruct (lookup_lt_is_Some_2 plds0 m) as [a Ha]; [lia|].
  destruct (proj2 Hinv m a Ha) as (b & Hb & Hc & Hp & Hres).
  assert (Hstep : forall n, installPayloads w p (S m + n) 0 plds0 s
                            = installPayloads w p (S n) m plds sm).
  { intros n. replace (S m + n)%nat with (m + S n)%nat by lia. apply Hrun. }
  case_eq (par_Payload b); [intros scep Hpb | intros mdm Hpb | intros common Hpb].
  - (* a SCEP payload *)
    destruct (installSCEPPayload w (profile_PayloadIdentifier p) scep sm)
      as [[[res [e|]]|msg] sb] eqn:Hscep.
    + left. exists (Val (Some e)), sb. split; [discriminate|]. intros n.
      rewrite Hstep. cbn [installPayloads]. rewrite Hb, Hpb.
      rewrite (bind_val _ _ _ _ _ Hscep). reflexivity.
    + destruct (String.eqb_spec res "") as [Hempty|Hres'].
      * left. eexists _, sb. split; [|intros n; rewrite Hstep; cbn [installPayloads];
          rewrite Hb, Hpb, (bind_val _ _ _ _ _ Hscep);
          apply String.eqb_eq in Hempty; rewrite Hempty; reflexivity].
        discriminate.
      * right. exists sb, (<[m := set_StringResult b res]> plds). split.
        { intros n. rewrite Hstep. cbn [installPayloads].
          rewrite Hb, Hpb, (bind_val _ _ _ _ _ Hscep).
          apply String.eqb_neq in Hres'. rewrite Hres'. reflexivity. }
        destruct Hinv as [Hlen Hall]. split; [rewrite length_insert; exact Hlen|].
        intros k a' Hk. destruct (Hall k a' Hk) as (b0 & Hb0 & Hc0 & Hp0 & Hres0).
        destruct (decide (k = m)) as [->|Hne].
        -- rewrite Hb in Hb0. injection Hb0 as <-.
           rewrite Ha in Hk. injection Hk as <-.
           exists (set_StringResult b res). split.
           { apply list_lookup_insert_eq. apply lookup_lt_Some in Hb. exact Hb. }
           split; [exact Hc|]. split; [exact Hp|].
           rewrite <- Hp, Hpb.
           destruct (Nat.ltb_spec m (S m)); [|lia].
           split; [exact Hres'|]. exists sm, sb. split; [exact Hdone | exact Hscep].
        -- exists b0. split; [rewrite list_lookup_insert_ne by congruence; exact Hb0|].
           split; [exact Hc0|]. split; [exact Hp0|].
           destruct (par_Payload a'); try exact Hres0.
           destruct (Nat.ltb_spec k m) as [Hlt|Hge].
           ++ destruct (Nat.ltb_spec k (S m)); [exact Hres0 | lia].
           ++ destruct (Nat.ltb_spec k (S m)); [lia | exact Hres0].
    + left. exists (Panicked msg), sb. split; [discriminate|]. intros n.
      rewrite Hstep. cbn [installPayloads]. rewrite Hb, Hpb.
      rewrite (bind_panicked _ _ _ _ _ Hscep). reflexivity.
  - (* an MDM payload *)
    set (ref := findpayloadAndResultByUUID plds (IdentityCertificateUUID mdm)).
    set (plds' := <[m := set_payloadAndResultRef b ref]> plds).
    assert (Hunf : forall n,
              installPayloads w p (S n) m plds sm
              = match ref ≫= (fun j => plds' !! j) with
                | None =>
                    (Val (Some (errors_New ("could not find payload UUID "
                                            +:+ IdentityCertificateUUID mdm))), sm)
                | Some target =>
                    if String.eqb (StringResult target) ""
                    then (Val (Some (errors_New
                            "referenced identity payload has no result keychain ID")), sm)
                    else
                      match installMDMPayload w mdm (profile_PayloadIdentifier p)
                              (afterIdentityResolved (StringResult target) sm) with
                      | (Val None, sk) => installPayloads w p n (S m) plds' sk
                      | (Val (Some e), sk) => (Val (Some e), sk)
                      | (Panicked msg, sk) => (Panicked msg, sk)
                      end
                end).
    { intros n. cbn [installPayloads]. rewrite Hb, Hpb. fold ref. fold plds'.
      destruct (ref ≫= (fun j => plds' !! j)) as [target|]; [|reflexivity].
      destruct (String.eqb (StringResult target) ""); [reflexivity|].
      unfold afterIdentityResolved, Device_Save.
      unfold modify at 1, bind at 1. unfold bind at 1, bind at 1, emit at 1, modify at 1.
      cbn [device trace set_device set_trace].
      unfold bind.
      destruct (installMDMPayload w mdm (profile_PayloadIdentifier p) _)
        as [[[e|]|msg] sk]; reflexivity. }
    destruct (ref ≫= (fun j => plds' !! j)) as [target|] eqn:Htarget.
    2:{ left. eexists _, sm. split; [|intros n; rewrite Hstep, Hunf; reflexivity].
        discriminate. }
    destruct (String.eqb (StringResult target) "") eqn:Hempty.
    { left. eexists _, sm. split; [|intros n; rewrite Hstep, Hunf; reflexivity].
      discriminate. }
    destruct (installMDMPayload w mdm (profile_PayloadIdentifier p)
                (afterIdentityResolved (StringResult target) sm))
      as [[[e|]|msg] sk] eqn:Hmdm.
    + left. exists (Val (Some e)), sk. split; [discriminate|].
      intros n. rewrite Hstep, Hunf. reflexivity.
    + right. exists sk, plds'. split; [intros n; rewrite Hstep, Hunf; reflexivity|].
      apply (resultsUpTo_keep w p plds0 plds s m b); auto.
      intros scep. rewrite Hpb. discriminate.
    + left. exists (Panicked msg), sk. split; [discriminate|].
      intros n. rewrite Hstep, Hunf. reflexivity.
  - (* a payload of another type *)
    destruct (CommonPayload b) as [c|] eqn:Hcb.
    + right. exists sm, plds. split.
      { intros n. rewrite Hstep. cbn [installPayloads]. rewrite Hb, Hpb, Hcb.
        reflexivity. }
      apply (resultsUpTo_same w p plds0 plds s m b); auto.
      intros scep. rewrite Hpb. discriminate.
    + left. exists (Panicked "nil pointer dereference"), sm. split; [discriminate|].
      intros n. rewrite Hstep. cbn [installPayloads]. rewrite Hb, Hpb, Hcb.
      reflexivity.
Qed.

Lemma findFrom_spec (plds : list payloadAndResult) (uuid : string) :
  forall i,
  match findFrom i plds uuid with
  | Some j =>
      (i <= j)%nat
      /\ (exists v, plds !! (j - i)%nat = Some v /\ hasUUID uuid v)
      /\ (forall k v, (k < j - i)%nat -> plds !! k = Some v -> ~ hasUUID uuid v)
  | None => forall k v, plds !! k = Some v -> ~ hasUUID uuid v
  end.
Proof.
  induction plds as [|x plds IH]; intros i; cbn [findFrom].
  - intros k v Hk. rewrite lookup_nil in Hk. discriminate.
  - assert (Hskip : ~ hasUUID uuid x ->
              match findFrom (S i) plds uuid with
              | Some j =>
                  (i <= j)%nat
                  /\ (exists v, (x :: plds) !! (j - i)%nat = Some v /\ hasUUID uuid v)
                  /\ (forall k v, (k < j - i)%nat -> (x :: plds) !! k = Some v ->
                                  ~ hasUUID uuid v)
              | None => forall k v, (x :: plds) !! k = Some v -> ~ hasUUID uuid v
              end).
    { intros Hx. specialize (IH (S i)).
      destruct (findFrom (S i) plds uuid) as [j|].
      - destruct IH as (Hle & (v & Hv & Hu) & Hbefore).
        split; [lia|]. split.
        + exists v. split; [|exact Hu].
          replace (j - i)%nat with (S (j - S i)) by lia. exact Hv.
        + intros k v' Hk Hlook. destruct k as [|k].
          * injection Hlook as <-. exact Hx.
          * apply (Hbefore k v'); [lia | exact Hlook].
      - intros k v Hlook. destruct k as [|k].
        + injection Hlook as <-. exact Hx.
        + apply (IH k v). exact Hlook. }
    destruct (CommonPayload x) as [c|] eqn:Hc.
    + destruct (String.eqb_spec (PayloadUUID c) uuid) as [Heq|Hne].
      * split; [lia|]. split.
        -- exists x. rewrite Nat.sub_diag. split; [reflexivity|]. exists c. auto.
        -- intros k v Hk. lia.
      * apply Hskip. intros (c' & Hc' & Hu). congruence.
    + apply Hskip. intros (c' & Hc' & _). congruence.
Qed.

(** One pass of the loop over an MDM record. *)
Lemma installPayloads_MDM_step (w : World) (p : Profile) (n j : nat)
  (plds : list payloadAndResult) (s : State) (b : payloadAndResult) (mdm : MDMPayload) :
  plds !! j = Some b ->
  par_Payload b = IsMDMPayload mdm ->
  let ref := findpayloadAndResultByUUID plds (IdentityCertificateUUID mdm) in
  let plds' := <[j := set_payloadAndResultRef b ref]> plds in
  installPayloads w p (S n) j plds s
  = match ref ≫= (fun t => plds' !! t) with
    | None =>
        (Val (Some (errors_New ("could not find payload UUID "
                                +:+ IdentityCertificateUUID mdm))), s)
    | Some target =>
        if String.eqb (StringResult target) ""
        then (Val (Some (errors_New
                "referenced identity payload has no result keychain ID")), s)
        else
          match installMDMPayload w mdm (profile_PayloadIdentifier p)
                  (afterIdentityResolved (StringResult target) s) with
          | (Val None, sk) => installPayloads w p n (S j) plds' sk
          | (Val (Some e), sk) => (Val (Some e), sk)
          | (Panicked msg, sk) => (Panicked msg, sk)
          end
    end.
Proof.
  intros Hb Hpb ref plds'. cbn [installPayloads]. rewrite Hb, Hpb. fold ref. fold plds'.
  destruct (ref ≫= (fun t => plds' !! t)) as [target|]; [|reflexivity].
  destruct (String.eqb (StringResult target) ""); [reflexivity|].
  unfold afterIdentityResolved, Device_Save.
  unfold modify at 1, bind at 1. unfold bind at 1, bind at 1, emit at 1, modify at 1.
  cbn [device trace set_device set_trace].
  unfold bind.
  destruct (installMDMPayload w mdm (profile_PayloadIdentifier p) _)
    as [[[e|]|msg] sk]; reflexivity.
Qed.

(** The search looks at the common fields only. *)
Lemma findFrom_same_common (uuid : string) (plds plds' : list payloadAndResult) :
  Forall2 (fun a b => CommonPayload b = CommonPayload a) plds plds' ->
  forall i, findFrom i plds' uuid = findFrom i plds uuid.
Proof.
  induction 1 as [|a b plds plds' Hab _ IH]; intros i; [reflexivity|].
  cbn [findFrom]. rewrite Hab.
  destruct (CommonPayload a) as [c|]; [|apply IH].
  destruct (String.eqb (PayloadUUID c) uuid); [reflexivity | apply IH].
Qed.

Lemma resultsUpTo_find (w : World) (p : Profile) (plds0 plds : list payloadAndResult)
  (s : State) (m : nat) (uuid : string) :
  resultsUpTo w p plds0 s m plds ->
  findpayloadAndResultByUUID plds uuid = findpayloadAndResultByUUID plds0 uuid.
Proof.
  intros [Hlen Hall]. apply findFrom_same_common.
  apply Forall2_same_length_lookup. split; [congruence|].
  intros k a b Ha Hb. destruct (Hall k a Ha) as (b' & Hb' & Hc & _). congruence.
Qed.

(** The first record with the UUID is what the search returns. *)
Lemma findpayloadAndResultByUUID_is_first (plds : list payloadAndResult)
  (uuid : string) (i : nat) (v : payloadAndResult) :
  plds !! i = Some v -> hasUUID uuid v ->
  (forall k v', (k < i)%nat -> plds !! k = Some v' -> ~ hasUUID uuid v') ->
  findpayloadAndResultByUUID plds uuid = Some i.
Proof.
  intros Hi Hv Hfirst. unfold findpayloadAndResultByUUID.
  pose proof (findFrom_spec plds uuid 0%nat) as H.
  destruct (findFrom 0 plds uuid) as [t|].
  - destruct H as (_ & (v' & Ht & Hu) & Hbefore). rewrite Nat.sub_0_r in *.
    destruct (Nat.lt_trichotomy t i) as [Hlt | [-> | Hgt]]; [|reflexivity|].
    + exfalso. exact (Hfirst t v' Hlt Ht Hu).
    + exfalso. exact (Hbefore i v Hgt Hi Hv).
  - exfalso. exact (H i v Hi Hv).
Qed.

Lemma findpayloadAndResultByUUID_absent (plds : list payloadAndResult) (uuid : string) :
  (forall k v, plds !! k = Some v -> ~ hasUUID uuid v) ->
  findpayloadAndResultByUUID plds uuid = None.
Proof.
  intros Hnone. unfold findpayloadAndResultByUUID.
  pose proof (findFrom_spec plds uuid 0%nat) as H.
  destruct (findFrom 0 plds uuid) as [t|]; [|reflexivity].
  destruct H as (_ & (v' & Ht & Hu) & _). exfalso. exact (Hnone _ _ Ht Hu).
Qed.

Lemma classify_StringResult (pr : payloadAndResult) :
  pr = classify (par_Payload pr) -> StringResult pr = "".
Proof. intros ->. destruct (par_Payload pr); reflexivity. Qed.

Lemma classify_hasUUID (pr : payloadAndResult) (scep : SCEPPayload) (uuid : string) :
  pr = classify (par_Payload pr) ->
  par_Payload pr = IsSCEPPayload scep ->
  PayloadUUID (scep_Payload scep) = uuid ->
  hasUUID uuid pr.
Proof.
  intros Hc Hp Hu. rewrite Hc, Hp. exists (scep_Payload scep). split; [reflexivity | exact Hu].
Qed.

(** C3, for every profile. Whatever else a profile contains, the install
    order is a stable sort of its payloads by capability weight, so every
    SCEP payload comes before every MDM payload, whichever comes first in
    the document. A pass of the install loop either ends, with an error or
    a panic, before it reaches the MDM payload, or completes the payloads
    before it, the SCEP payloads among them, and then: when the first
    record in install order that carries the UUID named by the MDM payload
    is a SCEP payload, that payload was installed earlier in the pass with
    a result that is not empty, and the MDM step puts this result in
    [MDMIdentityKeychainUUID], saves the device and runs
    [installMDMPayload]; when no record carries the UUID the step fails
    with "could not find payload UUID"; when the first record that carries
    it is not a SCEP payload the step fails with "referenced identity
    payload has no result keychain ID". *)
Theorem installProfile_installs_SCEP_before_MDM (w : World) (p : Profile) (j : nat)
  (prj : payloadAndResult) (mdm : MDMPayload) :
  let ordered := classifyAndSortProfilePayloads p false in
  let uuid := IdentityCertificateUUID mdm in
  let id := profile_PayloadIdentifier p in
  ordered !! j = Some prj ->
  par_Payload prj = IsMDMPayload mdm ->
  ordered ≡ₚ map classify (profile_PayloadContent p)
  /\ (forall f, withFlags f ordered
                = withFlags f (map classify (profile_PayloadContent p)))
  /\ (forall i pri scep,
        ordered !! i = Some pri -> par_Payload pri = IsSCEPPayload scep -> (i < j)%nat)
  /\ (forall s o s',
        installPayloads w p (length ordered) 0 ordered s = (o, s') ->
        (o <> Val None /\ installPayloads w p j 0 ordered s = (o, s'))
        \/ (exists sj,
              installPayloads w p j 0 ordered s = (Val None, sj)
              /\ (forall i pri scep,
                    ordered !! i = Some pri ->
                    par_Payload pri = IsSCEPPayload scep ->
                    PayloadUUID (scep_Payload scep) = uuid ->
                    (forall k v, (k < i)%nat -> ordered !! k = Some v ->
                                 ~ hasUUID uuid v) ->
                    exists sa r sb plds',
                      installPayloads w p i 0 ordered s = (Val None, sa)
                      /\ installSCEPPayload w id scep sa = (Val (r, None), sb)
                      /\ r <> ""
                      /\ (o, s')
                         = match installMDMPayload w mdm id
                                   (afterIdentityResolved r sj) with
                           | (Val None, sk) =>
                               installPayloads w p (length ordered - S j) (S j) plds' sk
                           | (Val (Some e), sk) => (Val (Some e), sk)
                           | (Panicked msg, sk) => (Panicked msg, sk)
                           end)
              /\ ((forall k v, ordered !! k = Some v -> ~ hasUUID uuid v) ->
                  (o, s')
                  = (Val (Some (errors_New ("could not find payload UUID " +:+ uuid))),
                     sj))
              /\ (forall t prt,
                    ordered !! t = Some prt ->
                    hasUUID uuid prt ->
                    (forall k v, (k < t)%nat -> ordered !! k = Some v ->
                                 ~ hasUUID uuid v) ->
                    (forall scep, par_Payload prt <> IsSCEPPayload scep) ->
                    (o, s')
                    = (Val (Some (errors_New
                         "referenced identity payload has no result keychain ID")),
                       sj)))).
Proof.
  intros ordered uuid id Hj Hmdm.
  split; [apply sortSliceStable_Permutation|].
  split; [intros f; apply classifyAndSort_stable|].
  assert (Hbefore : forall i pri scep,
            ordered !! i = Some pri -> par_Payload pri = IsSCEPPayload scep ->
            (i < j)%nat).
  { intros i pri scep Hi Hs.
    exact (classifyAndSort_SCEP_before_MDM p i j pri prj scep mdm Hi Hj Hs Hmdm). }
  split; [exact Hbefore|].
  intros s o s' Hrun.
  assert (Hlt : (j < length ordered)%nat) by (apply lookup_lt_Some in Hj; exact Hj).
  destruct (installPayloads_prefix w p ordered s j) as
    [(o0 & s0 & Ho0 & Hfail) | (sj & plds & Hgo & Hinv)]; [lia| |].
  { left. pose proof (Hfail (length ordered - j)%nat) as Hall.
    replace (j + (length ordered - j))%nat with (length ordered) in Hall by lia.
    rewrite Hrun in Hall. injection Hall as -> ->.
    split; [exact Ho0|]. specialize (Hfail 0%nat). rewrite Nat.add_0_r in Hfail.
    exact Hfail. }
  right. exists sj. split.
  { specialize (Hgo 0%nat). rewrite Nat.add_0_r in Hgo. exact Hgo. }
  destruct (proj2 Hinv j prj Hj) as (b & Hb & _ & Hpb & Hresb).
  rewrite Hmdm in Hpb, Hresb.
  pose proof (Hgo (S (length ordered - S j))) as Hstep.
  replace (j + S (length ordered - S j))%nat with (length ordered) in Hstep by lia.
  rewrite Hrun in Hstep.
  rewrite (installPayloads_MDM_step w p _ j plds sj b mdm Hb Hpb) in Hstep.
  rewrite (resultsUpTo_find w p ordered plds s j _ Hinv) in Hstep.
  fold uuid in Hstep.
  split; [|split].
  - intros i pri scep Hi Hs Hu Hfirst.
    pose proof (classifyAndSort_classified p i pri false Hi) as Hci.
    pose proof (Hbefore i pri scep Hi Hs) as Hij.
    rewrite (findpayloadAndResultByUUID_is_first ordered uuid i pri Hi
               (classify_hasUUID pri scep uuid Hci Hs Hu) Hfirst) in Hstep.
    cbn [mbind option_bind] in Hstep.
    rewrite list_lookup_insert_ne in Hstep by lia.
    destruct (proj2 Hinv i pri Hi) as (bi & Hbi & _ & _ & Hresi).
    rewrite Hs in Hresi. destruct (Nat.ltb_spec i j) as [_|]; [|lia].
    destruct Hresi as (Hne & sa & sb & Hsa & Hscep).
    rewrite Hbi in Hstep. apply String.eqb_neq in Hne as Hne'. rewrite Hne' in Hstep.
    exists sa, (StringResult bi), sb. eexists.
    split; [exact Hsa|]. split; [exact Hscep|]. split; [exact Hne|]. exact Hstep.
  - intros Hnone.
    rewrite (findpayloadAndResultByUUID_absent ordered uuid Hnone) in Hstep.
    exact Hstep.
  - intros t prt Ht Hu Hfirst Hnot.
    rewrite (findpayloadAndResultByUUID_is_first ordered uuid t prt Ht Hu Hfirst)
      in Hstep.
    cbn [mbind option_bind] in Hstep.
    pose proof (classifyAndSort_classified p t prt false Ht) as Hct.
    apply classify_StringResult in Hct.
    destruct (decide (t = j)) as [->|Hne].
    + rewrite list_lookup_insert_eq in Hstep by (apply lookup_lt_Some in Hb; exact Hb).
      cbn [StringResult set_payloadAndResultRef] in Hstep.
      rewrite Hj in Ht. injection Ht as <-.
      rewrite Hresb, Hct in Hstep. exact Hstep.
    + rewrite list_lookup_insert_ne in Hstep by congruence.
      destruct (proj2 Hinv t prt Ht) as (bt & Hbt & _ & _ & Hrest).
      rewrite Hbt in Hstep.
      assert (Hsame : StringResult bt = StringResult prt).
      { destruct (par_Payload prt) as [scep| |] eqn:Hpt; try exact Hrest.
        exfalso. exact (Hnot scep eq_refl). }
      rewrite Hsame, Hct in Hstep. exact Hstep.
Qed.

Lemma installPayloads_sample_run :
  installPayloads (Sample.okWorld Sample.enrollProfile) Sample.enrollProfile 2 0
    (classifyAndSortProfilePayloads Sample.enrollProfile false) Sample.stIssued
  = (Val None, Sample.stEnrolled).
Proof. vm_compute. reflexivity. Qed.

Lemma installProfile_installs_SCEP_before_MDM_witness :
  let w := Sample.okWorld Sample.enrollProfile in
  let ordered := classifyAndSortProfilePayloads Sample.enrollProfile false in
  (0 < 1)%nat
  /\ exists sj sa r sb plds',
       installPayloads w Sample.enrollProfile 1 0 ordered Sample.stIssued = (Val None, sj)
       /\ installPayloads w Sample.enrollProfile 0 0 ordered Sample.stIssued
          = (Val None, sa)
       /\ installSCEPPayload w "prof.id" Sample.scep1 sa = (Val (r, None), sb)
       /\ r <> ""
       /\ (Val None, Sample.stEnrolled)
          = match installMDMPayload w Sample.mdm1 "prof.id"
                    (afterIdentityResolved r sj) with
            | (Val None, sk) =>
                installPayloads w Sample.enrollProfile (length ordered - 2) 2 plds' sk
            | (Val (Some e), sk) => (Val (Some e), sk)
            | (Panicked msg, sk) => (Panicked msg, sk)
            end.
Proof.
  intros w ordered.
  destruct (installProfile_installs_SCEP_before_MDM w Sample.enrollProfile 1
              (classify (IsMDMPayload Sample.mdm1)) Sample.mdm1 eq_refl eq_refl)
    as (_ & _ & Horder & Hrun).
  split.
  - exact (Horder 0%nat (classify (IsSCEPPayload Sample.scep1)) Sample.scep1
             eq_refl eq_refl).
  - destruct (Hrun Sample.stIssued (Val None) Sample.stEnrolled
                installPayloads_sample_run)
      as [[Hne _] | (sj & Hsj & Hresolved & _)].
    + exfalso. apply Hne. reflexivity.
    + destruct (Hresolved 0%nat (classify (IsSCEPPayload Sample.scep1)) Sample.scep1
                  eq_refl eq_refl eq_refl)
        as (sa & r & sb & plds' & Hsa & Hscep & Hr & Hmdm).
      { intros k v Hk. lia. }
      exists sj, sa, r, sb, plds'. auto.
Defined.

(** C3 as stated fails for a profile in which another payload has the
    UUID of the SCEP payload: the SCEP payload is installed first and
    returns the identity ID-1, but the MDM step finds the other payload,
    which comes first in the install order and has no result, and the
    pass ends with an error. *)
Lemma installProfile_duplicate_UUID_hides_SCEP_result :
  let w := Sample.okWorld Cases.dupProfile in
  let ordered := classifyAndSortProfilePayloads Cases.dupProfile false in
  ordered = [classify (IsOtherPayload (Some Cases.ca));
             classify (IsSCEPPayload Sample.scep1);
             classify (IsMDMPayload Sample.mdm1)]
  /\ IdentityCertificateUUID Sample.mdm1 = PayloadUUID (scep_Payload Sample.scep1)
  /\ fst (installSCEPPayload w "prof.id" Sample.scep1 Sample.stIssued)
     = Val ("ID-1", None)
  /\ fst (installPayloads w Cases.dupProfile 3 0 ordered Sample.stIssued)
     = Val (Some (errors_New "referenced identity payload has no result keychain ID"))
  /\ fst (installProfile w Sample.doc false Sample.stIssued)
     = Val (Some (errors_New "referenced identity payload has no result keychain ID")).
Proof. vm_compute. repeat split. Qed.

(** ** What a pass leaves behind *)

Create HintDb pres.

Section Preservation.
Variable R : State -> State -> Prop.
Variable w : World.
Hypothesis R_refl : forall s, R s s.
Hypothesis R_trans : forall s1 s2 s3, R s1 s2 -> R s2 s3 -> R s1 s3.
Hypothesis R_trace : forall s t, R s (set_trace t s).
Hypothesis R_device : forall s d, R s (set_device d s).
Hypothesis R_mdmClient : forall s c, R s (set_mdmClient c s).
Hypothesis R_saved : forall s d, R s (set_saved d s).
Hypothesis R_keychain_insert :
  forall s k v, R s (set_keychain (<[k := v]> (keychain s)) s).
Hypothesis R_refs_insert :
  forall s k v, R s (set_payload_refs (<[k := v]> (payload_refs s)) s).

Lemma preserves_ret {A : Type} (a : A) : preserves R (ret a).
Proof. intros s o s' [= <- <-]. apply R_refl. Qed.

Lemma preserves_panic {A : Type} (msg : string) : preserves R (@panic A msg).
Proof. intros s o s' [= <- <-]. apply R_refl. Qed.

Lemma preserves_gets {A : Type} (f : State -> A) : preserves R (gets f).
Proof. intros s o s' [= <- <-]. apply R_refl. Qed.

Lemma preserves_modify (f : State -> State) :
  (forall s, R s (f s)) -> preserves R (modify f).
Proof. intros Hf s o s' [= <- <-]. apply Hf. Qed.

Lemma preserves_bind {A B : Type} (m : M A) (k : A -> M B) :
  preserves R m -> (forall a, preserves R (k a)) -> preserves R (bind m k).
Proof.
  intros Hm Hk s o s' H.
  apply bind_inv in H as [(a & s1 & H1 & H2) | (msg & H1 & _)].
  - eapply R_trans; [eapply Hm | eapply Hk]; eassumption.
  - eapply Hm; eassumption.
Qed.

Lemma preserves_emit (e : Event) : preserves R (emit e).
Proof. intros s o s' [= <- <-]. apply R_trace. Qed.

Ltac pres_step :=
  match goal with
  | |- preserves _ (bind _ _) => apply preserves_bind; [|intros ?]
  | |- preserves _ (match ?x with _ => _ end) => destruct x
  | |- preserves _ _ => solve [eauto with pres]
  end.
Ltac pres := repeat pres_step.

#[local] Hint Resolve preserves_ret preserves_panic preserves_gets preserves_emit : pres.
#[local] Hint Extern 1 (preserves _ (modify _)) =>
  apply preserves_modify; intros; eauto : pres.

Lemma preserves_transaction (e : Event) : preserves R (transaction w e).
Proof. unfold transaction. pres. Qed.
#[local] Hint Resolve preserves_transaction : pres.

Lemma preserves_Device_Save : preserves R Device_Save.
Proof. unfold Device_Save. pres. Qed.
#[local] Hint Resolve preserves_Device_Save : pres.

Lemma preserves_Load (id : string) : preserves R (Load w id).
Proof. unfold Load. pres. Qed.
#[local] Hint Resolve preserves_Load : pres.

Lemma preserves_LoadKeychainItem (uuid : string) : preserves R (LoadKeychainItem w uuid).
Proof. unfold LoadKeychainItem. pres. Qed.
#[local] Hint Resolve preserves_LoadKeychainItem : pres.

Lemma preserves_installSCEPPayload (profileID : string) (pl : SCEPPayload) :
  preserves R (installSCEPPayload w profileID pl).
Proof.
  unfold installSCEPPayload, keyFromSCEPProfilePayload, csrFromSCEPProfilePayload,
    loadPayloadRefString, scepNewPKCSReq, NewKeychainItem, KeychainItem_Save,
    savePayloadRefString, BucketPutOrDeleteString.
  pres.
Qed.

Lemma preserves_loadIdentityFromKeychain (c : MDMClient) (uuid : string) :
  preserves R (loadIdentityFromKeychain w c uuid).
Proof. unfold loadIdentityFromKeychain. pres. Qed.
#[local] Hint Resolve preserves_loadIdentityFromKeychain : pres.

Lemma preserves_enroll2 (c : MDMClient) (profileID : string) :
  preserves R (enroll2 w c profileID).
Proof. unfold enroll2, authenticate, tokenUpdate. pres. Qed.

Lemma preserves_installMDMPayload (mdm : MDMPayload) (profileID : string) :
  preserves R (installMDMPayload w mdm profileID).
Proof.
  unfold installMDMPayload, newMDMClientUsingPayload, NewMDMClient2, enroll.
  pose proof preserves_enroll2. pres.
Qed.

Lemma preserves_installPayloads (p : Profile) (n : nat) :
  forall i plds, preserves R (installPayloads w p n i plds).
Proof.
  pose proof preserves_installSCEPPayload. pose proof preserves_installMDMPayload.
  induction n as [|n IH]; intros i plds; cbn [installPayloads]; pres.
Qed.

Lemma preserves_ValidateProfileInstall (p : Profile) (fromMDM : bool) :
  preserves R (ValidateProfileInstall w p fromMDM).
Proof. unfold ValidateProfileInstall. pres. Qed.

Lemma preserves_ListUUIDs : preserves R (ListUUIDs w).
Proof. unfold ListUUIDs. pres. Qed.

Hypothesis R_keychain_delete :
  forall s k, R s (set_keychain (delete k (keychain s)) s).
Hypothesis R_refs_delete :
  forall s k, R s (set_payload_refs (delete k (payload_refs s)) s).
Hypothesis R_profiles_delete :
  forall s k, R s (set_profiles (delete k (profiles s)) s).

Lemma preserves_KeychainItem_Delete (kci : KeychainItem) :
  preserves R (KeychainItem_Delete w kci).
Proof. unfold KeychainItem_Delete. pres. Qed.
#[local] Hint Resolve preserves_KeychainItem_Delete : pres.

Lemma preserves_removeSCEPPayload (profileID : string) (pl : SCEPPayload) :
  preserves R (removeSCEPPayload w profileID pl).
Proof.
  unfold removeSCEPPayload, loadPayloadRefString, removePayloadRefString,
    BucketPutOrDeleteString.
  cbn [String.eqb]. pres.
Qed.

Lemma preserves_loadOrDeleteMDMIdentity (uuid : string) (del : bool) :
  preserves R (loadOrDeleteMDMIdentity w uuid del).
Proof. unfold loadOrDeleteMDMIdentity. pres. Qed.
#[local] Hint Resolve preserves_loadOrDeleteMDMIdentity : pres.

Lemma preserves_removeMDMPayload : preserves R (removeMDMPayload w).
Proof. unfold removeMDMPayload, Device_MDMClient, NewMDMClient, unenroll. pres. Qed.

Lemma preserves_removePayloads (profileID : string) (plds : list payloadAndResult) :
  preserves R (removePayloads w profileID plds).
Proof.
  pose proof preserves_removeSCEPPayload. pose proof preserves_removeMDMPayload.
  induction plds as [|pr plds IH]; cbn [removePayloads]; pres.
Qed.

Lemma preserves_RemoveProfile (profileID : string) :
  preserves R (RemoveProfile w profileID).
Proof.
  pose proof preserves_removePayloads.
  unfold RemoveProfile, removeProfile, BucketPutOrDelete. pres.
Qed.

End Preservation.

Lemma grows_insert {V : Type} (m : gmap string V) (k k' : string) (v : V) :
  is_Some (m !! k') -> is_Some (<[k := v]> m !! k').
Proof.
  intros Hk'. destruct (decide (k = k')) as [->|Hne].
  - rewrite lookup_insert_eq. eauto.
  - rewrite lookup_insert_ne by exact Hne. exact Hk'.
Qed.

Lemma grows_installPayloads (w : World) (p : Profile) (n i : nat)
  (plds : list payloadAndResult) :
  preserves grows (installPayloads w p n i plds).
Proof.
  apply preserves_installPayloads; unfold grows;
    cbn [profiles keychain payload_refs set_trace set_device set_mdmClient
         set_saved set_keychain set_payload_refs];
    try (intros; split; [reflexivity | split; auto using grows_insert]).
  intros s1 s2 s3 (Hp1 & Hk1 & Hr1) (Hp2 & Hk2 & Hr2).
  split; [congruence|]. split; auto.
Qed.

Section NoProfileWritten.
Variable w : World.

Lemma noProfileWritten_refl (s : State) : noProfileWritten s s.
Proof. intros k v H. exact H. Qed.

Lemma noProfileWritten_trans (s1 s2 s3 : State) :
  noProfileWritten s1 s2 -> noProfileWritten s2 s3 -> noProfileWritten s1 s3.
Proof. intros H12 H23 k v H. apply H12, H23, H. Qed.

Lemma noProfileWritten_delete (s : State) (k : string) :
  noProfileWritten s (set_profiles (delete k (profiles s)) s).
Proof.
  intros k' v. cbn [profiles set_profiles]. intros H.
  apply lookup_delete_Some in H as [_ H]. exact H.
Qed.

Lemma noProfileWritten_same (s s' : State) :
  profiles s' = profiles s -> noProfileWritten s s'.
Proof. intros Heq k v. rewrite Heq. auto. Qed.

Ltac no_profile_written :=
  first [ exact noProfileWritten_refl
        | exact noProfileWritten_trans
        | exact noProfileWritten_delete
        | intros; apply noProfileWritten_same; reflexivity ].

Lemma noProfileWritten_ValidateProfileInstall (p : Profile) (fromMDM : bool) :
  preserves noProfileWritten (ValidateProfileInstall w p fromMDM).
Proof. apply preserves_ValidateProfileInstall; no_profile_written. Qed.

Lemma noProfileWritten_ListUUIDs : preserves noProfileWritten (ListUUIDs w).
Proof. apply preserves_ListUUIDs; no_profile_written. Qed.

Lemma noProfileWritten_RemoveProfile (profileID : string) :
  preserves noProfileWritten (RemoveProfile w profileID).
Proof. apply preserves_RemoveProfile; no_profile_written. Qed.

Lemma persistProfile_inv (pb : bytes) (profileID : string) (s s' : State)
  (o : Outcome (option error)) :
  persistProfile w pb profileID s = (o, s') ->
  (exists e, o = Val (Some e) /\ profiles s' = profiles s)
  \/ (o = Val None /\ pb <> []
      /\ device s' = device s
      /\ profiles s' = <[profileKey (UDID (device s)) profileID := pb]> (profiles s)).
Proof.
  unfold persistProfile. destruct pb as [|b pb].
  - intros [= <- <-]. left. eauto.
  - unfold gets at 1. unfold bind at 1.
    rewrite (bind_val _ _ _ _ _ (transaction_run w _ s)).
    destruct (bolt_tx w (length (trace s))) as [e|].
    + intros [= <- <-]. left. eauto.
    + intros [= <- <-]. right. repeat split. discriminate.
Qed.

End NoProfileWritten.

Lemma noProfileWritten_removeMatched (w : World) (matched : string) :
  preserves noProfileWritten
    (if negb (String.eqb matched "")
     then bind (RemoveProfile w matched) (fun _ => ret tt)
     else ret tt).
Proof.
  destruct (negb (String.eqb matched "")).
  - apply (preserves_bind _ noProfileWritten_trans).
    + apply noProfileWritten_RemoveProfile.
    + intros _. apply (preserves_ret _ noProfileWritten_refl).
  - apply (preserves_ret _ noProfileWritten_refl).
Qed.

Lemma noProfileWritten_installPayloads (w : World) (p : Profile) (n i : nat)
  (plds : list payloadAndResult) :
  preserves noProfileWritten (installPayloads w p n i plds).
Proof.
  intros s o s' H. apply grows_installPayloads in H as [Hp _].
  apply noProfileWritten_same. exact Hp.
Qed.

Lemma installProfile_inv (w : World) (pb : bytes) (fromMDM : bool) (s s' : State)
  (o : Outcome (option error)) :
  installProfile w pb fromMDM s = (o, s') ->
  (noProfileWritten s s' /\ o <> Val None)
  \/ (exists p s4,
        plist_Unmarshal w pb = inl p
        /\ noProfileWritten s s4
        /\ persistProfile w pb (profile_PayloadIdentifier p) s4 = (o, s')).
Proof.
  unfold installProfile. intros H.
  destruct pb as [|b pb'] eqn:Hpb.
  { inversion H; subst. left. split; [apply noProfileWritten_refl | discriminate]. }
  rewrite <- Hpb in *. clear Hpb.
  destruct (plist_Unmarshal w pb) as [p|e].
  2:{ inversion H; subst. left. split; [apply noProfileWritten_refl | discriminate]. }
  apply bind_inv in H as [(err & s1 & Hval & H) | (msg & Hval & ->)].
  2:{ left. split; [|discriminate].
      eapply noProfileWritten_ValidateProfileInstall; eassumption. }
  apply noProfileWritten_ValidateProfileInstall in Hval.
  destruct err as [e|].
  { inversion H; subst. left. split; [assumption | discriminate]. }
  apply bind_inv in H as [([uuids err] & s2 & Hlist & H) | (msg & Hlist & ->)].
  2:{ left. split; [|discriminate].
      eapply noProfileWritten_trans; [exact Hval|].
      eapply noProfileWritten_ListUUIDs; eassumption. }
  apply noProfileWritten_ListUUIDs in Hlist.
  destruct err as [e|].
  { inversion H; subst. left. split; [|discriminate].
    eapply noProfileWritten_trans; eassumption. }
  apply bind_inv in H as [(u & s3 & Hrm & H) | (msg & Hrm & ->)].
  2:{ left. split; [|discriminate].
      eapply noProfileWritten_trans; [exact Hval|].
      eapply noProfileWritten_trans; [exact Hlist|].
      eapply noProfileWritten_removeMatched; eassumption. }
  apply noProfileWritten_removeMatched in Hrm.
  assert (Hs3 : noProfileWritten s s3).
  { eapply noProfileWritten_trans; [exact Hval|].
    eapply noProfileWritten_trans; eassumption. }
  apply bind_inv in H as [(err & s4 & Hloop & H) | (msg & Hloop & ->)].
  2:{ left. split; [|discriminate].
      eapply noProfileWritten_trans; [exact Hs3|].
      eapply noProfileWritten_installPayloads; eassumption. }
  apply noProfileWritten_installPayloads in Hloop.
  assert (Hs4 : noProfileWritten s s4)
    by (eapply noProfileWritten_trans; eassumption).
  destruct err as [e|].
  - inversion H; subst. left. split; [assumption | discriminate].
  - right. exists p, s4. auto.
Qed.


Lemma installProfile_sample_failure :
  installProfile (Sample.refusingWorld Sample.enrollProfile [3%nat]) Sample.doc false
    Sample.st0
  = (Val (Some (errors_New "authenticate: 401")), Sample.stOrphaned).
Proof. vm_compute. reflexivity. Qed.





(** ** Replacing an installed profile *)

Lemma matchedUUID_cases (uuids : list string) (id : string) :
  matchedUUID uuids id = id \/ matchedUUID uuids id = "".
Proof.
  unfold matchedUUID.
  assert (H : forall acc, acc = id \/ acc = "" ->
            fold_left (fun matched uuid => if String.eqb uuid id then uuid else matched)
              uuids acc = id
            \/ fold_left (fun matched uuid => if String.eqb uuid id then uuid else matched)
              uuids acc = "").
  { induction uuids as [|u uuids IH]; intros acc Hacc; [exact Hacc|].
    simpl. apply IH. destruct (String.eqb_spec u id); auto. }
  apply H. auto.
Qed.

(** C10. When the identifier of the profile is among the installed ones,
    [installProfile] calls [RemoveProfile] for it and goes on with the
    install loop and the persisting of the document from the state the
    removal left, whatever [RemoveProfile] returned: an error of the
    removal is dropped and does not end the pass. *)
Theorem installProfile_ignores_removal_error (w : World) (pb : bytes) (p : Profile)
  (fromMDM : bool) (s s1 s2 s3 : State) (uuids : list string) (r : option error) :
  let id := profile_PayloadIdentifier p in
  let ordered := classifyAndSortProfilePayloads p false in
  pb <> [] ->
  plist_Unmarshal w pb = inl p ->
  ValidateProfileInstall w p fromMDM s = (Val None, s1) ->
  ListUUIDs w s1 = (Val (uuids, None), s2) ->
  matchedUUID uuids id <> "" ->
  RemoveProfile w (matchedUUID uuids id) s2 = (Val r, s3) ->
  matchedUUID uuids id = id
  /\ installProfile w pb fromMDM s
     = bind (installPayloads w p (length ordered) 0 ordered)
         (fun err => match err with
                     | Some e => ret (Some e)
                     | None => persistProfile w pb id
                     end) s3.
Proof.
  intros id ordered Hpb Hp Hval Hlist Hmatched Hrm. split.
  - destruct (matchedUUID_cases uuids id); congruence.
  - unfold installProfile. destruct pb as [|b pb'] eqn:Hb; [congruence|].
    rewrite <- Hb in *. rewrite Hp.
    rewrite (bind_val _ _ _ _ _ Hval).
    rewrite (bind_val _ _ _ _ _ Hlist).
    fold id. apply String.eqb_neq in Hmatched. rewrite Hmatched. cbn [negb].
    unfold bind at 1. unfold bind at 1. rewrite Hrm. reflexivity.
Qed.

Lemma RemoveProfile_sample_failure :
  RemoveProfile Sample.reinstallWorld
    (matchedUUID ["prof.id"] (profile_PayloadIdentifier Sample.scepProfile))
    Sample.stListed
  = (Val (Some (errors_New "database not open")), Sample.stRemovalFailed).
Proof. vm_compute. reflexivity. Qed.

Lemma installProfile_ignores_removal_error_witness :
  RemoveProfile Sample.reinstallWorld "prof.id" Sample.stListed
  = (Val (Some (errors_New "database not open")), Sample.stRemovalFailed)
  /\ keychain Sample.stRemovalFailed = Sample.keychain1
  /\ installProfile Sample.reinstallWorld Sample.doc false Sample.stInstalled
     = (Val None, Sample.stReinstalled)
  /\ profiles Sample.stReinstalled !! profileKey "UDID0" "prof.id" = Some Sample.doc.
Proof.
  split; [exact RemoveProfile_sample_failure|].
  split; [vm_compute; reflexivity|].
  split; [|vm_compute; reflexivity].
  assert (Hpb : Sample.doc <> []) by discriminate.
  destruct (installProfile_ignores_removal_error Sample.reinstallWorld Sample.doc
              Sample.scepProfile false Sample.stInstalled Sample.stInstalled
              Sample.stListed Sample.stRemovalFailed ["prof.id"]
              (Some (errors_New "database not open"))
              Hpb eq_refl eq_refl) as [_ Hrun].
  - vm_compute. reflexivity.
  - discriminate.
  - exact RemoveProfile_sample_failure.
  - rewrite Hrun. vm_compute. reflexivity.
Defined.

(** * Further properties of the code *)

(** ** Sample runs *)

Lemma installSCEPPayload_save_failure_run :
  installSCEPPayload Cases.saveFailsWorld "prof.id" Sample.scep1 Sample.st0
  = (Val ("", Some (errors_New "database not open")), Cases.stSaveFailed).
Proof. vm_compute. reflexivity. Qed.

Lemma installMDMPayload_sample_run :
  installMDMPayload (Sample.okWorld Sample.enrollProfile) Sample.mdm1 "prof.id"
    Cases.stResolved = (Val None, Cases.stMDMInstalled).
Proof. vm_compute. reflexivity. Qed.

Lemma RemoveProfile_removes_sample_run :
  RemoveProfile (Sample.okWorld Sample.scepProfile) "prof.id" Sample.stInstalled
  = (Val None, Cases.stProfileRemoved).
Proof. vm_compute. reflexivity. Qed.

Lemma Device_MDMClient_sample_run :
  Device_MDMClient (Sample.okWorld Sample.scepProfile) Cases.stDangling
  = (Val (mkMDMClient None None None, Some (errors_New "keychain item not found")),
     Cases.stClientCached).
Proof. vm_compute. reflexivity. Qed.

(** ** Bytes and bit strings *)

Lemma all_bytes_checked : allFrom byteChecks 256 0 = true.
Proof. vm_compute. reflexivity. Qed.

Lemma byteChecks_holds (b : Z) : 0 <= b < 256 -> byteChecks b = true.
Proof.
  intros Hb. apply (allFrom_spec _ _ _ all_bytes_checked b). simpl. lia.
Qed.

Lemma reverseBits_zero (b : Z) :
  0 <= b < 256 ->
  0 <= KeyUsage.reverseBitsInAByte b < 256
  /\ (KeyUsage.reverseBitsInAByte b = 0 <-> b = 0).
Proof.
  intros Hb. pose proof (byteChecks_holds b Hb) as H. unfold byteChecks in H.
  apply andb_true_iff in H as [H _].
  apply andb_true_iff in H as [H Hinv].
  apply andb_true_iff in H as [Hlo Hhi].
  apply Z.leb_le in Hlo. apply Z.ltb_lt in Hhi. apply Z.eqb_eq in Hinv.
  split; [lia|]. split.
  - intros H0. rewrite H0 in Hinv. rewrite <- Hinv. reflexivity.
  - intros ->. reflexivity.
Qed.

(** X1. On a byte, [reverseBitsInAByte] gives a byte, is its own inverse,
    moves bit [i] to bit [7 - i], and gives 0 only for 0. *)
Theorem reverseBitsInAByte_involutive (b : Z) :
  0 <= b < 256 ->
  0 <= KeyUsage.reverseBitsInAByte b < 256
  /\ KeyUsage.reverseBitsInAByte (KeyUsage.reverseBitsInAByte b) = b
  /\ (forall i, 0 <= i < 8 ->
        Z.testbit (KeyUsage.reverseBitsInAByte b) (7 - i) = Z.testbit b i)
  /\ (KeyUsage.reverseBitsInAByte b = 0 <-> b = 0).
Proof.
  intros Hb. pose proof (byteChecks_holds b Hb) as H. unfold byteChecks in H.
  apply andb_true_iff in H as [H Hbits].
  apply andb_true_iff in H as [H Hinv].
  apply andb_true_iff in H as [Hlo Hhi].
  apply Z.leb_le in Hlo. apply Z.ltb_lt in Hhi. apply Z.eqb_eq in Hinv.
  repeat split; try assumption.
  - intros i Hi. apply Bool.eqb_prop. apply (allFrom_spec _ _ _ Hbits i). simpl. lia.
  - intros H0. rewrite H0 in Hinv. rewrite <- Hinv. reflexivity.
  - intros ->. reflexivity.
Qed.

Lemma reverseBitsInAByte_involutive_witness :
  0 <= KeyUsage.reverseBitsInAByte 6 < 256
  /\ KeyUsage.reverseBitsInAByte (KeyUsage.reverseBitsInAByte 6) = 6
  /\ Z.testbit (KeyUsage.reverseBitsInAByte 6) (7 - 1) = Z.testbit 6 1.
Proof.
  assert (Hb : 0 <= 6 < 256) by lia.
  destruct (reverseBitsInAByte_involutive 6 Hb) as (Hr & Hinv & Hbits & _).
  split; [exact Hr|]. split; [exact Hinv|]. apply Hbits. lia.
Defined.

Lemma land_1_testbit (x : Z) : (Z.land x 1 =? 1) = Z.testbit x 0.
Proof.
  change 1 with (Z.ones 1) at 1. rewrite Z.land_ones by lia.
  change (2 ^ 1) with 2. rewrite <- Z.bit0_mod.
  destruct (Z.testbit x 0); reflexivity.
Qed.

(** The inner loop returns at the lowest set bit among the [n] it looks
    at, or runs through when none is set. *)
Lemma bitLoop_spec (b : Z) (n : nat) :
  forall bit bitLen, 0 <= bit ->
  (exists k, 0 <= k < Z.of_nat n
        /\ Z.testbit b (bit + k) = true
        /\ (forall j, 0 <= j < k -> Z.testbit b (bit + j) = false)
        /\ KeyUsage.bitLoop b n bit bitLen = inl (bitLen - k))
  \/ ((forall j, 0 <= j < Z.of_nat n -> Z.testbit b (bit + j) = false)
      /\ KeyUsage.bitLoop b n bit bitLen = inr (bitLen - Z.of_nat n)).
Proof.
  induction n as [|n IH]; intros bit bitLen Hbit.
  - right. split; [intros; lia|]. simpl. f_equal. lia.
  - cbn [KeyUsage.bitLoop]. rewrite land_1_testbit, Z.shiftr_spec by lia.
    rewrite Z.add_0_l.
    destruct (Z.testbit b bit) eqn:Hb.
    + left. exists 0. rewrite Z.add_0_r, Z.sub_0_r. repeat split; try lia; auto.
    + destruct (IH (bit + 1) (bitLen - 1)) as
        [(k & Hk & Hset & Hclear & Hrun) | (Hclear & Hrun)]; [lia| |].
      * left. exists (k + 1). repeat split; try lia.
        -- rewrite <- Hset. f_equal. lia.
        -- intros j Hj. destruct (Z.eq_dec j 0) as [->|Hne].
           ++ rewrite Z.add_0_r. exact Hb.
           ++ replace (bit + j) with (bit + 1 + (j - 1)) by lia. apply Hclear. lia.
        -- rewrite Hrun. f_equal. lia.
      * right. split.
        -- intros j Hj. destruct (Z.eq_dec j 0) as [->|Hne].
           ++ rewrite Z.add_0_r. exact Hb.
           ++ replace (bit + j) with (bit + 1 + (j - 1)) by lia. apply Hclear. lia.
        -- rewrite Hrun. f_equal. lia.
Qed.

Lemma byteLoop_zero_byte (rest : list Z) (bitLen : Z) :
  KeyUsage.byteLoop (0 :: rest) bitLen = KeyUsage.byteLoop rest (bitLen - 8).
Proof.
  cbn [KeyUsage.byteLoop].
  destruct (bitLoop_spec 0 8 0 bitLen) as
    [(k & _ & Hset & _) | (_ & ->)]; [lia | |].
  - rewrite Z.bits_0 in Hset. discriminate.
  - reflexivity.
Qed.

Lemma byteLoop_bounds (l : list Z) :
  forall bitLen, 8 * Z.of_nat (length l) <= bitLen ->
  0 <= KeyUsage.byteLoop l bitLen <= bitLen.
Proof.
  induction l as [|b l IH]; intros bitLen Hlen; cbn [KeyUsage.byteLoop].
  - cbn [length] in Hlen. lia.
  - cbn [length] in Hlen.
    destruct (bitLoop_spec b 8 0 bitLen) as
      [(k & Hk & _ & _ & ->) | (_ & ->)]; [lia | |].
    + lia.
    + specialize (IH (bitLen - Z.of_nat 8)). lia.
Qed.

Lemma asn1BitLength_bounds (bitString : list Z) :
  0 <= KeyUsage.asn1BitLength bitString <= 8 * Z.of_nat (length bitString).
Proof.
  unfold KeyUsage.asn1BitLength.
  rewrite (Z.mul_comm (Z.of_nat _) 8). apply byteLoop_bounds.
  rewrite length_rev. lia.
Qed.

Lemma asn1BitLength_last_byte (bitString : list Z) (b k : Z) :
  0 <= k < 8 ->
  Z.testbit b k = true ->
  (forall j, 0 <= j < k -> Z.testbit b j = false) ->
  KeyUsage.asn1BitLength (bitString ++ [b])
  = 8 * Z.of_nat (length bitString) + 8 - k.
Proof.
  intros Hk Hset Hclear. unfold KeyUsage.asn1BitLength.
  rewrite rev_app_distr. cbn [rev app KeyUsage.byteLoop].
  destruct (bitLoop_spec b 8 0 (Z.of_nat (length (bitString ++ [b])) * 8)) as
    [(k' & Hk' & Hset' & Hclear' & ->) | (Hnone & _)]; [lia | |].
  - rewrite Z.add_0_l in Hset'.
    assert (k' = k).
    { destruct (Z.lt_trichotomy k' k) as [Hlt | [Heq | Hgt]]; [|exact Heq|].
      - rewrite (Hclear k') in Hset' by lia. discriminate.
      - specialize (Hclear' k). rewrite Z.add_0_l in Hclear'.
        rewrite Hclear' in Hset by lia. discriminate. }
    subst k'. rewrite length_app. cbn [length]. lia.
  - specialize (Hnone k). rewrite Z.add_0_l in Hnone.
    rewrite Hnone in Hset by (simpl; lia). discriminate.
Qed.

(** X2. [asn1BitLength] lies between 0 and eight times the number of
    bytes; a zero byte at the end does not count; a string of zero bytes
    has length 0; and when the last byte has its lowest set bit at
    position [k], the length is eight times the number of bytes minus
    [k]. *)
Theorem asn1BitLength_trailing_zeros (bitString : list Z) :
  0 <= KeyUsage.asn1BitLength bitString <= 8 * Z.of_nat (length bitString)
  /\ KeyUsage.asn1BitLength (bitString ++ [0]) = KeyUsage.asn1BitLength bitString
  /\ (Forall (fun b => b = 0) bitString -> KeyUsage.asn1BitLength bitString = 0)
  /\ (forall b k,
        0 <= k < 8 ->
        Z.testbit b k = true ->
        (forall j, 0 <= j < k -> Z.testbit b j = false) ->
        KeyUsage.asn1BitLength (bitString ++ [b])
        = 8 * Z.of_nat (length bitString) + 8 - k).
Proof.
  split; [apply asn1BitLength_bounds|]. split; [|split].
  - unfold KeyUsage.asn1BitLength.
    rewrite rev_app_distr. cbn [rev app]. rewrite byteLoop_zero_byte.
    f_equal. rewrite length_app. cbn [length]. lia.
  - intros Hall. unfold KeyUsage.asn1BitLength. apply Forall_rev in Hall.
    generalize (Z.of_nat (length bitString) * 8).
    induction Hall as [|b l -> _ IH]; intros L; [reflexivity|].
    rewrite byteLoop_zero_byte. apply IH.
  - intros b k. apply asn1BitLength_last_byte.
Qed.

Lemma asn1BitLength_trailing_zeros_witness :
  KeyUsage.asn1BitLength [0; 0] = 0
  /\ KeyUsage.asn1BitLength ([160] ++ [192]) = 8 * Z.of_nat (length [160]) + 8 - 6.
Proof.
  split.
  - apply (asn1BitLength_trailing_zeros [0; 0]). repeat constructor.
  - apply (asn1BitLength_trailing_zeros [160]); [lia | reflexivity |].
    intros j Hj.
    assert (Hcases : j = 0 \/ j = 1 \/ j = 2 \/ j = 3 \/ j = 4 \/ j = 5) by lia.
    destruct Hcases as [-> | [-> | [-> | [-> | [-> | ->]]]]]; reflexivity.
Defined.

Lemma byte_of_range (x : Z) : 0 <= KeyUsage.byte_of x < 256.
Proof.
  unfold KeyUsage.byte_of. change 255 with (Z.ones 8). rewrite Z.land_ones by lia.
  apply Z.mod_pos_bound. reflexivity.
Qed.

Lemma byte_zero_of_bits (a : Z) :
  0 <= a < 256 -> (forall j, 0 <= j < 8 -> Z.testbit a j = false) -> a = 0.
Proof.
  intros Ha Hbits. apply Z.bits_inj'. intros n Hn. rewrite Z.bits_0.
  destruct (Z.lt_ge_cases n 8) as [Hlt|Hge]; [apply Hbits; lia|].
  destruct (Z.eq_dec a 0) as [->|Hne]; [apply Z.bits_0|].
  apply Z.bits_above_log2; [lia|].
  assert (Z.log2 a < 8) by (apply Z.log2_lt_pow2; lia). lia.
Qed.

Lemma asn1BitLength_two_bytes (a0 a1 : Z) :
  0 <= a1 < 256 -> a1 <> 0 -> 8 < KeyUsage.asn1BitLength [a0; a1] <= 16.
Proof.
  intros Hr Hne. unfold KeyUsage.asn1BitLength. cbn [rev app length KeyUsage.byteLoop].
  destruct (bitLoop_spec a1 8 0 (Z.of_nat 2 * 8)) as
    [(k & Hk & _ & _ & ->) | (Hnone & _)]; [lia | |].
  - lia.
  - exfalso. apply Hne. apply byte_zero_of_bits; [exact Hr|].
    intros j Hj. apply (Hnone j). simpl. lia.
Qed.

Lemma keyUsageBitString_shape (keyUsage : Z) :
  let bs := KeyUsage.keyUsageBitString keyUsage in
  let hi := KeyUsage.reverseBitsInAByte (KeyUsage.byte_of (Z.shiftr keyUsage 8)) in
  KeyUsage.Bytes bs
  = (if hi =? 0 then [KeyUsage.reverseBitsInAByte (KeyUsage.byte_of keyUsage)]
     else [KeyUsage.reverseBitsInAByte (KeyUsage.byte_of keyUsage); hi])
  /\ KeyUsage.BitLength bs = KeyUsage.asn1BitLength (KeyUsage.Bytes bs).
Proof.
  unfold KeyUsage.keyUsageBitString. cbn zeta.
  destruct (KeyUsage.reverseBitsInAByte (KeyUsage.byte_of (Z.shiftr keyUsage 8)) =? 0);
    split; reflexivity.
Qed.

(** X3. The BIT STRING of a key usage is minimal: it has one byte when
    bits 8 to 15 of the mask are all zero and two bytes otherwise, every
    byte is a byte, a second byte is never zero, and the bit length is at
    most 8 for one byte and between 9 and 16 for two. *)
Theorem keyUsageBitString_minimal (keyUsage : Z) :
  let bs := KeyUsage.keyUsageBitString keyUsage in
  Forall (fun b => 0 <= b < 256) (KeyUsage.Bytes bs)
  /\ ((KeyUsage.byte_of (Z.shiftr keyUsage 8) = 0 ->
       length (KeyUsage.Bytes bs) = 1%nat /\ 0 <= KeyUsage.BitLength bs <= 8)
      /\ (KeyUsage.byte_of (Z.shiftr keyUsage 8) <> 0 ->
          length (KeyUsage.Bytes bs) = 2%nat
          /\ nth 1 (KeyUsage.Bytes bs) 0 <> 0
          /\ 8 < KeyUsage.BitLength bs <= 16)).
Proof.
  intros bs.
  destruct (keyUsageBitString_shape keyUsage) as [Hbytes Hlen]. fold bs in Hbytes, Hlen.
  pose proof (byte_of_range keyUsage) as Hlo.
  pose proof (byte_of_range (Z.shiftr keyUsage 8)) as Hhi.
  destruct (reverseBits_zero _ Hlo) as (Hr0 & _).
  destruct (reverseBits_zero _ Hhi) as (Hr1 & Hz).
  rewrite Hlen.
  destruct (Z.eqb_spec
              (KeyUsage.reverseBitsInAByte (KeyUsage.byte_of (Z.shiftr keyUsage 8))) 0)
    as [Hzero | Hnz]; rewrite Hbytes.
  - split; [repeat constructor; lia|]. split.
    + intros _. split; [reflexivity|].
      pose proof (asn1BitLength_bounds
                    [KeyUsage.reverseBitsInAByte (KeyUsage.byte_of keyUsage)]) as Hb.
      cbn [length] in Hb. lia.
    + intros Hne. exfalso. apply Hne. apply Hz. exact Hzero.
  - split; [repeat constructor; lia|]. split.
    + intros H0. exfalso. apply Hnz. apply Hz. exact H0.
    + intros _. split; [reflexivity|]. split; [exact Hnz|].
      apply asn1BitLength_two_bytes; assumption.
Qed.

Lemma keyUsageBitString_minimal_witness :
  (length (KeyUsage.Bytes (KeyUsage.keyUsageBitString 5)) = 1%nat
   /\ 0 <= KeyUsage.BitLength (KeyUsage.keyUsageBitString 5) <= 8)
  /\ (length (KeyUsage.Bytes (KeyUsage.keyUsageBitString 257)) = 2%nat
      /\ nth 1 (KeyUsage.Bytes (KeyUsage.keyUsageBitString 257)) 0 <> 0
      /\ 8 < KeyUsage.BitLength (KeyUsage.keyUsageBitString 257) <= 16).
Proof.
  split.
  - apply (keyUsageBitString_minimal 5). reflexivity.
  - apply (keyUsageBitString_minimal 257). discriminate.
Defined.

(** ** The profile store *)

Lemma append_assoc (a b c : string) : (a +:+ b) +:+ c = a +:+ (b +:+ c).
Proof.
  induction a as [|x a IH]; [reflexivity|].
  change ((String x a +:+ b) +:+ c) with (String x ((a +:+ b) +:+ c)).
  rewrite IH. reflexivity.
Qed.

Lemma append_inj_r (a b c : string) : a +:+ b = a +:+ c -> b = c.
Proof.
  induction a as [|x a IH]; intros H; [exact H|].
  change (String x (a +:+ b) = String x (a +:+ c)) in H.
  injection H as H. apply IH. exact H.
Qed.

Lemma profileKey_inj (storeID id id' : string) :
  profileKey storeID id = profileKey storeID id' -> id = id'.
Proof.
  unfold profileKey. intros H.
  apply append_inj_r in H. apply append_inj_r in H. exact H.
Qed.

Lemma persistProfile_run (w : World) (pb : bytes) (profileID : string) (s : State) :
  pb <> [] ->
  let key := profileKey (UDID (device s)) profileID in
  persistProfile w pb profileID s
  = match bolt_tx w (length (trace s)) with
    | Some e => (Val (Some e), set_trace (trace s ++ [EvProfilePersist key]) s)
    | None =>
        (Val None,
         set_profiles (<[key := pb]> (profiles s))
           (set_trace (trace s ++ [EvProfilePersist key]) s))
    end.
Proof.
  intros Hpb key. unfold persistProfile. destruct pb as [|b pb]; [congruence|].
  unfold gets at 1. unfold bind at 1.
  rewrite (bind_val _ _ _ _ _ (transaction_run w _ s)).
  destruct (bolt_tx w (length (trace s))); reflexivity.
Qed.

Lemma removeProfile_run (w : World) (profileID : string) (s : State) :
  let key := profileKey (UDID (device s)) profileID in
  removeProfile w profileID s
  = match bolt_tx w (length (trace s)) with
    | Some e => (Val (Some e), set_trace (trace s ++ [EvProfileRemove key]) s)
    | None =>
        (Val None,
         set_profiles (delete key (profiles s))
           (set_trace (trace s ++ [EvProfileRemove key]) s))
    end.
Proof.
  intros key. unfold removeProfile.
  unfold gets at 1. unfold bind at 1.
  rewrite (bind_val _ _ _ _ _ (transaction_run w _ s)).
  destruct (bolt_tx w (length (trace s))); reflexivity.
Qed.

Lemma Load_run (w : World) (id : string) (s : State) :
  let key := profileKey (UDID (device s)) id in
  Load w id s
  = (Val (match bolt_tx w (length (trace s)) with
          | Some e => inr e
          | None =>
              match BucketGet (profiles s) key with
              | [] => inr (errors_New ("missing or zero-length profile: " +:+ id))
              | pb => plist_Unmarshal w pb
              end
          end),
     set_trace (trace s ++ [EvProfileLoad key]) s).
Proof.
  intros key. unfold Load.
  unfold gets at 1. unfold bind at 1.
  rewrite (bind_val _ _ _ _ _ (transaction_run w _ s)).
  destruct (bolt_tx w (length (trace s))); [reflexivity|].
  unfold gets at 1. unfold bind at 1. cbn [profiles set_trace]. fold key.
  destruct (BucketGet (profiles s) key); reflexivity.
Qed.

(** X7. The profile store: [persistProfile] refuses an empty document
    and writes nothing; after a successful [persistProfile] a [Load] of
    the same identifier whose read succeeds parses the document that was
    written, and after a successful [removeProfile] it reports a missing
    profile; in both cases a [Load] of any other identifier gives what
    it gave before. *)
Theorem profile_store_round_trip (w : World) (pb : bytes) (profileID : string)
  (s : State) :
  persistProfile w [] profileID s = (Val (Some (errors_New "empty profile")), s)
  /\ (forall s1,
        persistProfile w pb profileID s = (Val None, s1) ->
        bolt_tx w (length (trace s1)) = None ->
        pb <> []
        /\ fst (Load w profileID s1) = Val (plist_Unmarshal w pb)
        /\ (forall other, other <> profileID ->
              fst (Load w other s1) = fst (Load w other s)))
  /\ (forall s1,
        removeProfile w profileID s = (Val None, s1) ->
        bolt_tx w (length (trace s1)) = None ->
        fst (Load w profileID s1)
        = Val (inr (errors_New ("missing or zero-length profile: " +:+ profileID)))
        /\ (forall other, other <> profileID ->
              fst (Load w other s1) = fst (Load w other s))).
Proof.
  split; [reflexivity|]. split.
  - intros s1 Hrun Htx.
    destruct pb as [|b pb']; [discriminate Hrun|].
    assert (Hne : b :: pb' <> []) by discriminate.
    rewrite (persistProfile_run w _ profileID s Hne) in Hrun.
    destruct (bolt_tx w (length (trace s))) eqn:Htx0; [discriminate|].
    injection Hrun as <-.
    split; [exact Hne|]. split.
    + rewrite Load_run. cbn [fst]. rewrite Htx.
      cbn [device profiles set_profiles set_trace].
      unfold BucketGet. rewrite lookup_insert_eq. reflexivity.
    + intros other Hother. rewrite !Load_run. cbn [fst].
      rewrite Htx, Htx0.
      cbn [device profiles set_profiles set_trace].
      unfold BucketGet. rewrite lookup_insert_ne; [reflexivity|].
      intros Heq. apply profileKey_inj in Heq. congruence.
  - intros s1 Hrun Htx.
    rewrite removeProfile_run in Hrun.
    destruct (bolt_tx w (length (trace s))) eqn:Htx0; [discriminate|].
    injection Hrun as <-. split.
    + rewrite Load_run. cbn [fst]. rewrite Htx.
      cbn [device profiles set_profiles set_trace].
      unfold BucketGet. rewrite lookup_delete_eq. reflexivity.
    + intros other Hother. rewrite !Load_run. cbn [fst].
      rewrite Htx, Htx0.
      cbn [device profiles set_profiles set_trace].
      unfold BucketGet. rewrite lookup_delete_ne; [reflexivity|].
      intros Heq. apply profileKey_inj in Heq. congruence.
Qed.

Lemma profile_store_round_trip_witness :
  let w := Sample.okWorld Sample.scepProfile in
  fst (Load w "prof.id" (snd (persistProfile w Sample.doc "prof.id" Sample.st0)))
  = Val (plist_Unmarshal w Sample.doc)
  /\ fst (Load w "prof.id" (snd (removeProfile w "prof.id" Sample.stInstalled)))
     = Val (inr (errors_New "missing or zero-length profile: prof.id")).
Proof.
  intros w. split.
  - destruct (profile_store_round_trip w Sample.doc "prof.id" Sample.st0)
      as (_ & Hsave & _).
    destruct (Hsave (snd (persistProfile w Sample.doc "prof.id" Sample.st0)))
      as (_ & Hload & _); [vm_compute; reflexivity | reflexivity | exact Hload].
  - destruct (profile_store_round_trip w Sample.doc "prof.id" Sample.stInstalled)
      as (_ & _ & Hremove).
    destruct (Hremove (snd (removeProfile w "prof.id" Sample.stInstalled)))
      as (Hload & _); [vm_compute; reflexivity | reflexivity | exact Hload].
Defined.

Lemma savePayloadRefString_run (w : World) (profileID : string) (pld : Payload)
  (ekey value : string) (s : State) :
  value <> "" ->
  let key := refKey profileID pld ekey in
  savePayloadRefString w profileID pld ekey value s
  = match bolt_tx w (length (trace s)) with
    | Some e => (Val (Some e), set_trace (trace s ++ [EvRefSave key value]) s)
    | None =>
        (Val None,
         set_payload_refs (<[key := value]> (payload_refs s))
           (set_trace (trace s ++ [EvRefSave key value]) s))
    end.
Proof.
  intros Hne key. unfold savePayloadRefString, BucketPutOrDeleteString.
  apply String.eqb_neq in Hne. rewrite Hne. fold key.
  rewrite (bind_val _ _ _ _ _ (transaction_run w _ s)).
  destruct (bolt_tx w (length (trace s))); reflexivity.
Qed.

(** X8. The payload references: [savePayloadRefString] refuses the empty
    value and writes nothing; after a successful save a
    [loadPayloadRefString] for the same profile, payload and key whose
    read succeeds gives the value saved; after a successful
    [removePayloadRefString], and also when nothing was ever saved, it
    gives the empty string and no error. *)
Theorem payload_ref_round_trip (w : World) (profileID : string) (pld : Payload)
  (ekey value : string) (s : State) :
  savePayloadRefString w profileID pld ekey "" s
    = (Val (Some (errors_New "no payload ref value to save")), s)
  /\ (forall s1,
        savePayloadRefString w profileID pld ekey value s = (Val None, s1) ->
        bolt_tx w (length (trace s1)) = None ->
        value <> ""
        /\ fst (loadPayloadRefString w profileID pld ekey s1) = Val (value, None))
  /\ (forall s1,
        removePayloadRefString w profileID pld ekey s = (Val None, s1) ->
        bolt_tx w (length (trace s1)) = None ->
        fst (loadPayloadRefString w profileID pld ekey s1) = Val ("", None))
  /\ (payload_refs s !! refKey profileID pld ekey = None ->
      bolt_tx w (length (trace s)) = None ->
      fst (loadPayloadRefString w profileID pld ekey s) = Val ("", None)).
Proof.
  split; [reflexivity|]. split; [|split].
  - intros s1 Hrun Htx.
    destruct (String.eqb_spec value "") as [->|Hne]; [discriminate Hrun|].
    rewrite (savePayloadRefString_run w _ _ _ _ s Hne) in Hrun.
    destruct (bolt_tx w (length (trace s))); [discriminate|].
    injection Hrun as <-. split; [exact Hne|].
    rewrite loadPayloadRefString_run. cbn [fst]. rewrite Htx.
    cbn [payload_refs set_payload_refs set_trace].
    unfold BucketGetString. rewrite lookup_insert_eq. reflexivity.
  - intros s1 Hrun Htx.
    rewrite removePayloadRefString_run in Hrun.
    destruct (bolt_tx w (length (trace s))); [discriminate|].
    injection Hrun as <-.
    rewrite loadPayloadRefString_run. cbn [fst]. rewrite Htx.
    cbn [payload_refs set_payload_refs set_trace].
    unfold BucketGetString. rewrite lookup_delete_eq. reflexivity.
  - intros Hnone Htx.
    rewrite loadPayloadRefString_run. cbn [fst]. rewrite Htx.
    unfold BucketGetString. rewrite Hnone. reflexivity.
Qed.

Lemma payload_ref_round_trip_witness :
  let w := Sample.okWorld Sample.scepProfile in
  let pld := scep_Payload Sample.scep1 in
  fst (loadPayloadRefString w "prof.id" pld "keychain_identity"
         (snd (savePayloadRefString w "prof.id" pld "keychain_identity" "ID-1"
                 Sample.st0)))
  = Val ("ID-1", None)
  /\ fst (loadPayloadRefString w "prof.id" pld "keychain_identity"
            (snd (removePayloadRefString w "prof.id" pld "keychain_identity"
                    Sample.stIssued)))
     = Val ("", None)
  /\ fst (loadPayloadRefString w "prof.id" pld "keychain_identity" Sample.st0)
     = Val ("", None).
Proof.
  intros w pld. split; [|split].
  - destruct (payload_ref_round_trip w "prof.id" pld "keychain_identity" "ID-1"
                Sample.st0) as (_ & Hsave & _).
    destruct (Hsave (snd (savePayloadRefString w "prof.id" pld "keychain_identity"
                            "ID-1" Sample.st0)))
      as (_ & Hload); [vm_compute; reflexivity | reflexivity | exact Hload].
  - destruct (payload_ref_round_trip w "prof.id" pld "keychain_identity" "ID-1"
                Sample.stIssued) as (_ & _ & Hremove & _).
    apply Hremove; [vm_compute; reflexivity | reflexivity].
  - destruct (payload_ref_round_trip w "prof.id" pld "keychain_identity" "ID-1"
                Sample.st0) as (_ & _ & _ & Hnone).
    apply Hnone; reflexivity.
Defined.

(** X9. The key of a payload reference joins the profile identifier, the
    payload identifier, the payload UUID and the key name with
    underscores and nothing else, so it does not tell its parts apart:
    moving a segment [_b] from the end of the profile identifier to the
    front of the payload identifier gives the same key. Two payloads of
    two profiles can so share one reference. *)
Theorem refKey_collision (a b c uuid ekey ptype ptype' : string) :
  refKey (a +:+ "_" +:+ b) (mkPayload ptype c uuid) ekey
  = refKey a (mkPayload ptype' (b +:+ "_" +:+ c) uuid) ekey.
Proof.
  unfold refKey. cbn [PayloadIdentifier PayloadUUID].
  rewrite !append_assoc. reflexivity.
Qed.

Lemma substring_skip (p b : string) (n : nat) :
  String.substring (String.length p) n (p +:+ b) = String.substring 0 n b.
Proof.
  induction p as [|c p IH]; [reflexivity|].
  change (String c p +:+ b) with (String c (p +:+ b)). simpl. exact IH.
Qed.

Lemma substring_all (b : string) : String.substring 0 (String.length b) b = b.
Proof. induction b as [|c b IH]; simpl; [reflexivity|]. rewrite IH. reflexivity. Qed.

Lemma stripPrefix_Some (p k x : string) :
  stripPrefix p k = Some x <-> k = p +:+ x.
Proof.
  unfold stripPrefix. split.
  - destruct (String.prefix p k) eqn:Hp; [|discriminate].
    destruct (prefix_split _ _ Hp) as [b ->]. intros [= <-].
    rewrite length_append, substring_skip.
    replace (String.length p + String.length b - String.length p)%nat
      with (String.length b) by lia.
    rewrite substring_all. reflexivity.
  - intros ->. rewrite prefix_append, length_append, substring_skip.
    replace (String.length p + String.length x - String.length p)%nat
      with (String.length x) by lia.
    rewrite substring_all. reflexivity.
Qed.

Lemma BucketGetKeysWithPrefix_elem (b : gmap string bytes) (p id : string) :
  id ∈ BucketGetKeysWithPrefix b p <-> is_Some (b !! (p +:+ id)).
Proof.
  unfold BucketGetKeysWithPrefix. rewrite list_elem_of_omap. split.
  - intros ([k v] & Hin & Hs). cbn [fst] in Hs.
    apply stripPrefix_Some in Hs as ->.
    apply elem_of_map_to_list in Hin. eauto.
  - intros [v Hv]. exists (p +:+ id, v). split.
    + apply elem_of_map_to_list. exact Hv.
    + cbn [fst]. apply stripPrefix_Some. reflexivity.
Qed.

Lemma matchedUUID_spec (uuids : list string) (id : string) :
  (id ∈ uuids -> matchedUUID uuids id = id)
  /\ (id ∉ uuids -> matchedUUID uuids id = "").
Proof.
  unfold matchedUUID.
  assert (H : forall acc,
            (id ∈ uuids ->
             fold_left (fun matched uuid => if String.eqb uuid id then uuid else matched)
               uuids acc = id)
            /\ (id ∉ uuids ->
                fold_left (fun matched uuid => if String.eqb uuid id then uuid else matched)
                  uuids acc = acc)).
  { induction uuids as [|u uuids IH]; intros acc.
    - split; [intros H; apply elem_of_nil in H; contradiction | reflexivity].
    - cbn [fold_left]. destruct (String.eqb_spec u id) as [->|Hne].
      + split.
        * intros _. destruct (decide (id ∈ uuids)) as [Hin|Hnin].
          -- apply (proj1 (IH _)). exact Hin.
          -- apply (proj2 (IH _)). exact Hnin.
        * intros Hnin. exfalso. apply Hnin. left.
      + split.
        * intros Hin. apply elem_of_cons in Hin as [->|Hin]; [congruence|].
          apply (proj1 (IH _)). exact Hin.
        * intros Hnin. apply (proj2 (IH _)). intros Hin. apply Hnin. right. exact Hin. }
  apply H.
Qed.

(** X10. When the read transaction succeeds, [ListUUIDs] returns exactly
    the identifiers under which the store of this device holds a
    document, and changes nothing but the record of calls. The loop of
    [installProfile] over that list therefore finds a match exactly when
    the identifier of the profile is not empty and a document is stored
    under it. *)
Theorem ListUUIDs_lists_installed (w : World) (s : State) :
  bolt_tx w (length (trace s)) = None ->
  exists uuids,
    ListUUIDs w s = (Val (uuids, None), set_trace (trace s ++ [EvProfileList]) s)
    /\ (forall id, id ∈ uuids
                   <-> is_Some (profiles s !! profileKey (UDID (device s)) id))
    /\ (forall id,
          matchedUUID uuids id <> ""
          <-> id <> "" /\ is_Some (profiles s !! profileKey (UDID (device s)) id)).
Proof.
  intros Htx. eexists. split; [|split].
  - unfold ListUUIDs. unfold gets at 1. unfold bind at 1.
    rewrite (bind_val _ _ _ _ _ (transaction_run w _ s)). rewrite Htx.
    reflexivity.
  - intros id. cbn [device profiles set_trace]. unfold profileKey.
    rewrite <- append_assoc. apply BucketGetKeysWithPrefix_elem.
  - intros id. cbn [device profiles set_trace].
    set (uuids := BucketGetKeysWithPrefix (profiles s) (UDID (device s) +:+ "_")).
    assert (Hel : id ∈ uuids
                  <-> is_Some (profiles s !! profileKey (UDID (device s)) id)).
    { unfold profileKey. rewrite <- append_assoc. apply BucketGetKeysWithPrefix_elem. }
    destruct (matchedUUID_spec uuids id) as [Hin Hnin].
    destruct (decide (id ∈ uuids)) as [Hd|Hd].
    + rewrite (Hin Hd). split.
      * intros Hne. split; [exact Hne | apply Hel; exact Hd].
      * intros [Hne _]. exact Hne.
    + rewrite (Hnin Hd). split; [congruence|].
      intros [_ Hs]. exfalso. apply Hd, Hel, Hs.
Qed.

Lemma ListUUIDs_lists_installed_witness :
  exists uuids,
    ListUUIDs (Sample.okWorld Sample.scepProfile) Sample.stInstalled
    = (Val (uuids, None),
       set_trace (trace Sample.stInstalled ++ [EvProfileList]) Sample.stInstalled)
    /\ (forall id, id ∈ uuids
                   <-> is_Some (profiles Sample.stInstalled
                                  !! profileKey (UDID (device Sample.stInstalled)) id))
    /\ (forall id,
          matchedUUID uuids id <> ""
          <-> id <> ""
              /\ is_Some (profiles Sample.stInstalled
                            !! profileKey (UDID (device Sample.stInstalled)) id)).
Proof.
  apply (ListUUIDs_lists_installed (Sample.okWorld Sample.scepProfile)
           Sample.stInstalled).
  reflexivity.
Defined.

(** ** Installing a SCEP payload: the two paths *)

Lemma NewKeychainItem_run (w : World) (class : KeychainClass) (s : State) :
  NewKeychainItem w class s
  = (Val (mkKeychainItem (uuid_NewString w (length (trace s))) class None None "" ""),
     set_trace (trace s ++ [EvNewUUID]) s).
Proof. reflexivity. Qed.

Lemma KeychainItem_Save_run (w : World) (kci : KeychainItem) (s : State) :
  KeychainItem_Save w kci s
  = match bolt_tx w (length (trace s)) with
    | Some e =>
        (Val (Some e),
         set_trace (trace s ++ [EvKeychainSave (kci_Class kci) (kci_UUID kci)]) s)
    | None =>
        (Val None,
         set_keychain (<[kci_UUID kci := kci]> (keychain s))
           (set_trace (trace s ++ [EvKeychainSave (kci_Class kci) (kci_UUID kci)]) s))
    end.
Proof.
  unfold KeychainItem_Save.
  rewrite (bind_val _ _ _ _ _ (transaction_run w _ s)).
  destruct (bolt_tx w (length (trace s))); reflexivity.
Qed.

Lemma scepNewPKCSReq_run (w : World) (csr : bytes) (url challenge caMessage : string)
  (fingerprint : bytes) (s : State) :
  scepNewPKCSReq w csr url challenge caMessage fingerprint s
  = (Val (scep_PKCSReq w (length (trace s)) csr url challenge caMessage fingerprint),
     set_trace (trace s ++ [EvSCEPRequest url]) s).
Proof. reflexivity. Qed.

(** X11. When a reference to an identity is stored for the payload and
    the read of it succeeds, [installSCEPPayload] returns it as its
    result, after generating a key and building a request that it then
    drops: the SCEP server is not called, and the keychain, the
    references, the profile store and the device are what they were. *)
Theorem installSCEPPayload_reuses_reference (w : World) (profileID : string)
  (pl : SCEPPayload) (s : State) (key : PrivateKey) (tmpl : CertificateRequest)
  (csr : bytes) (uuid : string) :
  let plc := PayloadContent pl in
  let size := if 0 <? KeySize plc then KeySize plc else 1024 in
  let rk := refKey profileID (scep_Payload pl) "keychain_identity" in
  (KeyType plc = "" \/ KeyType plc = "RSA") ->
  rsa_GenerateKey w (length (trace s)) size = inl key ->
  csrTemplate (asn1_Marshal w) pl (device s) = inl tmpl ->
  x509util_CreateCertificateRequest w (length (trace s) + 1) tmpl key = inl csr ->
  bolt_tx w (length (trace s) + 2) = None ->
  payload_refs s !! rk = Some uuid ->
  exists s',
    installSCEPPayload w profileID pl s = (Val (uuid, None), s')
    /\ trace s'
       = (trace s ++ [EvGenerateKey size; EvCreateCertificateRequest; EvRefLoad rk])%list
    /\ keychain s' = keychain s
    /\ payload_refs s' = payload_refs s
    /\ profiles s' = profiles s
    /\ device s' = device s.
Proof.
  intros plc size rk Hty Hkey Htmpl Hcsr Htx Hsome.
  eexists. split.
  - rewrite (installSCEPPayload_reads_reference w profileID pl s key tmpl csr
               Hty Hkey Htmpl Hcsr Htx).
    fold rk. unfold BucketGetString. rewrite Hsome. reflexivity.
  - repeat split.
Qed.

Lemma installSCEPPayload_reuses_reference_witness :
  exists s',
    installSCEPPayload (Sample.okWorld Sample.scepProfile) "prof.id" Sample.scep1
      Sample.stIssued = (Val ("ID-1", None), s')
    /\ trace s'
       = [EvGenerateKey 2048; EvCreateCertificateRequest; EvRefLoad Sample.refKey1]
    /\ keychain s' = Sample.keychain1
    /\ payload_refs s' = payload_refs Sample.stIssued
    /\ profiles s' = ∅
    /\ device s' = Sample.dev0.
Proof.
  eapply (installSCEPPayload_reuses_reference (Sample.okWorld Sample.scepProfile)
            "prof.id" Sample.scep1 Sample.stIssued).
  - right. reflexivity.
  - reflexivity.
  - reflexivity.
  - reflexivity.
  - reflexivity.
  - reflexivity.
Defined.

(** The items and the state that the enrollment path of
    [installSCEPPayload] builds from the three generated UUIDs. *)
Lemma installSCEPPayload_enrollment_run (w : World) (profileID : string)
  (pl : SCEPPayload) (s : State) (key : PrivateKey) (tmpl : CertificateRequest)
  (csr : bytes) (cert : Certificate) (e0 : error) :
  let plc := PayloadContent pl in
  let size := if 0 <? KeySize plc then KeySize plc else 1024 in
  let rk := refKey profileID (scep_Payload pl) "keychain_identity" in
  let n := length (trace s) in
  let u1 := uuid_NewString w (n + 4) in
  let u2 := uuid_NewString w (n + 6) in
  let u3 := uuid_NewString w (n + 8) in
  let kciKey := mkKeychainItem u1 ClassKey (Some key) None "" "" in
  let kciCert := mkKeychainItem u2 ClassCertificate None (Some cert) "" "" in
  let kciID := mkKeychainItem u3 ClassIdentity None None u1 u2 in
  (KeyType plc = "" \/ KeyType plc = "RSA") ->
  rsa_GenerateKey w n size = inl key ->
  csrTemplate (asn1_Marshal w) pl (device s) = inl tmpl ->
  x509util_CreateCertificateRequest w (n + 1) tmpl key = inl csr ->
  bolt_tx w (n + 2) = Some e0 ->
  scep_PKCSReq w (n + 3) csr (URL plc) (Challenge plc) (Name plc) (CAFingerprint plc)
    = inl cert ->
  bolt_tx w (n + 5) = None ->
  bolt_tx w (n + 7) = None ->
  bolt_tx w (n + 9) = None ->
  bolt_tx w (n + 10) = None ->
  u3 <> "" ->
  installSCEPPayload w profileID pl s
  = (Val (u3, None),
     set_payload_refs (<[rk := u3]> (payload_refs s))
       (set_keychain
          (<[u3 := kciID]> (<[u2 := kciCert]> (<[u1 := kciKey]> (keychain s))))
          (set_trace
             (trace s ++
              [EvGenerateKey size; EvCreateCertificateRequest; EvRefLoad rk;
               EvSCEPRequest (URL plc); EvNewUUID; EvKeychainSave ClassKey u1;
               EvNewUUID; EvKeychainSave ClassCertificate u2;
               EvNewUUID; EvKeychainSave ClassIdentity u3; EvRefSave rk u3])
             s))).
Proof.
  intros plc size rk n u1 u2 u3 kciKey kciCert kciID
    Hty Hkey Htmpl Hcsr Htx Hscep Hs1 Hs2 Hs3 Hs4 Hu3.
  unfold installSCEPPayload.
  rewrite (bind_val _ _ _ _ _ (keyFrom_run w pl s Hty)).
  fold plc size n. rewrite Hkey.
  unfold gets at 1. unfold bind at 1.
  rewrite (bind_val _ _ _ _ _ (csrFrom_run w pl _ key tmpl _ Htmpl)).
  cbn [trace set_trace]. rewrite length_snoc. fold n. rewrite Hcsr.
  rewrite (bind_val _ _ _ _ _ (loadPayloadRefString_run w _ _ _ _)).
  cbn [trace set_trace]. rewrite !length_snoc. fold n.
  replace (n + 1 + 1)%nat with (n + 2)%nat by lia. rewrite Htx.
  rewrite (bind_val _ _ _ _ _ (scepNewPKCSReq_run w _ _ _ _ _ _)).
  cbn [trace set_trace]. rewrite !length_snoc. fold n.
  replace (n + 1 + 1 + 1)%nat with (n + 3)%nat by lia. fold plc. rewrite Hscep.
  rewrite (bind_val _ _ _ _ _ (NewKeychainItem_run w _ _)).
  cbn [trace set_trace kci_UUID kci_Class kci_Key kci_Certificate kci_IdentityKeyUUID
       kci_IdentityCertificateUUID].
  rewrite !length_snoc. fold n.
  replace (n + 1 + 1 + 1 + 1)%nat with (n + 4)%nat by lia. fold u1.
  unfold bind at 1. rewrite KeychainItem_Save_run.
  cbn [trace set_trace kci_UUID kci_Class]. rewrite !length_snoc. fold n.
  replace (n + 1 + 1 + 1 + 1 + 1)%nat with (n + 5)%nat by lia. rewrite Hs1.
  rewrite (bind_val _ _ _ _ _ (NewKeychainItem_run w _ _)).
  cbn [trace set_trace set_keychain kci_UUID kci_Class kci_Key kci_Certificate
       kci_IdentityKeyUUID kci_IdentityCertificateUUID].
  rewrite !length_snoc. fold n.
  replace (n + 1 + 1 + 1 + 1 + 1 + 1)%nat with (n + 6)%nat by lia. fold u2.
  unfold bind at 1. rewrite KeychainItem_Save_run.
  cbn [trace set_trace set_keychain kci_UUID kci_Class]. rewrite !length_snoc. fold n.
  replace (n + 1 + 1 + 1 + 1 + 1 + 1 + 1)%nat with (n + 7)%nat by lia. rewrite Hs2.
  rewrite (bind_val _ _ _ _ _ (NewKeychainItem_run w _ _)).
  cbn [trace set_trace set_keychain kci_UUID kci_Class kci_Key kci_Certificate
       kci_IdentityKeyUUID kci_IdentityCertificateUUID].
  rewrite !length_snoc. fold n.
  replace (n + 1 + 1 + 1 + 1 + 1 + 1 + 1 + 1)%nat with (n + 8)%nat by lia. fold u3.
  unfold bind at 1. rewrite KeychainItem_Save_run.
  cbn [trace set_trace set_keychain kci_UUID kci_Class]. rewrite !length_snoc. fold n.
  replace (n + 1 + 1 + 1 + 1 + 1 + 1 + 1 + 1 + 1)%nat with (n + 9)%nat by lia.
  rewrite Hs3.
  unfold bind at 1. rewrite (savePayloadRefString_run w _ _ _ _ _ Hu3).
  cbn [trace set_trace set_keychain]. rewrite !length_snoc. fold n.
  replace (n + 1 + 1 + 1 + 1 + 1 + 1 + 1 + 1 + 1 + 1)%nat with (n + 10)%nat by lia.
  rewrite Hs4. fold rk.
  unfold ret. cbn. rewrite <- !app_assoc. reflexivity.
Qed.

(** X12. When the read of the stored reference fails,
    [installSCEPPayload] enrols: with a key, a request and a certificate
    from the SCEP server, every save succeeding and the three generated
    UUIDs distinct and the last not empty, it returns the UUID of a new
    identity item. The keychain then holds that item, the key item and
    the certificate item it refers to, carrying the generated key and
    the issued certificate; the reference of the payload names the
    identity; every other keychain item, the profile store and the
    device are what they were. *)
Theorem installSCEPPayload_enrollment_creates_identity (w : World)
  (profileID : string) (pl : SCEPPayload) (s : State) (key : PrivateKey)
  (tmpl : CertificateRequest) (csr : bytes) (cert : Certificate) (e0 : error) :
  let plc := PayloadContent pl in
  let size := if 0 <? KeySize plc then KeySize plc else 1024 in
  let rk := refKey profileID (scep_Payload pl) "keychain_identity" in
  let n := length (trace s) in
  let u1 := uuid_NewString w (n + 4) in
  let u2 := uuid_NewString w (n + 6) in
  let u3 := uuid_NewString w (n + 8) in
  (KeyType plc = "" \/ KeyType plc = "RSA") ->
  rsa_GenerateKey w n size = inl key ->
  csrTemplate (asn1_Marshal w) pl (device s) = inl tmpl ->
  x509util_CreateCertificateRequest w (n + 1) tmpl key = inl csr ->
  bolt_tx w (n + 2) = Some e0 ->
  scep_PKCSReq w (n + 3) csr (URL plc) (Challenge plc) (Name plc) (CAFingerprint plc)
    = inl cert ->
  bolt_tx w (n + 5) = None ->
  bolt_tx w (n + 7) = None ->
  bolt_tx w (n + 9) = None ->
  bolt_tx w (n + 10) = None ->
  u3 <> "" -> u1 <> u2 -> u1 <> u3 -> u2 <> u3 ->
  exists s',
    installSCEPPayload w profileID pl s = (Val (u3, None), s')
    /\ payload_refs s' !! rk = Some u3
    /\ keychain s' !! u3 = Some (mkKeychainItem u3 ClassIdentity None None u1 u2)
    /\ keychain s' !! u1 = Some (mkKeychainItem u1 ClassKey (Some key) None "" "")
    /\ keychain s' !! u2
       = Some (mkKeychainItem u2 ClassCertificate None (Some cert) "" "")
    /\ (forall k, k <> u1 -> k <> u2 -> k <> u3 -> keychain s' !! k = keychain s !! k)
    /\ profiles s' = profiles s
    /\ device s' = device s.
Proof.
  intros plc size rk n u1 u2 u3 Hty Hkey Htmpl Hcsr Htx Hscep Hs1 Hs2 Hs3 Hs4
    Hu3 H12 H13 H23.
  eexists. split.
  - exact (installSCEPPayload_enrollment_run w profileID pl s key tmpl csr cert e0
             Hty Hkey Htmpl Hcsr Htx Hscep Hs1 Hs2 Hs3 Hs4 Hu3).
  - cbn [payload_refs keychain profiles device set_payload_refs set_keychain set_trace].
    fold n u1 u2 u3 rk.
    split; [apply lookup_insert_eq|].
    split; [apply lookup_insert_eq|].
    split.
    { rewrite lookup_insert_ne by congruence.
      rewrite lookup_insert_ne by congruence. apply lookup_insert_eq. }
    split.
    { rewrite lookup_insert_ne by congruence. apply lookup_insert_eq. }
    split; [|split; reflexivity].
    intros k Hk1 Hk2 Hk3.
    rewrite !lookup_insert_ne by congruence. reflexivity.
Qed.

Lemma installSCEPPayload_enrollment_creates_identity_witness :
  exists s',
    installSCEPPayload (Sample.faultyWorld Sample.scepProfile [2%nat]) "prof.id"
      Sample.scep1 Sample.st0 = (Val ("uuid-I", None), s')
    /\ payload_refs s' !! Sample.refKey1 = Some "uuid-I"
    /\ keychain s' !! "uuid-I"
       = Some (mkKeychainItem "uuid-I" ClassIdentity None None "uuid-E" "uuid-G")
    /\ keychain s' !! "uuid-E"
       = Some (mkKeychainItem "uuid-E" ClassKey (Some (mkPrivateKey 2048 0)) None "" "")
    /\ keychain s' !! "uuid-G"
       = Some (mkKeychainItem "uuid-G" ClassCertificate None (Some (mkCertificate 3))
                 "" "")
    /\ (forall k, k <> "uuid-E" -> k <> "uuid-G" -> k <> "uuid-I" ->
                  keychain s' !! k = keychain Sample.st0 !! k)
    /\ profiles s' = ∅
    /\ device s' = Sample.dev0.
Proof.
  eapply (installSCEPPayload_enrollment_creates_identity
            (Sample.faultyWorld Sample.scepProfile [2%nat]) "prof.id" Sample.scep1
            Sample.st0).
  - right. reflexivity.
  - reflexivity.
  - reflexivity.
  - reflexivity.
  - reflexivity.
  - reflexivity.
  - reflexivity.
  - reflexivity.
  - reflexivity.
  - reflexivity.
  - discriminate.
  - discriminate.
  - discriminate.
  - discriminate.
Defined.

(** ** Results and errors *)

Section Returns.
Context {A : Type} (P : A -> Prop).

Lemma returns_ret (a : A) : P a -> returns P (ret a).
Proof. intros H s a' s' [= <- <-]. exact H. Qed.

Lemma returns_bind {B : Type} (m : M B) (k : B -> M A) :
  (forall b, returns P (k b)) -> returns P (bind m k).
Proof.
  intros Hk s a s' H.
  apply bind_inv in H as [(b & s1 & _ & H) | (msg & _ & [=])].
  exact (Hk b s1 a s' H).
Qed.

Lemma returns_panic (msg : string) : returns P (@panic A msg).
Proof. intros s a s' [=]. Qed.
End Returns.

Ltac returns_step :=
  match goal with
  | |- returns _ (bind _ _) => apply returns_bind; intros ?
  | |- returns _ (ret _) => apply returns_ret
  | |- returns _ (panic _) => apply returns_panic
  | |- returns _ (match ?x with _ => _ end) => destruct x
  end.

(** X13. Whenever [installSCEPPayload] returns an error, the result it
    returns with it is the empty string: no identity UUID leaves the
    function on a failed install, also when items were already saved. *)
Theorem installSCEPPayload_error_has_no_result (w : World) (profileID : string)
  (pl : SCEPPayload) (s s' : State) (r : string) (e : error) :
  installSCEPPayload w profileID pl s = (Val (r, Some e), s') -> r = "".
Proof.
  intros H.
  assert (Hret : returns (fun x : string * option error =>
                            snd x <> None -> fst x = "")
                   (installSCEPPayload w profileID pl)).
  { unfold installSCEPPayload. repeat returns_step; cbn [fst snd]; congruence. }
  apply (Hret _ _ _ H). discriminate.
Qed.

Lemma installSCEPPayload_error_has_no_result_witness :
  exists r e s',
    installSCEPPayload Cases.saveFailsWorld "prof.id" Sample.scep1 Sample.st0
    = (Val (r, Some e), s')
    /\ r = "".
Proof.
  exists "", (errors_New "database not open"), Cases.stSaveFailed.
  split; [exact installSCEPPayload_save_failure_run|].
  exact (installSCEPPayload_error_has_no_result Cases.saveFailsWorld "prof.id"
           Sample.scep1 Sample.st0 Cases.stSaveFailed ""
           (errors_New "database not open") installSCEPPayload_save_failure_run).
Defined.

(** ** Finding, classifying and ordering records *)

(** X4. [findpayloadAndResultByUUID] returns the first record, in the
    order of the list, that has common fields with the given UUID: no
    record before it has that UUID, and records without common fields are
    passed over. It returns nothing exactly when no record has the
    UUID. *)
Theorem findpayloadAndResultByUUID_first (plds : list payloadAndResult)
  (uuid : string) :
  (forall j, findpayloadAndResultByUUID plds uuid = Some j ->
     (exists v, plds !! j = Some v /\ hasUUID uuid v)
     /\ (forall k v, (k < j)%nat -> plds !! k = Some v -> ~ hasUUID uuid v))
  /\ (findpayloadAndResultByUUID plds uuid = None <->
      forall k v, plds !! k = Some v -> ~ hasUUID uuid v).
Proof.
  unfold findpayloadAndResultByUUID.
  pose proof (findFrom_spec plds uuid 0%nat) as H.
  destruct (findFrom 0 plds uuid) as [j|].
  - destruct H as (_ & Hfound & Hbefore). rewrite Nat.sub_0_r in *. split.
    + intros j' [= <-]. split; [exact Hfound | exact Hbefore].
    + split; [discriminate|]. intros Hnone.
      destruct Hfound as (v & Hv & Hu). exfalso. exact (Hnone j v Hv Hu).
  - split; [discriminate|]. split; [intros _; exact H | reflexivity].
Qed.

Lemma findpayloadAndResultByUUID_first_witness :
  let plds := classifyAndSortProfilePayloads Sample.enrollProfile false in
  (exists v, plds !! 0%nat = Some v /\ hasUUID "SCEP-UUID" v)
  /\ (forall k v, (k < 0)%nat -> plds !! k = Some v -> ~ hasUUID "SCEP-UUID" v).
Proof.
  intros plds.
  destruct (findpayloadAndResultByUUID_first plds "SCEP-UUID") as [Hfound _].
  apply Hfound. reflexivity.
Defined.

Lemma insertStable_flags_sorted_desc (x : payloadAndResult) (l : list payloadAndResult) :
  StronglySorted flagsGe l -> StronglySorted flagsGe (insertStable (lessFlags true) x l).
Proof.
  induction 1 as [|y l Hs IH Hall]; simpl; [repeat constructor|].
  unfold lessFlags at 1.
  destruct (Z.ltb_spec (PayloadRequiresFlags x) (PayloadRequiresFlags y)).
  - constructor; [exact IH|].
    rewrite insertStable_Permutation. constructor; [unfold flagsGe; lia | exact Hall].
  - constructor; [constructor; assumption|].
    constructor; [exact H|].
    eapply Forall_impl; [exact Hall|]. unfold flagsGe. intros z Hz. simpl in *. lia.
Qed.

Lemma classifyAndSort_flags_sorted_desc (p : Profile) :
  StronglySorted flagsGe (classifyAndSortProfilePayloads p true).
Proof.
  unfold classifyAndSortProfilePayloads, sortSliceStable.
  induction (map classify (profile_PayloadContent p)) as [|x l IH]; simpl.
  - constructor.
  - apply insertStable_flags_sorted_desc. exact IH.
Qed.

Lemma insertStable_withFlags_desc (f : Z) (x : payloadAndResult)
  (l : list payloadAndResult) :
  withFlags f (insertStable (lessFlags true) x l) = withFlags f (x :: l).
Proof.
  unfold withFlags. induction l as [|y l IH]; [reflexivity|].
  cbn [insertStable]. unfold lessFlags at 1.
  destruct (Z.ltb_spec (PayloadRequiresFlags x) (PayloadRequiresFlags y)) as [Hlt|Hge];
    [|reflexivity].
  rewrite filter_cons, IH, !filter_cons.
  repeat case_decide; try reflexivity; lia.
Qed.

Lemma classifyAndSort_stable_desc (p : Profile) (f : Z) :
  withFlags f (classifyAndSortProfilePayloads p true)
  = withFlags f (map classify (profile_PayloadContent p)).
Proof.
  unfold classifyAndSortProfilePayloads, sortSliceStable.
  induction (map classify (profile_PayloadContent p)) as [|x l IH]; [reflexivity|].
  cbn [fold_right]. rewrite insertStable_withFlags_desc.
  unfold withFlags in *. rewrite !filter_cons, IH. reflexivity.
Qed.

(** X5. Called with [ascending] set, as [RemoveProfile] does,
    [classifyAndSortProfilePayloads] gives the records of the payloads in
    descending order of their capability flags: the result is a
    permutation of the classified payloads with one record per payload,
    the flags never increase along it, records with equal flags keep
    their document order, and every MDM payload comes before every SCEP
    payload. *)
Theorem classifyAndSort_removal_order (p : Profile) :
  let ordered := classifyAndSortProfilePayloads p true in
  ordered ≡ₚ map classify (profile_PayloadContent p)
  /\ length ordered = length (profile_PayloadContent p)
  /\ (forall i j a b, ordered !! i = Some a -> ordered !! j = Some b -> (i < j)%nat ->
        PayloadRequiresFlags b <= PayloadRequiresFlags a)
  /\ (forall f, withFlags f ordered
                = withFlags f (map classify (profile_PayloadContent p)))
  /\ (forall i j pri prj scep mdm,
        ordered !! i = Some pri -> ordered !! j = Some prj ->
        par_Payload pri = IsMDMPayload mdm -> par_Payload prj = IsSCEPPayload scep ->
        (i < j)%nat).
Proof.
  intros ordered.
  assert (Hperm : ordered ≡ₚ map classify (profile_PayloadContent p))
    by apply sortSliceStable_Permutation.
  split; [exact Hperm|]. split.
  { rewrite Hperm. apply length_map. }
  split.
  { intros i j a b Hi Hj Hlt.
    exact (StronglySorted_lookup_lt _ _ (classifyAndSort_flags_sorted_desc p)
             i j a b Hi Hj Hlt). }
  split.
  { intros f. apply classifyAndSort_stable_desc. }
  intros i j pri prj scep mdm Hi Hj Hm Hs.
  pose proof (classifyAndSort_classified p i pri true Hi) as Hci.
  pose proof (classifyAndSort_classified p j prj true Hj) as Hcj.
  rewrite Hm in Hci. rewrite Hs in Hcj.
  destruct (Nat.lt_trichotomy i j) as [Hlt | [-> | Hgt]]; [exact Hlt | |].
  - unfold ordered in *. rewrite Hi in Hj. injection Hj as <-.
    rewrite Hs in Hm. discriminate.
  - pose proof (StronglySorted_lookup_lt _ _ (classifyAndSort_flags_sorted_desc p)
                  j i prj pri Hj Hi Hgt) as Hle.
    unfold flagsGe in Hle. rewrite Hci, Hcj in Hle. vm_compute in Hle.
    exfalso. apply Hle. reflexivity.
Qed.

Lemma classifyAndSort_removal_order_witness :
  PayloadRequiresFlags (classify (IsSCEPPayload Sample.scep1))
  <= PayloadRequiresFlags (classify (IsMDMPayload Sample.mdm1))
  /\ (0 < 1)%nat.
Proof.
  destruct (classifyAndSort_removal_order Cases.scepFirstProfile)
    as (_ & _ & Hflags & _ & Horder).
  split.
  - apply (Hflags 0%nat 1%nat); [reflexivity | reflexivity | lia].
  - apply (Horder 0%nat 1%nat (classify (IsMDMPayload Sample.mdm1))
             (classify (IsSCEPPayload Sample.scep1)) Sample.scep1 Sample.mdm1);
      reflexivity.
Defined.

(** ** Runs that only read *)

Lemma onlyTrace_refl (s : State) : onlyTrace s s.
Proof. exists (trace s). destruct s; reflexivity. Qed.

Lemma onlyTrace_trans (s1 s2 s3 : State) :
  onlyTrace s1 s2 -> onlyTrace s2 s3 -> onlyTrace s1 s3.
Proof. intros [t1 ->] [t2 ->]. exists t2. reflexivity. Qed.

Lemma onlyTrace_trace (s : State) (t : list Event) : onlyTrace s (set_trace t s).
Proof. exists t. reflexivity. Qed.

Lemma onlyTrace_fields (s s' : State) :
  onlyTrace s s' ->
  device s' = device s /\ mdmClient s' = mdmClient s /\ profiles s' = profiles s
  /\ payload_refs s' = payload_refs s /\ keychain s' = keychain s
  /\ saved s' = saved s.
Proof. intros [t ->]. repeat split. Qed.

Ltac only_trace :=
  first [ exact onlyTrace_refl | exact onlyTrace_trans | exact onlyTrace_trace ].

Lemma onlyTrace_Load (w : World) (id : string) : preserves onlyTrace (Load w id).
Proof.
  apply preserves_Load; only_trace.
Qed.

Lemma onlyTrace_ValidateProfileInstall (w : World) (p : Profile) (fromMDM : bool) :
  preserves onlyTrace (ValidateProfileInstall w p fromMDM).
Proof.
  apply preserves_ValidateProfileInstall; only_trace.
Qed.

Lemma onlyTrace_loadIdentityFromKeychain (w : World) (c : MDMClient) (uuid : string) :
  preserves onlyTrace (loadIdentityFromKeychain w c uuid).
Proof.
  apply preserves_loadIdentityFromKeychain; only_trace.
Qed.

(** ** Validation *)

(** X6. [ValidateProfileInstall] changes nothing but the record of calls.
    A profile without MDM payload is accepted. With one MDM payload and
    not from MDM, it is accepted exactly when the device has no
    enrollment profile. With one MDM payload and from MDM, the enrollment
    profile of the device is loaded: a load error is returned; when the
    loaded profile has no MDM payload the code indexes an empty list and
    panics, because the length it checks is that of the new list;
    otherwise the profile is accepted exactly when the two server URLs
    are equal. *)
Theorem ValidateProfileInstall_outcomes (w : World) (p : Profile) (fromMDM : bool)
  (s : State) :
  (forall o s', ValidateProfileInstall w p fromMDM s = (o, s') -> onlyTrace s s')
  /\ (MDMPayloads p = [] -> ValidateProfileInstall w p fromMDM s = (Val None, s))
  /\ (forall mdmPld,
        MDMPayloads p = [mdmPld] -> fromMDM = false ->
        ValidateProfileInstall w p fromMDM s
        = (Val (if String.eqb (MDMProfileIdentifier (device s)) "" then None
                else Some (errors_New "device already enrolled, please unenroll first")),
           s))
  /\ (forall mdmPld pOld s1,
        MDMPayloads p = [mdmPld] -> fromMDM = true ->
        Load w (MDMProfileIdentifier (device s)) s = (Val (inl pOld), s1) ->
        ValidateProfileInstall w p fromMDM s
        = match MDMPayloads pOld with
          | [] => (Panicked "index out of range", s1)
          | mdmPldOld :: _ =>
              (Val (if String.eqb (ServerURL mdmPld) (ServerURL mdmPldOld) then None
                    else Some (errors_New "MDM payload must contain same URL")),
               s1)
          end)
  /\ (forall mdmPld e s1,
        MDMPayloads p = [mdmPld] -> fromMDM = true ->
        Load w (MDMProfileIdentifier (device s)) s = (Val (inr e), s1) ->
        ValidateProfileInstall w p fromMDM s = (Val (Some e), s1)).
Proof.
  split; [intros o s' H; exact (onlyTrace_ValidateProfileInstall w p fromMDM _ _ _ H)|].
  unfold ValidateProfileInstall. split; [intros ->; reflexivity|]. split; [|split].
  - intros mdmPld -> ->. unfold gets, bind. cbn [negb andb].
    destruct (String.eqb (MDMProfileIdentifier (device s)) ""); reflexivity.
  - intros mdmPld pOld s1 -> -> Hload.
    unfold gets at 1. unfold bind at 1. cbn [negb andb].
    rewrite (bind_val _ _ _ _ _ Hload).
    destruct (MDMPayloads pOld) as [|mdmPldOld rest]; [reflexivity|].
    destruct (String.eqb (ServerURL mdmPld) (ServerURL mdmPldOld)); reflexivity.
  - intros mdmPld e s1 -> -> Hload.
    unfold gets at 1. unfold bind at 1. cbn [negb andb].
    rewrite (bind_val _ _ _ _ _ Hload). reflexivity.
Qed.

Lemma ValidateProfileInstall_outcomes_witness :
  ValidateProfileInstall (Sample.okWorld Sample.enrollProfile) Sample.enrollProfile
    false Sample.st0 = (Val None, Sample.st0)
  /\ ValidateProfileInstall (Sample.okWorld Sample.enrollProfile) Sample.enrollProfile
       true Cases.stManaged
     = (Val None,
        snd (Load (Sample.okWorld Sample.enrollProfile) "prof.id" Cases.stManaged))
  /\ ValidateProfileInstall (Sample.okWorld Sample.scepProfile) Sample.enrollProfile
       true Cases.stManaged
     = (Panicked "index out of range",
        snd (Load (Sample.okWorld Sample.scepProfile) "prof.id" Cases.stManaged)).
Proof.
  split; [|split].
  - destruct (ValidateProfileInstall_outcomes (Sample.okWorld Sample.enrollProfile)
                Sample.enrollProfile false Sample.st0) as (_ & _ & Hlocal & _).
    apply (Hlocal Sample.mdm1); reflexivity.
  - destruct (ValidateProfileInstall_outcomes (Sample.okWorld Sample.enrollProfile)
                Sample.enrollProfile true Cases.stManaged) as (_ & _ & _ & Hmdm & _).
    apply (Hmdm Sample.mdm1 Sample.enrollProfile); [reflexivity | reflexivity |].
    vm_compute. reflexivity.
  - destruct (ValidateProfileInstall_outcomes (Sample.okWorld Sample.scepProfile)
                Sample.enrollProfile true Cases.stManaged) as (_ & _ & _ & Hmdm & _).
    apply (Hmdm Sample.mdm1 Sample.scepProfile); [reflexivity | reflexivity |].
    vm_compute. reflexivity.
Defined.

(** ** The cached MDM client *)

(** X19. [Device.MDMClient] builds the client at most once: after a call
    that returns, the device holds the client that was returned, also
    when building it failed, and the next call returns that client with
    no error and changes nothing. A device that already holds a client
    gets it back unchanged and with no error. *)
Theorem Device_MDMClient_caches (w : World) (s s' : State) (c : MDMClient)
  (err : option error) :
  Device_MDMClient w s = (Val (c, err), s') ->
  mdmClient s' = Some c
  /\ Device_MDMClient w s' = (Val (c, None), s')
  /\ (forall c0, mdmClient s = Some c0 -> c = c0 /\ err = None /\ s' = s).
Proof.
  unfold Device_MDMClient. unfold gets at 1. unfold bind at 1.
  destruct (mdmClient s) as [c0|] eqn:Hcache.
  - intros [= <- <- <-]. split; [exact Hcache|]. split.
    + unfold gets, bind. rewrite Hcache. reflexivity.
    + intros c1 [= <-]. auto.
  - intros H.
    apply bind_inv in H as [([c1 err1] & s1 & _ & H) | (msg & _ & [=])].
    unfold modify at 1, bind at 1, ret in H. injection H as <- <- <-.
    split; [reflexivity|]. split; [reflexivity|]. discriminate.
Qed.

Lemma Device_MDMClient_caches_witness :
  mdmClient Cases.stClientCached = Some (mkMDMClient None None None)
  /\ Device_MDMClient (Sample.okWorld Sample.scepProfile) Cases.stClientCached
     = (Val (mkMDMClient None None None, None), Cases.stClientCached).
Proof.
  destruct (Device_MDMClient_caches (Sample.okWorld Sample.scepProfile)
              Cases.stDangling Cases.stClientCached (mkMDMClient None None None)
              (Some (errors_New "keychain item not found"))
              Device_MDMClient_sample_run) as (Hheld & Hagain & _).
  split; [exact Hheld | exact Hagain].
Defined.

(** ** What no pass changes *)

Section Invariant.
Variable R : State -> State -> Prop.
Variable w : World.
Hypothesis R_refl : forall s, R s s.
Hypothesis R_trans : forall s1 s2 s3, R s1 s2 -> R s2 s3 -> R s1 s3.
Hypothesis R_trace : forall s t, R s (set_trace t s).
Hypothesis R_MDMProfileIdentifier :
  forall s v, R s (set_device (set_MDMProfileIdentifier v (device s)) s).
Hypothesis R_MDMIdentityKeychainUUID :
  forall s v, R s (set_device (set_MDMIdentityKeychainUUID v (device s)) s).
Hypothesis R_mdmClient : forall s c, R s (set_mdmClient c s).
Hypothesis R_saved : forall s d, R s (set_saved d s).
Hypothesis R_keychain : forall s m, R s (set_keychain m s).
Hypothesis R_payload_refs : forall s m, R s (set_payload_refs m s).
Hypothesis R_profiles : forall s m, R s (set_profiles m s).

Ltac keeps_step :=
  match goal with
  | |- preserves _ (bind _ _) => apply (preserves_bind R R_trans); [|intros ?]
  | |- preserves _ (ret _) => apply (preserves_ret R R_refl)
  | |- preserves _ (panic _) => apply (preserves_panic R R_refl)
  | |- preserves _ (gets _) => apply (preserves_gets R R_refl)
  | |- preserves _ (emit _) => apply (preserves_emit R R_trace)
  | |- preserves _ (modify _) => apply (preserves_modify R); intros ?; auto
  | |- preserves _ (match ?x with _ => _ end) => destruct x
  | |- preserves _ _ => solve [auto]
  end.
Ltac keeps := repeat keeps_step.

Lemma keeps_transaction (e : Event) : preserves R (transaction w e).
Proof. unfold transaction. keeps. Qed.
#[local] Hint Resolve keeps_transaction : core.

Lemma keeps_Device_Save : preserves R Device_Save.
Proof. unfold Device_Save. keeps. Qed.
#[local] Hint Resolve keeps_Device_Save : core.

Lemma keeps_Load (id : string) : preserves R (Load w id).
Proof. unfold Load. keeps. Qed.
#[local] Hint Resolve keeps_Load : core.

Lemma keeps_LoadKeychainItem (uuid : string) : preserves R (LoadKeychainItem w uuid).
Proof. unfold LoadKeychainItem. keeps. Qed.
#[local] Hint Resolve keeps_LoadKeychainItem : core.

Lemma keeps_NewKeychainItem (c : KeychainClass) : preserves R (NewKeychainItem w c).
Proof. unfold NewKeychainItem. keeps. Qed.
#[local] Hint Resolve keeps_NewKeychainItem : core.

Lemma keeps_KeychainItem_Save (kci : KeychainItem) :
  preserves R (KeychainItem_Save w kci).
Proof. unfold KeychainItem_Save. keeps. Qed.
#[local] Hint Resolve keeps_KeychainItem_Save : core.

Lemma keeps_KeychainItem_Delete (kci : KeychainItem) :
  preserves R (KeychainItem_Delete w kci).
Proof. unfold KeychainItem_Delete. keeps. Qed.
#[local] Hint Resolve keeps_KeychainItem_Delete : core.

Lemma keeps_installSCEPPayload (profileID : string) (pl : SCEPPayload) :
  preserves R (installSCEPPayload w profileID pl).
Proof.
  unfold installSCEPPayload, keyFromSCEPProfilePayload, csrFromSCEPProfilePayload,
    loadPayloadRefString, scepNewPKCSReq, savePayloadRefString.
  keeps.
Qed.
#[local] Hint Resolve keeps_installSCEPPayload : core.

Lemma keeps_installMDMPayload (mdm : MDMPayload) (profileID : string) :
  preserves R (installMDMPayload w mdm profileID).
Proof.
  unfold installMDMPayload, newMDMClientUsingPayload, NewMDMClient2, enroll, enroll2,
    loadIdentityFromKeychain, authenticate, tokenUpdate.
  keeps.
Qed.
#[local] Hint Resolve keeps_installMDMPayload : core.

Lemma keeps_installPayloads (p : Profile) (n : nat) :
  forall i plds, preserves R (installPayloads w p n i plds).
Proof. induction n as [|n IH]; intros i plds; cbn [installPayloads]; keeps. Qed.
#[local] Hint Resolve keeps_installPayloads : core.

Lemma keeps_loadOrDeleteMDMIdentity (uuid : string) (del : bool) :
  preserves R (loadOrDeleteMDMIdentity w uuid del).
Proof. unfold loadOrDeleteMDMIdentity. keeps. Qed.
#[local] Hint Resolve keeps_loadOrDeleteMDMIdentity : core.

Lemma keeps_removeSCEPPayload (profileID : string) (pl : SCEPPayload) :
  preserves R (removeSCEPPayload w profileID pl).
Proof. unfold removeSCEPPayload, loadPayloadRefString, removePayloadRefString. keeps. Qed.
#[local] Hint Resolve keeps_removeSCEPPayload : core.

Lemma keeps_removeMDMPayload : preserves R (removeMDMPayload w).
Proof. unfold removeMDMPayload, Device_MDMClient, NewMDMClient, unenroll. keeps. Qed.
#[local] Hint Resolve keeps_removeMDMPayload : core.

Lemma keeps_removePayloads (profileID : string) (plds : list payloadAndResult) :
  preserves R (removePayloads w profileID plds).
Proof. induction plds as [|pr plds IH]; cbn [removePayloads]; keeps. Qed.
#[local] Hint Resolve keeps_removePayloads : core.

Lemma keeps_RemoveProfile (profileID : string) :
  preserves R (RemoveProfile w profileID).
Proof. unfold RemoveProfile, removeProfile. keeps. Qed.
#[local] Hint Resolve keeps_RemoveProfile : core.

Lemma keeps_installProfile (pb : bytes) (fromMDM : bool) :
  preserves R (installProfile w pb fromMDM).
Proof.
  unfold installProfile, ValidateProfileInstall, ListUUIDs, persistProfile. keeps.
Qed.

Lemma keeps_saveMDMIdentity (c : MDMClient) : preserves R (saveMDMIdentity w c).
Proof. unfold saveMDMIdentity. keeps. Qed.

End Invariant.

(** X20. No run of [installProfile], [RemoveProfile] or
    [saveMDMIdentity], whatever it returns and wherever it stops, changes
    the UDID, the serial number or the computer name of the device. *)
Theorem device_identity_is_kept (w : World) (s s' : State) :
  (forall pb fromMDM o, installProfile w pb fromMDM s = (o, s') -> sameIdentity s s')
  /\ (forall profileID o, RemoveProfile w profileID s = (o, s') -> sameIdentity s s')
  /\ (forall c o, saveMDMIdentity w c s = (o, s') -> sameIdentity s s').
Proof.
  assert (Hrefl : forall s, sameIdentity s s) by (intros; repeat split).
  assert (Htrans : forall s1 s2 s3,
            sameIdentity s1 s2 -> sameIdentity s2 s3 -> sameIdentity s1 s3).
  { intros s1 s2 s3 (H1 & H2 & H3) (H4 & H5 & H6). repeat split; congruence. }
  split; [|split].
  - intros pb fromMDM o H.
    eapply (keeps_installProfile sameIdentity w); try exact H;
      first [exact Hrefl | exact Htrans | intros; repeat split].
  - intros profileID o H.
    eapply (keeps_RemoveProfile sameIdentity w); try exact H;
      first [exact Hrefl | exact Htrans | intros; repeat split].
  - intros c o H.
    eapply (keeps_saveMDMIdentity sameIdentity w); try exact H;
      first [exact Hrefl | exact Htrans | intros; repeat split].
Qed.

Lemma device_identity_is_kept_witness :
  sameIdentity Sample.st0 Sample.stOrphaned
  /\ sameIdentity Sample.stInstalled Cases.stProfileRemoved.
Proof.
  split.
  - destruct (device_identity_is_kept (Sample.refusingWorld Sample.enrollProfile [3%nat])
                Sample.st0 Sample.stOrphaned) as (Hinstall & _).
    exact (Hinstall _ _ _ installProfile_sample_failure).
  - destruct (device_identity_is_kept (Sample.okWorld Sample.scepProfile)
                Sample.stInstalled Cases.stProfileRemoved) as (_ & Hremove & _).
    exact (Hremove _ _ RemoveProfile_removes_sample_run).
Defined.

(** ** Removing a profile *)

Lemma nothingAdded_refl (s : State) : nothingAdded s s.
Proof. repeat split; auto. Qed.

Lemma nothingAdded_trans (s1 s2 s3 : State) :
  nothingAdded s1 s2 -> nothingAdded s2 s3 -> nothingAdded s1 s3.
Proof.
  intros (Hk1 & Hr1 & Hp1) (Hk2 & Hr2 & Hp2). repeat split; eauto.
Qed.

Lemma nothingAdded_RemoveProfile (w : World) (profileID : string) :
  preserves nothingAdded (RemoveProfile w profileID).
Proof.
  apply preserves_RemoveProfile;
    first [ exact nothingAdded_refl | exact nothingAdded_trans | idtac ];
    intros s x; unfold nothingAdded;
    cbn [keychain payload_refs profiles set_trace set_device set_mdmClient
         set_saved set_keychain set_payload_refs set_profiles];
    repeat split; auto; intros k v Hk;
    apply lookup_delete_Some in Hk as [_ Hk]; exact Hk.
Qed.

Lemma sameIdentity_removePayloads (w : World) (profileID : string)
  (plds : list payloadAndResult) :
  preserves sameIdentity (removePayloads w profileID plds).
Proof.
  apply (keeps_removePayloads sameIdentity w);
    first [ (intros ? ? ? (H1 & H2 & H3) (H4 & H5 & H6); repeat split; congruence)
          | intros; repeat split ].
Qed.

(** X17. [RemoveProfile] never adds a keychain item, a payload reference
    or a profile document. When the profile cannot be loaded it returns
    the load error and changes nothing but the record of calls. When it
    returns no error, the profile was loaded and no document is stored
    any more under the identifier the loaded profile declares. *)
Theorem RemoveProfile_best_effort (w : World) (profileID : string) (s : State) :
  (forall o s', RemoveProfile w profileID s = (o, s') -> nothingAdded s s')
  /\ (forall e s1,
        Load w profileID s = (Val (inr e), s1) ->
        RemoveProfile w profileID s = (Val (Some e), s1) /\ onlyTrace s s1)
  /\ (forall s',
        RemoveProfile w profileID s = (Val None, s') ->
        exists p s1,
          Load w profileID s = (Val (inl p), s1)
          /\ profiles s' !! profileKey (UDID (device s)) (profile_PayloadIdentifier p)
             = None).
Proof.
  split; [intros o s' H; exact (nothingAdded_RemoveProfile w profileID _ _ _ H)|].
  split.
  - intros e s1 Hload. split.
    + unfold RemoveProfile. rewrite (bind_val _ _ _ _ _ Hload). reflexivity.
    + exact (onlyTrace_Load w profileID _ _ _ Hload).
  - intros s' H. unfold RemoveProfile in H.
    apply bind_inv in H as [(r & s1 & Hload & H) | (msg & _ & [=])].
    destruct r as [p|e]; [|discriminate H].
    exists p, s1. split; [exact Hload|].
    apply bind_inv in H as [(u & s2 & Hloop & H) | (msg & _ & [=])].
    pose proof (onlyTrace_fields _ _ (onlyTrace_Load w profileID _ _ _ Hload))
      as (Hdev1 & _).
    destruct (sameIdentity_removePayloads w _ _ _ _ _ Hloop) as (Hudid & _).
    rewrite removeProfile_run in H.
    destruct (bolt_tx w (length (trace s2))); [discriminate|].
    injection H as <-. cbn [profiles set_profiles set_trace].
    rewrite Hudid, Hdev1. apply lookup_delete_eq.
Qed.

Lemma RemoveProfile_best_effort_witness :
  let w := Sample.okWorld Sample.scepProfile in
  nothingAdded Sample.stInstalled Cases.stProfileRemoved
  /\ (RemoveProfile w "prof.id" Sample.st0
      = (Val (Some (errors_New "missing or zero-length profile: prof.id")),
         snd (Load w "prof.id" Sample.st0))
      /\ onlyTrace Sample.st0 (snd (Load w "prof.id" Sample.st0)))
  /\ (exists p s1,
        Load w "prof.id" Sample.stInstalled = (Val (inl p), s1)
        /\ profiles Cases.stProfileRemoved
             !! profileKey (UDID (device Sample.stInstalled))
                  (profile_PayloadIdentifier p) = None).
Proof.
  intros w. split; [|split].
  - destruct (RemoveProfile_best_effort w "prof.id" Sample.stInstalled) as (Hadd & _).
    exact (Hadd _ _ RemoveProfile_removes_sample_run).
  - destruct (RemoveProfile_best_effort w "prof.id" Sample.st0) as (_ & Hfail & _).
    apply Hfail. vm_compute. reflexivity.
  - destruct (RemoveProfile_best_effort w "prof.id" Sample.stInstalled)
      as (_ & _ & Hdone).
    exact (Hdone _ RemoveProfile_removes_sample_run).
Defined.

(** X18. For a profile of one SCEP payload and one MDM payload, in either
    document order, the removal order is MDM first: the loop of
    [RemoveProfile] calls [removeMDMPayload], ignores what it returns,
    and then calls [removeSCEPPayload], so the device unenrols while the
    identity is still in the keychain. *)
Theorem RemoveProfile_unenrolls_first (w : World) (p : Profile)
  (scep : SCEPPayload) (mdm : MDMPayload) :
  profile_PayloadContent p = [IsSCEPPayload scep; IsMDMPayload mdm]
  \/ profile_PayloadContent p = [IsMDMPayload mdm; IsSCEPPayload scep] ->
  classifyAndSortProfilePayloads p true
  = [classify (IsMDMPayload mdm); classify (IsSCEPPayload scep)]
  /\ (forall profileID s,
        removePayloads w profileID (classifyAndSortProfilePayloads p true) s
        = bind (removeMDMPayload w)
            (fun _ => bind (removeSCEPPayload w profileID scep) (fun _ => ret tt)) s).
Proof.
  intros Hcontent.
  assert (Hord : classifyAndSortProfilePayloads p true
                 = [classify (IsMDMPayload mdm); classify (IsSCEPPayload scep)]).
  { destruct Hcontent as [H | H]; unfold classifyAndSortProfilePayloads; rewrite H;
      reflexivity. }
  split; [exact Hord|]. intros profileID s. rewrite Hord. reflexivity.
Qed.

Lemma RemoveProfile_unenrolls_first_witness :
  classifyAndSortProfilePayloads Cases.scepFirstProfile true
  = [classify (IsMDMPayload Sample.mdm1); classify (IsSCEPPayload Sample.scep1)]
  /\ (forall profileID s,
        removePayloads (Sample.okWorld Cases.scepFirstProfile) profileID
          (classifyAndSortProfilePayloads Cases.scepFirstProfile true) s
        = bind (removeMDMPayload (Sample.okWorld Cases.scepFirstProfile))
            (fun _ => bind (removeSCEPPayload (Sample.okWorld Cases.scepFirstProfile)
                              profileID Sample.scep1)
                        (fun _ => ret tt)) s).
Proof.
  apply (RemoveProfile_unenrolls_first (Sample.okWorld Cases.scepFirstProfile)
           Cases.scepFirstProfile Sample.scep1 Sample.mdm1).
  left. reflexivity.
Defined.

(** ** Unrecognised payloads *)

Lemma installPayloads_others (w : World) (p : Profile) (plds : list payloadAndResult) :
  Forall (fun pr => exists common, par_Payload pr = IsOtherPayload common) plds ->
  forall n i s,
  installPayloads w p n i plds s
  = if forallb (fun pr => bool_decide (is_Some (CommonPayload pr)))
         (take n (drop i plds))
    then (Val None, s)
    else (Panicked "nil pointer dereference", s).
Proof.
  intros Hall. induction n as [|n IH]; intros i s; [reflexivity|].
  cbn [installPayloads].
  destruct (plds !! i) as [pr|] eqn:Hi.
  - rewrite (drop_S _ _ _ Hi). cbn [take forallb].
    rewrite Forall_lookup in Hall. destruct (Hall i pr Hi) as [common ->].
    destruct (CommonPayload pr) as [c|]; [|reflexivity].
    cbn [andb]. rewrite bool_decide_eq_true_2 by eauto. apply IH.
  - apply lookup_ge_None in Hi. rewrite drop_ge by exact Hi. reflexivity.
Qed.

Lemma removePayloads_others (w : World) (profileID : string)
  (plds : list payloadAndResult) :
  Forall (fun pr => exists common, par_Payload pr = IsOtherPayload common) plds ->
  forall s,
  removePayloads w profileID plds s
  = if forallb (fun pr => bool_decide (is_Some (CommonPayload pr))) plds
    then (Val tt, s)
    else (Panicked "nil pointer dereference", s).
Proof.
  induction 1 as [|pr plds [common Hp] _ IH]; intros s; [reflexivity|].
  cbn [removePayloads forallb]. rewrite Hp.
  destruct (CommonPayload pr) as [c|]; [|reflexivity].
  rewrite bool_decide_eq_true_2 by eauto. apply IH.
Qed.

Lemma classifyAndSort_others (p : Profile) (asc : bool) :
  Forall (fun e => exists common, e = IsOtherPayload common) (profile_PayloadContent p) ->
  Forall (fun pr => exists common, par_Payload pr = IsOtherPayload common)
    (classifyAndSortProfilePayloads p asc)
  /\ (forallb (fun pr => bool_decide (is_Some (CommonPayload pr)))
        (classifyAndSortProfilePayloads p asc) = true
      <-> Forall (fun e => exists c, e = IsOtherPayload (Some c))
            (profile_PayloadContent p)).
Proof.
  intros Hall. unfold classifyAndSortProfilePayloads. split.
  - rewrite sortSliceStable_Permutation.
    apply Forall_fmap. eapply Forall_impl; [exact Hall|].
    intros e [common ->]. cbn. eauto.
  - rewrite forallb_forall, !Forall_forall. split.
    + intros H e He.
      assert (Hin : In (classify e)
                      (sortSliceStable (lessFlags asc)
                         (map classify (profile_PayloadContent p)))).
      { apply list_elem_of_In. rewrite sortSliceStable_Permutation.
        apply list_elem_of_fmap. eauto. }
      apply H in Hin. apply bool_decide_eq_true_1 in Hin.
      rewrite Forall_forall in Hall. destruct (Hall e He) as [common ->].
      destruct Hin as [c Hc]. cbn in Hc. subst common. eauto.
    + intros H pr Hpr. apply list_elem_of_In in Hpr.
      rewrite sortSliceStable_Permutation in Hpr.
      apply list_elem_of_fmap in Hpr as (e & -> & He).
      destruct (H e He) as [c ->]. apply bool_decide_eq_true_2. cbn. eauto.
Qed.

Lemma MDMPayloads_others (p : Profile) :
  Forall (fun e => exists common, e = IsOtherPayload common) (profile_PayloadContent p) ->
  MDMPayloads p = [].
Proof.
  unfold MDMPayloads. induction 1 as [|e l [c ->] _ IH]; [reflexivity|].
  cbn. exact IH.
Qed.

(** X15. A profile whose payloads are all of types other than SCEP and
    MDM passes validation. When each of the payloads has its common
    fields, the install loop and the removal loop run over the profile
    without any call and without any change of state: such payloads are
    only reported. When one of them has no common fields, the report
    dereferences nil and both loops panic, still without any call or
    change of state. *)
Theorem unrecognised_payloads_are_skipped (w : World) (p : Profile) (s : State) :
  Forall (fun e => exists common, e = IsOtherPayload common) (profile_PayloadContent p) ->
  let ordered := classifyAndSortProfilePayloads p false in
  let removal := classifyAndSortProfilePayloads p true in
  (forall fromMDM, ValidateProfileInstall w p fromMDM s = (Val None, s))
  /\ (Forall (fun e => exists c, e = IsOtherPayload (Some c)) (profile_PayloadContent p) ->
      installPayloads w p (length ordered) 0 ordered s = (Val None, s)
      /\ removePayloads w (profile_PayloadIdentifier p) removal s = (Val tt, s))
  /\ (IsOtherPayload None ∈ profile_PayloadContent p ->
      installPayloads w p (length ordered) 0 ordered s
      = (Panicked "nil pointer dereference", s)
      /\ removePayloads w (profile_PayloadIdentifier p) removal s
         = (Panicked "nil pointer dereference", s)).
Proof.
  intros Hall ordered removal.
  destruct (classifyAndSort_others p false Hall) as [Hothers Hcommon].
  destruct (classifyAndSort_others p true Hall) as [Hothers' Hcommon'].
  fold ordered in Hothers, Hcommon. fold removal in Hothers', Hcommon'.
  assert (Hinstall : forall s0,
            installPayloads w p (length ordered) 0 ordered s0
            = if forallb (fun pr => bool_decide (is_Some (CommonPayload pr))) ordered
              then (Val None, s0) else (Panicked "nil pointer dereference", s0)).
  { intros s0. rewrite (installPayloads_others w p ordered Hothers).
    rewrite drop_0, firstn_all. reflexivity. }
  split; [|split].
  - intros fromMDM. unfold ValidateProfileInstall.
    rewrite (MDMPayloads_others p Hall). reflexivity.
  - intros Hsome. split.
    + rewrite Hinstall. rewrite (proj2 Hcommon Hsome). reflexivity.
    + rewrite (removePayloads_others w _ removal Hothers').
      rewrite (proj2 Hcommon' Hsome). reflexivity.
  - intros Hbare.
    assert (Hnot : ~ Forall (fun e => exists c, e = IsOtherPayload (Some c))
                     (profile_PayloadContent p)).
    { intros H. rewrite Forall_forall in H. destruct (H _ Hbare) as [c [=]]. }
    split.
    + rewrite Hinstall.
      destruct (forallb _ ordered) eqn:Hb; [|reflexivity].
      exfalso. apply Hnot, Hcommon. reflexivity.
    + rewrite (removePayloads_others w _ removal Hothers').
      destruct (forallb _ removal) eqn:Hb; [|reflexivity].
      exfalso. apply Hnot, Hcommon'. reflexivity.
Qed.

Lemma unrecognised_payloads_are_skipped_witness :
  (let w := Sample.okWorld Cases.wifiProfile in
   let ordered := classifyAndSortProfilePayloads Cases.wifiProfile false in
   ValidateProfileInstall w Cases.wifiProfile false Sample.st0 = (Val None, Sample.st0)
   /\ installPayloads w Cases.wifiProfile (length ordered) 0 ordered Sample.st0
      = (Val None, Sample.st0)
   /\ removePayloads w "wifi.prof" (classifyAndSortProfilePayloads Cases.wifiProfile true)
        Sample.st0 = (Val tt, Sample.st0))
  /\ (let w := Sample.okWorld Cases.bareProfile in
      let ordered := classifyAndSortProfilePayloads Cases.bareProfile false in
      installPayloads w Cases.bareProfile (length ordered) 0 ordered Sample.st0
      = (Panicked "nil pointer dereference", Sample.st0)
      /\ removePayloads w "bare.prof"
           (classifyAndSortProfilePayloads Cases.bareProfile true) Sample.st0
         = (Panicked "nil pointer dereference", Sample.st0)).
Proof.
  split.
  - intros w ordered.
    destruct (unrecognised_payloads_are_skipped w Cases.wifiProfile Sample.st0)
      as (Hvalid & Hskip & _).
    { constructor; [|constructor]. eexists. reflexivity. }
    split; [apply Hvalid|]. apply Hskip.
    constructor; [|constructor]. exists Cases.wifi. reflexivity.
  - intros w ordered.
    destruct (unrecognised_payloads_are_skipped w Cases.bareProfile Sample.st0)
      as (_ & _ & Hpanic).
    { constructor; [eexists; reflexivity|].
      constructor; [eexists; reflexivity | constructor]. }
    apply Hpanic. right. left.
Defined.

(** ** Installing an MDM payload *)

Lemma enroll2_inv (w : World) (c : MDMClient) (profileID : string) (s s' : State)
  (o : Outcome (option error)) :
  enroll2 w c profileID s = (o, s') ->
  (exists e, o = Val (Some e) /\ onlyTrace s s')
  \/ (o = Val None
      /\ (exists mdm, client_MDMPayload c = Some mdm /\ SignMessage mdm = true)
      /\ exists t, s' = set_device (set_MDMProfileIdentifier profileID (device s))
                          (set_trace t s)).
Proof.
  unfold enroll2. destruct (client_MDMPayload c) as [mdm|].
  2:{ intros [= <- <-]. left. eexists. split; [reflexivity | apply onlyTrace_refl]. }
  destruct (SignMessage mdm) eqn:Hsign; cbn [negb].
  2:{ intros [= <- <-]. left. eexists. split; [reflexivity | apply onlyTrace_refl]. }
  unfold authenticate, tokenUpdate, bind, emit, ret, modify.
  destruct (checkin_authenticate w _).
  { intros [= <- <-]. left. eexists. split; [reflexivity | apply onlyTrace_trace]. }
  destruct (checkin_tokenUpdate w _).
  { intros [= <- <-]. left. eexists. split; [reflexivity|].
    eexists. reflexivity. }
  intros [= <- <-]. right. split; [reflexivity|]. split; [eauto|].
  eexists. reflexivity.
Qed.

Lemma loadIdentityFromKeychain_ok (w : World) (c c' : MDMClient) (uuid : string)
  (s s' : State) :
  loadIdentityFromKeychain w c uuid s = (Val (c', None), s') ->
  uuid <> "" /\ is_Some (keychain s !! uuid).
Proof.
  unfold loadIdentityFromKeychain.
  destruct (String.eqb_spec uuid "") as [->|Hne]; [discriminate|].
  intros H. split; [exact Hne|].
  apply bind_inv in H as [([kci err] & s1 & Hload & H) | (msg & _ & [=])].
  apply LoadKeychainItem_inv in Hload as [_ [(k & [= -> ->] & Hk) | (e & [= -> ->])]].
  - eauto.
  - discriminate H.
Qed.

Lemma loadIdentityFromKeychain_payload (w : World) (c : MDMClient) (uuid : string) :
  returns (fun x : MDMClient * option error =>
             client_MDMPayload (fst x) = client_MDMPayload c)
    (loadIdentityFromKeychain w c uuid).
Proof. unfold loadIdentityFromKeychain. repeat returns_step; reflexivity. Qed.

(** X14. When [installMDMPayload] returns an error it has changed
    nothing but the record of calls. When it returns no error, the
    payload asks for signed messages, the device named an identity that
    its keychain holds, the enrollment profile of the device is now the
    given profile, the device was saved in that state, and the keychain,
    the references and the profile store are what they were. *)
Theorem installMDMPayload_outcomes (w : World) (mdm : MDMPayload)
  (profileID : string) (s : State) :
  (forall e s',
     installMDMPayload w mdm profileID s = (Val (Some e), s') -> onlyTrace s s')
  /\ (forall s',
        installMDMPayload w mdm profileID s = (Val None, s') ->
        SignMessage mdm = true
        /\ MDMIdentityKeychainUUID (device s) <> ""
        /\ is_Some (keychain s !! MDMIdentityKeychainUUID (device s))
        /\ device s' = set_MDMProfileIdentifier profileID (device s)
        /\ saved s' = Some (device s')
        /\ keychain s' = keychain s
        /\ payload_refs s' = payload_refs s
        /\ profiles s' = profiles s).
Proof.
  unfold installMDMPayload, newMDMClientUsingPayload, NewMDMClient2, enroll.
  split.
  - intros e s' H.
    apply bind_inv in H as [([c err] & s1 & Hnew & H) | (msg & _ & [=])].
    unfold gets at 1 in Hnew. unfold bind at 1 in Hnew.
    apply onlyTrace_loadIdentityFromKeychain in Hnew.
    destruct err as [e1|].
    { injection H as <- <-. exact Hnew. }
    apply bind_inv in H as [(err & s2 & Henroll & H) | (msg & _ & [=])].
    apply enroll2_inv in Henroll as [(e2 & [= ->] & Htr) | ([= ->] & _)].
    + injection H as <- <-. eapply onlyTrace_trans; eassumption.
    + unfold Device_Save, bind, emit, modify, ret in H. discriminate H.
  - intros s' H.
    apply bind_inv in H as [([c err] & s1 & Hnew & H) | (msg & _ & [=])].
    unfold gets at 1 in Hnew. unfold bind at 1 in Hnew.
    destruct err as [e1|]; [discriminate H|].
    pose proof (loadIdentityFromKeychain_ok _ _ _ _ _ _ Hnew) as [Hne Hsome].
    assert (Hc : client_MDMPayload c = Some mdm).
    { exact (loadIdentityFromKeychain_payload _ _ _ _ _ _ Hnew). }
    apply onlyTrace_loadIdentityFromKeychain in Hnew as [t1 ->].
    apply bind_inv in H as [(err & s2 & Henroll & H) | (msg & _ & [=])].
    apply enroll2_inv in Henroll
      as [(e2 & [= ->] & _) | ([= ->] & (mdm' & Hc' & Hsign) & t2 & ->)];
      [discriminate H|].
    rewrite Hc in Hc'. injection Hc' as <-.
    unfold Device_Save, bind, emit, modify, ret in H. injection H as <-.
    repeat split; assumption.
Qed.

Lemma installMDMPayload_outcomes_witness :
  SignMessage Sample.mdm1 = true
  /\ MDMIdentityKeychainUUID (device Cases.stResolved) <> ""
  /\ is_Some (keychain Cases.stResolved
                !! MDMIdentityKeychainUUID (device Cases.stResolved))
  /\ device Cases.stMDMInstalled
     = set_MDMProfileIdentifier "prof.id" (device Cases.stResolved)
  /\ saved Cases.stMDMInstalled = Some (device Cases.stMDMInstalled)
  /\ keychain Cases.stMDMInstalled = keychain Cases.stResolved
  /\ payload_refs Cases.stMDMInstalled = payload_refs Cases.stResolved
  /\ profiles Cases.stMDMInstalled = profiles Cases.stResolved.
Proof.
  destruct (installMDMPayload_outcomes (Sample.okWorld Sample.enrollProfile)
              Sample.mdm1 "prof.id" Cases.stResolved) as [_ Hok].
  apply Hok. exact installMDMPayload_sample_run.
Defined.

(** ** The subject of the request *)

Ltac in_tags := cbn [In]; solve [repeat ((left; reflexivity) || right)].

Lemma subjectEntry_ok (dev : Device) (onv : list string) (n n' : PkixName) :
  subjectEntry dev onv n = inl n' ->
  supportedEntry onv /\ (hd "" onv <> "CN" -> CommonName n' = CommonName n).
Proof.
  unfold subjectEntry, supportedEntry.
  destruct onv as [|tag [|v rest]]; try discriminate.
  cbn [hd].
  destruct (String.eqb_spec tag "C") as [->|_].
  { intros [= <-]. split; [|reflexivity]. do 3 eexists. split; [reflexivity|]. in_tags. }
  destruct (String.eqb_spec tag "L") as [->|_].
  { intros [= <-]. split; [|reflexivity]. do 3 eexists. split; [reflexivity|]. in_tags. }
  destruct (String.eqb_spec tag "ST") as [->|_].
  { intros [= <-]. split; [|reflexivity]. do 3 eexists. split; [reflexivity|]. in_tags. }
  destruct (String.eqb_spec tag "O") as [->|_].
  { intros [= <-]. split; [|reflexivity]. do 3 eexists. split; [reflexivity|]. in_tags. }
  destruct (String.eqb_spec tag "OU") as [->|_].
  { intros [= <-]. split; [|reflexivity]. do 3 eexists. split; [reflexivity|]. in_tags. }
  destruct (String.eqb_spec tag "CN") as [->|_]; [|discriminate].
  intros [= <-]. split; [|congruence].
  do 3 eexists. split; [reflexivity|]. in_tags.
Qed.

Lemma subjectGroup_ok (dev : Device) (onvg : list (list string)) :
  forall n n',
  subjectGroup dev onvg n = inl n' ->
  Forall supportedEntry onvg
  /\ (Forall (fun onv => hd "" onv <> "CN") onvg -> CommonName n' = CommonName n).
Proof.
  induction onvg as [|onv onvg IH]; intros n n'; cbn [subjectGroup].
  - intros [= <-]. split; [constructor | reflexivity].
  - destruct (subjectEntry dev onv n) as [n1|e] eqn:He; [|discriminate].
    intros H. destruct (subjectEntry_ok _ _ _ _ He) as [Hs Hcn].
    destruct (IH _ _ H) as [Hrest Hcn'].
    split; [constructor; assumption|].
    intros Hall. inversion Hall; subst. rewrite Hcn' by assumption. auto.
Qed.

Lemma subjectGroups_ok (dev : Device) (subject : list (list (list string))) :
  forall n n',
  subjectGroups dev subject n = inl n' ->
  Forall (Forall supportedEntry) subject
  /\ (Forall (Forall (fun onv => hd "" onv <> "CN")) subject ->
      CommonName n' = CommonName n).
Proof.
  induction subject as [|onvg subject IH]; intros n n'; cbn [subjectGroups].
  - intros [= <-]. split; [constructor | reflexivity].
  - destruct (subjectGroup dev onvg n) as [n1|e] eqn:He; [|discriminate].
    intros H. destruct (subjectGroup_ok _ _ _ _ He) as [Hs Hcn].
    destruct (IH _ _ H) as [Hrest Hcn'].
    split; [constructor; assumption|].
    intros Hall. inversion Hall; subst. rewrite Hcn' by assumption. auto.
Qed.

(** X21. The request that [csrFromSCEPProfilePayload] builds: it exists
    only when every entry of the subject has one of the tags C, L, ST, O,
    OU, CN and at least one value, and an entry that has not makes the
    function fail. The request carries the challenge of the payload and
    exactly one extension, the critical key usage extension 2.5.29.15.
    When no entry has the tag CN the common name is the identifier of the
    payload, so the common name is never empty when that identifier is
    not. *)
Theorem csrTemplate_subject_rules
  (marshal : KeyUsage.BitString -> list Z * option error) (pl : SCEPPayload)
  (dev : Device) :
  let plc := PayloadContent pl in
  (forall tmpl,
     csrTemplate marshal pl dev = inl tmpl ->
     Forall (Forall supportedEntry) (Subject plc)
     /\ ChallengePassword tmpl = Challenge plc
     /\ (exists ext, ExtraExtensions tmpl = [ext]
                     /\ KeyUsage.Id ext = [2; 5; 29; 15]
                     /\ KeyUsage.Critical ext = true)
     /\ (Forall (Forall (fun onv => hd "" onv <> "CN")) (Subject plc) ->
         CommonName (req_Subject tmpl) = PayloadIdentifier (scep_Payload pl))
     /\ (PayloadIdentifier (scep_Payload pl) <> "" ->
         CommonName (req_Subject tmpl) <> ""))
  /\ (~ Forall (Forall supportedEntry) (Subject plc) ->
      exists e, csrTemplate marshal pl dev = inr e).
Proof.
  intros plc.
  assert (Hok : forall tmpl,
            csrTemplate marshal pl dev = inl tmpl ->
            Forall (Forall supportedEntry) (Subject plc)
            /\ ChallengePassword tmpl = Challenge plc
            /\ (exists ext, ExtraExtensions tmpl = [ext]
                            /\ KeyUsage.Id ext = [2; 5; 29; 15]
                            /\ KeyUsage.Critical ext = true)
            /\ (Forall (Forall (fun onv => hd "" onv <> "CN")) (Subject plc) ->
                CommonName (req_Subject tmpl) = PayloadIdentifier (scep_Payload pl))
            /\ (PayloadIdentifier (scep_Payload pl) <> "" ->
                CommonName (req_Subject tmpl) <> "")).
  { intros tmpl. unfold csrTemplate, KeyUsage.newKeyUsageExtension. fold plc.
    destruct (marshal _) as [value [e|]]; [discriminate|].
    destruct (subjectGroups dev (Subject plc) emptyName) as [n|e] eqn:Hs; [|discriminate].
    intros [= <-]. destruct (subjectGroups_ok _ _ _ _ Hs) as [Hall Hcn].
    split; [exact Hall|]. split; [reflexivity|]. split.
    { eexists. split; [reflexivity|]. split; reflexivity. }
    cbn [req_Subject CommonName]. split.
    - intros Hno. rewrite (Hcn Hno). reflexivity.
    - intros Hid. destruct (String.eqb_spec (CommonName n) ""); assumption. }
  split; [exact Hok|].
  intros Hbad. destruct (csrTemplate marshal pl dev) as [tmpl|e] eqn:Hc; [|eauto].
  exfalso. apply Hbad. apply (Hok tmpl eq_refl).
Qed.

Lemma csrTemplate_subject_rules_witness :
  Forall (Forall supportedEntry) (Subject (PayloadContent Sample.scep1))
  /\ exists e,
       csrTemplate (asn1_Marshal (Sample.okWorld Sample.scepProfile))
         (mkSCEPPayload (scep_Payload Sample.scep1)
            (mkSCEPPayloadContent "" "" "" [] "" 0 0 [[["DC"; "example"]]]))
         Sample.dev0 = inr e.
Proof.
  split.
  - destruct (csrTemplate_subject_rules
                (asn1_Marshal (Sample.okWorld Sample.scepProfile)) Sample.scep1
                Sample.dev0) as [Hok _].
    edestruct Hok as [Hall _]; [reflexivity | exact Hall].
  - destruct (csrTemplate_subject_rules
                (asn1_Marshal (Sample.okWorld Sample.scepProfile))
                (mkSCEPPayload (scep_Payload Sample.scep1)
                   (mkSCEPPayloadContent "" "" "" [] "" 0 0 [[["DC"; "example"]]]))
                Sample.dev0) as [_ Hbad].
    apply Hbad. intros Hall.
    inversion Hall as [|g gs Hg _]. inversion Hg as [|onv onvs Honv _].
    destruct Honv as (tag & v & rest & [= <- _ _] & Hin).
    cbn [In] in Hin.
    repeat (destruct Hin as [Hin | Hin]; [discriminate Hin|]). exact Hin.
Defined.

(** ** What a removal may delete *)

(** X16. Whatever [removeSCEPPayload] returns, it either leaves the
    keychain and the references as they were, or it had loaded the
    identity item that the reference of the payload names together with
    the key item and the certificate item of that identity, and then no
    keychain item other than these three and no reference other than the
    one of the payload has changed. *)
Theorem removeSCEPPayload_deletes_only_loaded (w : World) (profileID : string)
  (pl : SCEPPayload) (s s' : State) (o : Outcome (option error)) :
  let rk := refKey profileID (scep_Payload pl) "keychain_identity" in
  removeSCEPPayload w profileID pl s = (o, s') ->
  (keychain s' = keychain s /\ payload_refs s' = payload_refs s)
  \/ (exists kciID kciKey kciCert,
        keychain s !! BucketGetString (payload_refs s) rk = Some kciID
        /\ keychain s !! kci_IdentityKeyUUID kciID = Some kciKey
        /\ keychain s !! kci_IdentityCertificateUUID kciID = Some kciCert
        /\ (forall k, k <> kci_UUID kciID -> k <> kci_UUID kciKey ->
                      k <> kci_UUID kciCert ->
                      keychain s' !! k = keychain s !! k)
        /\ (forall k, k <> rk -> payload_refs s' !! k = payload_refs s !! k)).
Proof.
  intros rk H. unfold removeSCEPPayload in H.
  rewrite (bind_val _ _ _ _ _ (loadPayloadRefString_run w _ _ _ _)) in H.
  fold rk in H.
  destruct (bolt_tx w (length (trace s))) as [e|].
  { inversion H; subst. left. split; reflexivity. }
  load_step H kciID HkID; [|inversion H; subst; left; split; reflexivity].
  load_step H kciKey HkKey; [|inversion H; subst; left; split; reflexivity].
  load_step H kciCert HkCert; [|inversion H; subst; left; split; reflexivity].
  cbn [keychain set_trace] in HkID, HkKey, HkCert.
  right. exists kciID, kciKey, kciCert.
  split; [exact HkID|]. split; [exact HkKey|]. split; [exact HkCert|].
  do 3 (unfold bind at 1 in H; rewrite KeychainItem_Delete_run in H;
        match type of H with
        | context [bolt_tx ?w ?n] => destruct (bolt_tx w n) as [?e|]
        end;
        [inversion H; subst;
         cbn [keychain payload_refs set_keychain set_trace];
         split; [intros k H1 H2 H3; rewrite ?lookup_delete_ne by congruence;
                 reflexivity | reflexivity]|]).
  unfold bind at 1 in H. rewrite removePayloadRefString_run in H. fold rk in H.
  match type of H with
  | context [bolt_tx ?w ?n] => destruct (bolt_tx w n) as [?e|]
  end; inversion H; subst;
    cbn [keychain payload_refs set_keychain set_payload_refs set_trace];
    (split; [intros k H1 H2 H3; rewrite ?lookup_delete_ne by congruence; reflexivity|]).
  - reflexivity.
  - intros k Hk. rewrite lookup_delete_ne by congruence. reflexivity.
Qed.

Lemma removeSCEPPayload_deletes_only_loaded_witness :
  (keychain Sample.stRemoved = keychain Sample.stIssued
   /\ payload_refs Sample.stRemoved = payload_refs Sample.stIssued)
  \/ (exists kciID kciKey kciCert,
        keychain Sample.stIssued
          !! BucketGetString (payload_refs Sample.stIssued) Sample.refKey1
        = Some kciID
        /\ keychain Sample.stIssued !! kci_IdentityKeyUUID kciID = Some kciKey
        /\ keychain Sample.stIssued !! kci_IdentityCertificateUUID kciID = Some kciCert
        /\ (forall k, k <> kci_UUID kciID -> k <> kci_UUID kciKey ->
                      k <> kci_UUID kciCert ->
                      keychain Sample.stRemoved !! k = keychain Sample.stIssued !! k)
        /\ (forall k, k <> Sample.refKey1 ->
                      payload_refs Sample.stRemoved !! k
                      = payload_refs Sample.stIssued !! k)).
Proof.
  exact (removeSCEPPayload_deletes_only_loaded (Sample.okWorld Sample.scepProfile)
           "prof.id" Sample.scep1 Sample.stIssued Sample.stRemoved (Val None)
           removeSCEPPayload_sample_run).
Defined.

(** ** Saving the MDM identity *)

Lemma bind_ret {A B : Type} (a : A) (k : A -> M B) (s : State) :
  bind (ret a) k s = k a s.
Proof. reflexivity. Qed.

Lemma KeychainItem_Save_state (w : World) (kci : KeychainItem) (s : State) :
  KeychainItem_Save w kci s
  = (Val (bolt_tx w (length (trace s))),
     set_keychain
       (match bolt_tx w (length (trace s)) with
        | Some _ => keychain s
        | None => <[kci_UUID kci := kci]> (keychain s)
        end)
       (set_trace (trace s ++ [EvKeychainSave (kci_Class kci) (kci_UUID kci)]) s)).
Proof.
  rewrite KeychainItem_Save_run.
  destruct (bolt_tx w (length (trace s))); [destruct s|]; reflexivity.
Qed.

(** X22. For a device without identity, [saveMDMIdentity] returns no
    error and sets the identity of the device to a newly generated UUID
    whatever the three saves return: when all three fail the keychain is
    what it was, and the device names an identity that is not there. When
    all three succeed the keychain holds the identity item and the key
    and certificate items it refers to, with the key and the certificate
    of the client. *)
Theorem saveMDMIdentity_ignores_save_errors (w : World) (c : MDMClient) (s : State) :
  let n := length (trace s) in
  let u1 := uuid_NewString w n in
  let u2 := uuid_NewString w (n + 2) in
  let u3 := uuid_NewString w (n + 4) in
  MDMIdentityKeychainUUID (device s) = "" ->
  exists s',
    saveMDMIdentity w c s = (Val None, s')
    /\ device s' = set_MDMIdentityKeychainUUID u3 (device s)
    /\ (bolt_tx w (n + 1) <> None -> bolt_tx w (n + 3) <> None ->
        bolt_tx w (n + 5) <> None -> keychain s' = keychain s)
    /\ (bolt_tx w (n + 1) = None -> bolt_tx w (n + 3) = None ->
        bolt_tx w (n + 5) = None -> u1 <> u2 -> u1 <> u3 -> u2 <> u3 ->
        keychain s' !! u3 = Some (mkKeychainItem u3 ClassIdentity None None u1 u2)
        /\ keychain s' !! u1
           = Some (mkKeychainItem u1 ClassKey (IdentityPrivateKey c) None "" "")
        /\ keychain s' !! u2
           = Some (mkKeychainItem u2 ClassCertificate None (IdentityCertificate c)
                     "" "")).
Proof.
  intros n u1 u2 u3 Hnone.
  unfold saveMDMIdentity. unfold gets at 1. unfold bind at 1.
  rewrite Hnone. cbn [String.eqb negb]. rewrite bind_ret.
  rewrite (bind_val _ _ _ _ _ (NewKeychainItem_run w _ _)).
  cbn [kci_UUID kci_Class kci_Key kci_Certificate kci_IdentityKeyUUID
       kci_IdentityCertificateUUID].
  fold n u1.
  rewrite (bind_val _ _ _ _ _ (KeychainItem_Save_state w _ _)).
  cbn [trace keychain set_trace set_keychain kci_UUID kci_Class].
  rewrite !length_snoc. fold n.
  rewrite (bind_val _ _ _ _ _ (NewKeychainItem_run w _ _)).
  cbn [trace keychain set_trace set_keychain kci_UUID kci_Class kci_Key
       kci_Certificate kci_IdentityKeyUUID kci_IdentityCertificateUUID].
  rewrite !length_snoc. fold n.
  replace (n + 1 + 1)%nat with (n + 2)%nat by lia. fold u2.
  rewrite (bind_val _ _ _ _ _ (KeychainItem_Save_state w _ _)).
  cbn [trace keychain set_trace set_keychain kci_UUID kci_Class].
  rewrite !length_snoc. fold n.
  replace (n + 1 + 1 + 1)%nat with (n + 3)%nat by lia.
  rewrite (bind_val _ _ _ _ _ (NewKeychainItem_run w _ _)).
  cbn [trace keychain set_trace set_keychain kci_UUID kci_Class kci_Key
       kci_Certificate kci_IdentityKeyUUID kci_IdentityCertificateUUID].
  rewrite !length_snoc. fold n.
  replace (n + 1 + 1 + 1 + 1)%nat with (n + 4)%nat by lia. fold u3.
  rewrite (bind_val _ _ _ _ _ (KeychainItem_Save_state w _ _)).
  cbn [trace keychain set_trace set_keychain kci_UUID kci_Class].
  rewrite !length_snoc. fold n.
  replace (n + 1 + 1 + 1 + 1 + 1)%nat with (n + 5)%nat by lia.
  eexists. split; [reflexivity|].
  cbn [device keychain set_device set_keychain set_trace].
  split; [reflexivity|]. split.
  - intros H1 H3 H5.
    destruct (bolt_tx w (n + 1)); [|congruence].
    destruct (bolt_tx w (n + 3)); [|congruence].
    destruct (bolt_tx w (n + 5)); [reflexivity | congruence].
  - intros H1 H3 H5 H12 H13 H23. rewrite H1, H3, H5.
    split; [apply lookup_insert_eq|]. split.
    + rewrite !lookup_insert_ne by congruence. apply lookup_insert_eq.
    + rewrite lookup_insert_ne by congruence. apply lookup_insert_eq.
Qed.

Lemma saveMDMIdentity_ignores_save_errors_witness :
  exists s',
    saveMDMIdentity (Sample.faultyWorld Sample.scepProfile [1%nat; 3%nat; 5%nat])
      (mkMDMClient None (Some (mkCertificate 0)) (Some (mkPrivateKey 2048 0)))
      Sample.st0 = (Val None, s')
    /\ MDMIdentityKeychainUUID (device s') = "uuid-E"
    /\ keychain s' = ∅.
Proof.
  destruct (saveMDMIdentity_ignores_save_errors
              (Sample.faultyWorld Sample.scepProfile [1%nat; 3%nat; 5%nat])
              (mkMDMClient None (Some (mkCertificate 0)) (Some (mkPrivateKey 2048 0)))
              Sample.st0 eq_refl) as (s' & Hrun & Hdev & Hfail & _).
  exists s'. split; [exact Hrun|]. split.
  - rewrite Hdev. reflexivity.
  - apply Hfail; discriminate.
Defined.

(** ** A successful install *)

Lemma installProfile_reinstall_sample_run :
  installProfile Sample.reinstallWorld Sample.doc false Sample.stInstalled
  = (Val None, Sample.stReinstalled).
Proof. vm_compute. reflexivity. Qed.

Lemma sameIdentity_installProfile (w : World) (pb : bytes) (fromMDM : bool) :
  preserves sameIdentity (installProfile w pb fromMDM).
Proof.
  apply (keeps_installProfile sameIdentity w);
    first [ (intros ? ? ? (H1 & H2 & H3) (H4 & H5 & H6); repeat split; congruence)
          | intros; repeat split ].
Qed.

(** X23. When [installProfile] returns no error, the document was not
    empty and parsed to a profile, and the store of the device now holds
    that very document under the identifier the profile declares; every
    other document of the store was there before the install. *)
Theorem installProfile_success_stores_document (w : World) (pb : bytes)
  (fromMDM : bool) (s s' : State) :
  installProfile w pb fromMDM s = (Val None, s') ->
  exists p,
    pb <> []
    /\ plist_Unmarshal w pb = inl p
    /\ profiles s' !! profileKey (UDID (device s)) (profile_PayloadIdentifier p)
       = Some pb
    /\ (forall k v,
          k <> profileKey (UDID (device s)) (profile_PayloadIdentifier p) ->
          profiles s' !! k = Some v -> profiles s !! k = Some v).
Proof.
  intros H.
  destruct (sameIdentity_installProfile w pb fromMDM _ _ _ H) as (Hudid & _).
  destruct (installProfile_inv w pb fromMDM s s' _ H)
    as [[_ Hne] | (p & s4 & Hparse & Hbefore & Hpersist)]; [congruence|].
  destruct (persistProfile_inv w pb _ _ _ _ Hpersist)
    as [(e & [=] & _) | (_ & Hpb & Hdev & Hprofiles)].
  exists p. split; [exact Hpb|]. split; [exact Hparse|].
  rewrite Hprofiles, <- Hudid, Hdev. split.
  - apply lookup_insert_eq.
  - intros k v Hk Hlook. rewrite lookup_insert_ne in Hlook by congruence.
    apply Hbefore. exact Hlook.
Qed.

Lemma installProfile_success_stores_document_witness :
  exists p,
    Sample.doc <> []
    /\ plist_Unmarshal Sample.reinstallWorld Sample.doc = inl p
    /\ profiles Sample.stReinstalled
         !! profileKey (UDID (device Sample.stInstalled)) (profile_PayloadIdentifier p)
       = Some Sample.doc
    /\ (forall k v,
          k <> profileKey (UDID (device Sample.stInstalled))
                 (profile_PayloadIdentifier p) ->
          profiles Sample.stReinstalled !! k = Some v ->
          profiles Sample.stInstalled !! k = Some v).
Proof.
  exact (installProfile_success_stores_document Sample.reinstallWorld Sample.doc false
           Sample.stInstalled Sample.stReinstalled
           installProfile_reinstall_sample_run).
Defined.
